(** * med-risk-predictor: cleaning, forecasting dates, risk classification

    A shallow embedding of the core of the repository:

    - [src/utils/helpers.py]         ([validate_dataframe], [format_date],
                                      [clean_numeric_column], [get_risk_color],
                                      [get_risk_emoji], [calculate_percentage],
                                      [calculate_growth_rate],
                                      [generate_date_range], [get_last_n_months]),
    - [src/preprocessing/cleaning.py] ([DataCleaner], with [aggregate_monthly],
                                      [split_by_medication] and
                                      [get_cleaning_summary]),
    - [src/models/risk_classifier.py] ([RiskClassifier], with its statistics,
                                      lists and report),
    - [src/models/predict.py]         ([ConsumptionPredictor.predict_future],
                                      [predict_all_medications]),
    - [src/models/train.py]           ([MedicationPredictor]: [prepare_data],
                                      [predict], persistence),
    - [app.py]                        (the risk indicators of [main]).

    Modelling conventions.

    - A pandas [DataFrame] is a list of column names together with a list of
      rows; a row is a finite map from column names to cells.
    - Python numbers are exact rationals ([Q]) or the float [NaN]; binary64
      rounding and the infinities are outside the model.  The module
      [Binary64] replays the threshold scenarios of the classifier on
      IEEE-754 doubles.
    - Python text is a [string] of bytes; case mapping and white space are
      the ASCII ones.
    - Exceptions are values of [result]; code that mutates a frame object
      runs in a state-and-exception monad over a heap of frames. *)

From Stdlib Require Import ZArith QArith Qround Qminmax String Ascii List Bool Lia Lqa.
From Stdlib Require Import Floats.
From stdpp Require Import base option list gmap strings.

Open Scope string_scope.

(** ** Numbers *)

Module Num.

(** A Python float: a rational or [NaN]. *)
Inductive num : Type :=
| Fin (q : Q)
| NaN.

Definition Qltb (x y : Q) : bool := negb (Qle_bool y x).

(** [x == y], [x < y], [x > y] on floats: every comparison with [NaN] is
    false. *)
Definition eqb (x y : num) : bool :=
  match x, y with
  | Fin a, Fin b => Qeq_bool a b
  | _, _ => false
  end.

Definition ltb (x y : num) : bool :=
  match x, y with
  | Fin a, Fin b => Qltb a b
  | _, _ => false
  end.

Definition gtb (x y : num) : bool := ltb y x.

Definition sub (x y : num) : num :=
  match x, y with
  | Fin a, Fin b => Fin (a - b)
  | _, _ => NaN
  end.

(** [x / y]; callers guard the divisor, so the value at [y = 0] is never
    observed. *)
Definition div (x y : num) : num :=
  match x, y with
  | Fin a, Fin b => Fin (a / b)
  | _, _ => NaN
  end.

(** Python's [max(0, x)]: the second argument wins only when it is
    strictly greater (as in [Qmax]), so [max(0, nan)] is [0]. *)
Definition max0 (x : num) : num :=
  match x with
  | Fin q => Fin (Qmax 0 q)
  | NaN => Fin 0
  end.

(** Round half to even, to an integer. *)
Definition round_half_even (x : Q) : Z :=
  let f := Qfloor x in
  let r := (x - inject_Z f)%Q in
  if Qltb r (1 # 2) then f
  else if Qltb (1 # 2) r then (f + 1)%Z
  else if Z.even f then f else (f + 1)%Z.

(** [round(x, 2)]. *)
Definition round2 (x : num) : num :=
  match x with
  | Fin q => Fin (inject_Z (round_half_even (q * 100)) / 100)
  | NaN => NaN
  end.

End Num.

Export Num.

(** ** Frames, cells and exceptions *)

Module Frame.

(** A cell: text, a number (a missing value is [CNum NaN]) or a
    [datetime]/[Timestamp]. *)
Inductive cell : Type :=
| CStr (s : string)
| CNum (x : num)
| CTime (year month day : Z).

Abbreviation Row := (gmap string cell).

Record DataFrame : Type := mkFrame {
  columns : list string;
  rows : list Row
}.

(** [pd.DataFrame()] *)
Definition empty_frame : DataFrame := mkFrame [] [].

(** [df.empty]: some axis has length zero. *)
Definition is_empty (df : DataFrame) : bool :=
  match columns df, rows df with
  | [], _ | _, [] => true
  | _, _ => false
  end.

Inductive error : Type :=
| ValueError (msg : string) (cols : list string)
| KeyError (col : string)
| TypeError
| AttributeError
| IndexError.

Inductive result (A : Type) : Type :=
| Ok (a : A)
| Raise (e : error).
Arguments Ok {A} a.
Arguments Raise {A} e.

Definition bind {A B} (m : result A) (k : A -> result B) : result B :=
  match m with
  | Ok a => k a
  | Raise e => Raise e
  end.

(** Map a fallible function over a list, stopping at the first
    exception. *)
Fixpoint traverse {A B} (f : A -> result B) (l : list A) : result (list B) :=
  match l with
  | [] => Ok []
  | x :: l' => bind (f x) (fun y => bind (traverse f l') (fun ys => Ok (y :: ys)))
  end.

(** [row.get(key, default)] *)
Definition row_get (row : Row) (key : string) (dflt : cell) : cell :=
  default dflt (row !! key).

(** [row[key]] *)
Definition row_item (row : Row) (key : string) : result cell :=
  match row !! key with
  | Some c => Ok c
  | None => Raise (KeyError key)
  end.

(** The cell as an operand of float arithmetic. *)
Definition as_num (c : cell) : result num :=
  match c with
  | CNum x => Ok x
  | _ => Raise TypeError
  end.

(** [df[col] = values]: an existing column keeps its place, a new one is
    appended. *)
Definition add_column (cols : list string) (col : string) : list string :=
  if bool_decide (col ∈ cols) then cols else (cols ++ [col])%list.

Definition set_column (col : string) (values : list cell) (df : DataFrame) : DataFrame :=
  mkFrame (add_column (columns df) col)
          (zip_with (fun row v => <[col := v]> row) (rows df) values).

End Frame.

Export Frame.

(** ** The heap of frame objects *)

Module Heap.

Abbreviation ref := nat.
Abbreviation Store := (gmap nat DataFrame).

(** Computations that read and mutate frame objects and may raise; what
    was mutated before an exception stays mutated. *)
Definition M (A : Type) : Type := Store -> result A * Store.

Definition ret {A} (a : A) : M A := fun σ => (Ok a, σ).

Definition mbind {A B} (m : M A) (k : A -> M B) : M B :=
  fun σ =>
    match m σ with
    | (Ok a, σ') => k a σ'
    | (Raise e, σ') => (Raise e, σ')
    end.

Definition lift {A} (m : result A) : M A := fun σ => (m, σ).

(** Dereference; a dangling reference behaves as [None]. *)
Definition deref (r : ref) : M DataFrame :=
  fun σ =>
    match σ !! r with
    | Some df => (Ok df, σ)
    | None => (Raise AttributeError, σ)
    end.

(** [df.copy()]: a new object with the same content. *)
Definition copy (r : ref) : M ref :=
  mbind (deref r) (fun df σ =>
    let r' := fresh (dom σ) in (Ok r', <[r' := df]> σ)).

(** [df.apply(f, axis=1)] *)
Definition apply_rows (r : ref) (f : Row -> result cell) : M (list cell) :=
  mbind (deref r) (fun df => lift (traverse f (rows df))).

(** [df[col].apply(g)] *)
Definition apply_column (r : ref) (col : string) (g : cell -> cell) : M (list cell) :=
  apply_rows r (fun row => bind (row_item row col) (fun c => Ok (g c))).

(** [df[col] = values], in place. *)
Definition setitem (r : ref) (col : string) (values : list cell) : M unit :=
  mbind (deref r) (fun df σ => (Ok tt, <[r := set_column col values df]> σ)).

End Heap.

Export Heap.

#[export] Instance result_bind : MBind result :=
  fun A B k m => Frame.bind m k.
#[export] Instance heap_bind : MBind M :=
  fun A B k m => Heap.mbind m k.

(** ** [src/utils/helpers.py]: risk colours and emojis *)

Module Helpers.

Definition colors : gmap string string :=
  list_to_map [("Alto", "#FF4B4B"); ("Médio", "#FFA500"); ("Baixo", "#00CC66")].

Definition get_risk_color (risk_level : string) : string :=
  default "#CCCCCC" (colors !! risk_level).

Definition emojis : gmap string string :=
  list_to_map [("Alto", "🔴"); ("Médio", "🟡"); ("Baixo", "🟢")].

Definition get_risk_emoji (risk_level : string) : string :=
  default "⚪" (emojis !! risk_level).

End Helpers.

(** ** [src/models/risk_classifier.py] *)

Module RiskClassifier.

Inductive risk : Type := Alto | Medio | Baixo.

(** The string the code returns for each level. *)
Definition risk_name (r : risk) : string :=
  match r with
  | Alto => "Alto"
  | Medio => "Médio"
  | Baixo => "Baixo"
  end.

(** Severity, for comparing levels: High > Medium > Low. *)
Definition severity (r : risk) : nat :=
  match r with
  | Alto => 2
  | Medio => 1
  | Baixo => 0
  end.

(** Operators on cells as Python evaluates them on row values. *)
Definition cell_eq_zero (c : cell) : bool :=
  match c with
  | CNum x => Num.eqb x (Fin 0)
  | _ => false
  end.

Definition cell_gt_zero (c : cell) : result bool :=
  (x ← as_num c; Ok (Num.gtb x (Fin 0))).

Definition cell_div (a b : cell) : result num :=
  (x ← as_num a; y ← as_num b; Ok (Num.div x y)).

Definition cell_sub (a b : cell) : result num :=
  (x ← as_num a; y ← as_num b; Ok (Num.sub x y)).

Definition classify_risk (estoque previsao : cell) : result risk :=
  if cell_eq_zero previsao then Ok Baixo
  else
    (razao ← cell_div estoque previsao;
     if Num.ltb razao (Fin 1) then Ok Alto
     else if Num.ltb razao (Fin (12 # 10)) then Ok Medio
     else Ok Baixo).

Definition zero : cell := CNum (Fin 0).

(** The three row lambdas of [classify_batch]. *)
Definition nivel_risco_of (row : Row) : result cell :=
  (r ← classify_risk (row_get row "estoque_atual" zero)
                      (row_get row "consumo_previsto" zero);
   Ok (CStr (risk_name r))).

Definition razao_estoque_of (row : Row) : result cell :=
  (positive ← cell_gt_zero (row_get row "consumo_previsto" zero);
   if positive : bool then
     estoque ← row_item row "estoque_atual";
     previsto ← row_item row "consumo_previsto";
     razao ← cell_div estoque previsto;
     Ok (CNum (Num.round2 razao))
   else Ok zero).

Definition deficit_of (row : Row) : result cell :=
  (d ← cell_sub (row_get row "consumo_previsto" zero)
                 (row_get row "estoque_atual" zero);
   Ok (CNum (Num.max0 d))).

(** [get_risk_color] and [get_risk_emoji] applied to a cell of the
    [nivel_risco] column. *)
Definition color_cell (c : cell) : cell :=
  match c with
  | CStr s => CStr (Helpers.get_risk_color s)
  | _ => CStr "#CCCCCC"
  end.

Definition emoji_cell (c : cell) : cell :=
  match c with
  | CStr s => CStr (Helpers.get_risk_emoji s)
  | _ => CStr "⚪"
  end.

Definition classify_batch (df : ref) : M ref :=
  (df ← copy df;
   v ← apply_rows df nivel_risco_of;
   setitem df "nivel_risco" v;;
   v ← apply_column df "nivel_risco" color_cell;
   setitem df "cor_risco" v;;
   v ← apply_column df "nivel_risco" emoji_cell;
   setitem df "emoji_risco" v;;
   v ← apply_rows df razao_estoque_of;
   setitem df "razao_estoque" v;;
   v ← apply_rows df deficit_of;
   setitem df "deficit" v;;
   Heap.ret df).

(** The columns [classify_batch] assigns, in order. *)
Definition risk_columns : list string :=
  ["nivel_risco"; "cor_risco"; "emoji_risco"; "razao_estoque"; "deficit"].

End RiskClassifier.

(** ** [Binary64]: the classifier's thresholds on IEEE-754 doubles *)

Module Binary64.

Import RiskClassifier.

(** [0x1.3333333333333p+0] is the double Python reads for the literal
    [1.2]. *)
Definition classify_risk (estoque previsao : float) : risk :=
  if PrimFloat.eqb previsao 0%float then Baixo
  else
    let razao := PrimFloat.div estoque previsao in
    if PrimFloat.ltb razao 1%float then Alto
    else if PrimFloat.ltb razao 0x1.3333333333333p+0%float then Medio
    else Baixo.

End Binary64.

(** ** Calendar dates ([datetime], [timedelta]) *)

Module Calendar.

Local Open Scope Z_scope.

Record date : Type := mkDate { year : Z; month : Z; day : Z }.

Definition is_leap (y : Z) : bool :=
  (y mod 4 =? 0) && (negb (y mod 100 =? 0) || (y mod 400 =? 0)).

Definition days_in_month (y m : Z) : Z :=
  if m =? 2 then (if is_leap y then 29 else 28)
  else if (m =? 4) || (m =? 6) || (m =? 9) || (m =? 11) then 30
  else 31.

(** The dates [datetime(y, m, d)] accepts ([MINYEAR] is 1, [MAXYEAR] 9999). *)
Definition valid_date (y m d : Z) : bool :=
  (1 <=? y) && (y <=? 9999) && (1 <=? m) && (m <=? 12) &&
  (1 <=? d) && (d <=? days_in_month y m).

Definition next_day (t : date) : date :=
  if day t <? days_in_month (year t) (month t)
  then mkDate (year t) (month t) (day t + 1)
  else if month t <? 12 then mkDate (year t) (month t + 1) 1
  else mkDate (year t + 1) 1 1.

(** [t + timedelta(days=n)] for [n >= 0] (the range check on the result is
    not modelled). *)
Definition add_days (t : date) (n : nat) : date := Nat.iter n next_day t.

End Calendar.

(** ** Text: [str] methods, [strptime], [strftime], [to_numeric] *)

(** Digits, letters and white space are the ASCII ones: [\d] is [0-9]. *)

Module Text.

Local Open Scope Z_scope.

Definition code (c : ascii) : Z := Z.of_N (N_of_ascii c).

Definition is_digit (c : ascii) : bool := (48 <=? code c) && (code c <=? 57).

Definition digit_val (c : ascii) : Z := code c - 48.

Definition digit_char (d : Z) : ascii := ascii_of_N (Z.to_N (48 + d)).

(** The white space [str.strip()] removes, within ASCII. *)
Definition is_space (c : ascii) : bool :=
  ((9 <=? code c) && (code c <=? 13)) || ((28 <=? code c) && (code c <=? 32)).

Fixpoint lstrip (s : string) : string :=
  match s with
  | String c s' => if is_space c then lstrip s' else s
  | EmptyString => EmptyString
  end.

Fixpoint rstrip (s : string) : string :=
  match s with
  | String c s' =>
      match rstrip s' with
      | EmptyString => if is_space c then EmptyString else String c EmptyString
      | t => String c t
      end
  | EmptyString => EmptyString
  end.

(** [s.strip()] *)
Definition strip (s : string) : string := rstrip (lstrip s).

Definition upper_char (c : ascii) : ascii :=
  if (97 <=? code c) && (code c <=? 122)
  then ascii_of_N (Z.to_N (code c - 32)) else c.

(** [s.upper()] *)
Fixpoint upper (s : string) : string :=
  match s with
  | String c s' => String (upper_char c) (upper s')
  | EmptyString => EmptyString
  end.

(** [s.replace(',', '.')] *)
Fixpoint replace_comma (s : string) : string :=
  match s with
  | String c s' => String (if Ascii.eqb c "," then "."%char else c) (replace_comma s')
  | EmptyString => EmptyString
  end.

(** *** [strptime] *)

(** The directives of the formats [format_date] tries, and literal
    characters. *)
Inductive directive : Type :=
| DY                (* %Y : \d\d\d\d *)
| Dm                (* %m : 1[0-2]|0[1-9]|[1-9] *)
| Dd                (* %d : 3[0-1]|[1-2]\d|0[1-9]|[1-9]| [1-9] *)
| Lit (c : ascii).

(** The fields found so far; [strptime] starts from day 1, month 1. *)
Record fields : Type := mkFields { f_year : Z; f_month : Z; f_day : Z }.

Definition in_range (lo hi : Z) (c : ascii) : bool :=
  (lo <=? digit_val c) && (digit_val c <=? hi) && is_digit c.

(** The matches of the regular expression of [%m] at the head of [s], in
    the order the alternatives are tried: the value and the rest. *)
Definition match_month (s : string) : list (Z * string) :=
  match s with
  | String a s1 =>
      (match s1 with
       | String b s2 =>
           (if Ascii.eqb a "1" && in_range 0 2 b then [(10 + digit_val b, s2)] else []) ++
           (if Ascii.eqb a "0" && in_range 1 9 b then [(digit_val b, s2)] else [])
       | EmptyString => []
       end) ++
      (if in_range 1 9 a then [(digit_val a, s1)] else [])
  | EmptyString => []
  end%list.

Definition match_day (s : string) : list (Z * string) :=
  match s with
  | String a s1 =>
      (match s1 with
       | String b s2 =>
           (if Ascii.eqb a "3" && in_range 0 1 b then [(30 + digit_val b, s2)] else []) ++
           (if in_range 1 2 a && is_digit b then [(10 * digit_val a + digit_val b, s2)] else []) ++
           (if Ascii.eqb a "0" && in_range 1 9 b then [(digit_val b, s2)] else [])
       | EmptyString => []
       end) ++
      (if in_range 1 9 a then [(digit_val a, s1)] else []) ++
      (match s1 with
       | String b s2 =>
           if Ascii.eqb a " " && in_range 1 9 b then [(digit_val b, s2)] else []
       | EmptyString => []
       end)
  | EmptyString => []
  end%list.

Definition match_year (s : string) : list (Z * string) :=
  match s with
  | String a (String b (String c (String d rest))) =>
      if is_digit a && is_digit b && is_digit c && is_digit d
      then [(1000 * digit_val a + 100 * digit_val b + 10 * digit_val c + digit_val d, rest)]
      else []
  | _ => []
  end.

(** All the ways the format matches a prefix of [s], first match first
    (the regular expression engine backtracks in this order). *)
Fixpoint match_format (fmt : list directive) (f : fields) (s : string)
  : list (fields * string) :=
  match fmt with
  | [] => [(f, s)]
  | DY :: fmt' =>
      flat_map (fun '(v, rest) => match_format fmt' (mkFields v (f_month f) (f_day f)) rest)
               (match_year s)
  | Dm :: fmt' =>
      flat_map (fun '(v, rest) => match_format fmt' (mkFields (f_year f) v (f_day f)) rest)
               (match_month s)
  | Dd :: fmt' =>
      flat_map (fun '(v, rest) => match_format fmt' (mkFields (f_year f) (f_month f) v) rest)
               (match_day s)
  | Lit c :: fmt' =>
      match s with
      | String a rest => if Ascii.eqb a c then match_format fmt' f rest else []
      | EmptyString => []
      end
  end.

(** [datetime.strptime(s, fmt)]: [None] stands for [ValueError] (no match,
    unconverted data after the first match, or a date that does not
    exist). *)
Definition strptime (s : string) (fmt : list directive) : option Calendar.date :=
  match match_format fmt (mkFields 1900 1 1) s with
  | (f, EmptyString) :: _ =>
      if Calendar.valid_date (f_year f) (f_month f) (f_day f)
      then Some (Calendar.mkDate (f_year f) (f_month f) (f_day f))
      else None
  | _ => None
  end.

(** *** [strftime] *)

Definition pad2 (n : Z) : string :=
  String (digit_char (n / 10 mod 10)) (String (digit_char (n mod 10)) EmptyString).

Definition pad4 (n : Z) : string :=
  String (digit_char (n / 1000 mod 10)) (String (digit_char (n / 100 mod 10)) (pad2 n)).

(** [t.strftime('%Y-%m')], the year written with four digits (what a C
    library prints for a year below 1000 varies). *)
Definition strftime_ym (t : Calendar.date) : string :=
  pad4 (Calendar.year t) ++ "-" ++ pad2 (Calendar.month t).

(** [str(t)] of a [Timestamp] at midnight. *)
Definition str_of_time (y m d : Z) : string :=
  pad4 y ++ "-" ++ pad2 m ++ "-" ++ pad2 d ++ " 00:00:00".

(** *** [pd.to_numeric] on text *)

(** Digits read as a natural number, with the number of digits read. *)
Fixpoint read_digits (s : string) (acc : Z) (n : nat) : Z * nat * string :=
  match s with
  | String c s' => if is_digit c then read_digits s' (10 * acc + digit_val c) (S n)
                   else (acc, n, s)
  | EmptyString => (acc, n, s)
  end.

Definition read_sign (s : string) : bool * string :=
  match s with
  | String c s' =>
      if Ascii.eqb c "-" then (true, s')
      else if Ascii.eqb c "+" then (false, s')
      else (false, s)
  | EmptyString => (false, s)
  end.

Definition pow10 (e : Z) : Q := Qpower 10 e.

(** An optional exponent [e], [E] with a signed integer. *)
Definition read_exponent (s : string) : option (Z * string) :=
  match s with
  | String c s' =>
      if Ascii.eqb c "e" || Ascii.eqb c "E" then
        let '(neg, s1) := read_sign s' in
        let '(v, n, s2) := read_digits s1 0 0 in
        if (0 <? Z.of_nat n) then Some (if neg : bool then - v else v, s2) else None
      else Some (0, s)
  | EmptyString => Some (0, s)
  end.

(** A decimal numeral: sign, digits, optional fraction, optional exponent,
    and nothing else.  [None] is what [errors='coerce'] turns into a
    missing value.  The spellings of infinity and of NaN are not
    modelled. *)
Definition to_numeric (s : string) : option Q :=
  let '(neg, s0) := read_sign s in
  let '(ip, ni, s1) := read_digits s0 0 0 in
  let '(fp, nf, s2) :=
    match s1 with
    | String c s1' => if Ascii.eqb c "." then read_digits s1' 0 0 else (0, 0%nat, s1)
    | EmptyString => (0, 0%nat, s1)
    end in
  if (0 <? Z.of_nat (ni + nf)) then
    match read_exponent s2 with
    | Some (e, EmptyString) =>
        let m := (inject_Z ip + inject_Z fp * pow10 (- Z.of_nat nf))%Q in
        let v := (m * pow10 e)%Q in
        Some (if neg : bool then (- v)%Q else v)
    | _ => None
    end
  else None.

End Text.

(** ** [src/utils/helpers.py]: validation, dates, numeric text *)

Module DataHelpers.

Import Text.

(** [validate_dataframe]: [set(required_columns) - set(df.columns)] must be
    empty and the frame must not be. *)
Definition validate_dataframe (df : DataFrame) (required_columns : list string) : bool :=
  if is_empty df then false
  else
    match list_difference required_columns (columns df) with
    | [] => true
    | _ :: _ => false
    end.

(** ['%Y-%m'], ['%Y/%m'], ['%Y%m'], ['%d/%m/%Y'], ['%Y-%m-%d']. *)
Definition date_formats : list (list directive) :=
  [ [DY; Lit "-"; Dm];
    [DY; Lit "/"; Dm];
    [DY; Dm];
    [Dd; Lit "/"; Dm; Lit "/"; DY];
    [DY; Lit "-"; Dm; Lit "-"; Dd] ].

(** The loop of [format_date] over the formats: the first that parses. *)
Fixpoint first_parse (s : string) (fmts : list (list directive)) : option Calendar.date :=
  match fmts with
  | [] => None
  | fmt :: fmts' =>
      match strptime s fmt with
      | Some t => Some t
      | None => first_parse s fmts'
      end
  end.

(** [format_date]: text is parsed and rewritten as [YYYY-MM]; a datetime is
    formatted; anything else, and text no format parses, is returned as it
    came. *)
Definition format_date (date_str : cell) : cell :=
  match date_str with
  | CStr s =>
      match first_parse s date_formats with
      | Some t => CStr (strftime_ym t)
      | None => date_str
      end
  | CTime y m d => CStr (strftime_ym (Calendar.mkDate y m d))
  | CNum _ => date_str
  end.

(** One cell through [clean_numeric_column]: [astype(str)], comma to point,
    [strip], [to_numeric(errors='coerce')], [fillna(0)].  A number survives
    the trip through its own text; [NaN] and unreadable text become 0. *)
Definition clean_numeric (c : cell) : Q :=
  match c with
  | CNum (Fin q) => q
  | CNum NaN => 0
  | CStr s => default 0%Q (to_numeric (strip (replace_comma s)))
  | CTime _ _ _ => 0
  end.

End DataHelpers.

(** ** [src/preprocessing/cleaning.py] *)

Module DataCleaner.

Import Text DataHelpers.

Definition required_columns : list string :=
  ["medicamento"; "data"; "consumo"; "estoque_atual"].

(** The cell of a row in a column; a cell the row does not hold is a
    missing value. *)
Definition cell_of (row : Row) (col : string) : cell :=
  row_get row col (CNum NaN).

(** [pd.isna] *)
Definition isna (c : cell) : bool :=
  match c with
  | CNum NaN => true
  | _ => false
  end.

(** Equality of cells as [drop_duplicates] sees it (missing values are
    equal to each other). *)
Definition cell_eqb (a b : cell) : bool :=
  match a, b with
  | CStr s, CStr t => String.eqb s t
  | CNum (Fin x), CNum (Fin y) => Qeq_bool x y
  | CNum NaN, CNum NaN => true
  | CTime y m d, CTime y' m' d' => (y =? y')%Z && (m =? m')%Z && (d =? d')%Z
  | _, _ => false
  end.

Definition same_key (subset : list string) (r1 r2 : Row) : bool :=
  forallb (fun col => cell_eqb (cell_of r1 col) (cell_of r2 col)) subset.

(** [drop_duplicates(subset, keep='first')]: a row stays unless an earlier
    row has the same cells in [subset]. *)
Fixpoint drop_duplicates_from (subset : list string) (seen : list Row) (l : list Row)
  : list Row :=
  match l with
  | [] => []
  | row :: l' =>
      if existsb (same_key subset row) seen
      then drop_duplicates_from subset seen l'
      else row :: drop_duplicates_from subset (row :: seen) l'
  end.

Definition with_rows (df : DataFrame) (l : list Row) : DataFrame :=
  mkFrame (columns df) l.

(** [df[col] = df[col].map(f)] *)
Definition map_column (col : string) (f : cell -> cell) (df : DataFrame) : DataFrame :=
  mkFrame (add_column (columns df) col)
          (map (fun row : Row => <[col := f (cell_of row col)]> row) (rows df)).

Definition error_message : string := "DataFrame inválido. Colunas necessárias: ".

Definition _validate_structure (df : DataFrame) : result DataFrame :=
  if validate_dataframe df required_columns then Ok df
  else Raise (ValueError error_message required_columns).

Definition _remove_duplicates (df : DataFrame) : DataFrame :=
  with_rows df (drop_duplicates_from ["medicamento"; "data"] [] (rows df)).

Definition fillna0 (c : cell) : cell :=
  if isna c then CNum (Fin 0) else c.

Definition _handle_missing_values (df : DataFrame) : DataFrame :=
  let df :=
    with_rows df
      (List.filter (fun row => negb (isna (cell_of row "medicamento")) &&
                               negb (isna (cell_of row "data"))) (rows df)) in
  let df := map_column "consumo" fillna0 df in
  map_column "estoque_atual" fillna0 df.

(** [clip(lower=0)] *)
Definition clip0 (q : Q) : Q := if Qltb q 0 then 0%Q else q.

Definition clip_lower0 (c : cell) : cell :=
  match c with
  | CNum (Fin q) => CNum (Fin (clip0 q))
  | _ => c
  end.

Section Cleaning.

(** [str(x)] of a number, which [astype(str)] applies to a medication cell
    that is not text. *)
Variable str_of_num : num -> string.

Definition astype_str (c : cell) : string :=
  match c with
  | CStr s => s
  | CNum x => str_of_num x
  | CTime y m d => str_of_time y m d
  end.

Definition _clean_columns (df : DataFrame) : DataFrame :=
  let df := map_column "medicamento" (fun c => CStr (upper (strip (astype_str c)))) df in
  let df := map_column "consumo" (fun c => CNum (Fin (clean_numeric c))) df in
  let df := map_column "estoque_atual" (fun c => CNum (Fin (clean_numeric c))) df in
  let df := map_column "consumo" clip_lower0 df in
  map_column "estoque_atual" clip_lower0 df.

End Cleaning.

Definition newline : ascii := ascii_of_nat 10.

(** [re.match(r'^\d{4}-\d{2}$', s)]: [$] also matches before a final line
    feed. *)
Definition matches_year_month (s : string) : bool :=
  match s with
  | String a (String b (String c (String d (String h (String m1 (String m2 rest)))))) =>
      is_digit a && is_digit b && is_digit c && is_digit d && Ascii.eqb h "-" &&
      is_digit m1 && is_digit m2 &&
      match rest with
      | EmptyString => true
      | String n EmptyString => Ascii.eqb n newline
      | _ => false
      end
  | _ => false
  end.

(** The kind of value a cell holds. *)
Definition is_text (c : cell) : bool :=
  match c with
  | CStr _ => true
  | _ => false
  end.

Definition is_number (c : cell) : bool :=
  match c with
  | CNum _ => true
  | _ => false
  end.

Definition is_time (c : cell) : bool :=
  match c with
  | CTime _ _ _ => true
  | _ => false
  end.

(** The [.str] accessor of a column: pandas refuses it ([AttributeError])
    on a column whose values, the missing ones apart, are all numbers or all
    datetimes.  A column without rows is taken to be of object dtype. *)
Definition str_accessor (values : list cell) : result (list cell) :=
  match List.filter (fun c => negb (isna c)) values with
  | [] => Ok values
  | present => if forallb is_number present || forallb is_time present
               then Raise AttributeError else Ok values
  end.

(** [series.str.match(pattern, na=False)] on one value: a value that is not
    text does not match. *)
Definition str_match (c : cell) : bool :=
  match c with
  | CStr s => matches_year_month s
  | _ => false
  end.

Definition _normalize_dates (df : DataFrame) : result DataFrame :=
  let df := map_column "data" format_date df in
  _ ← str_accessor (map (fun row => cell_of row "data") (rows df));
  Ok (with_rows df (List.filter (fun row => str_match (cell_of row "data")) (rows df))).

(** The number in a cell of a numeric column. *)
Definition cell_value (c : cell) : option Q :=
  match c with
  | CNum (Fin q) => Some q
  | _ => None
  end.

Definition Qsum (xs : list Q) : Q := fold_right Qplus 0%Q xs.

(** [series.mean()], [None] for [NaN] (no value). *)
Definition mean (xs : list Q) : option Q :=
  match xs with
  | [] => None
  | _ => Some (Qsum xs / inject_Z (Z.of_nat (length xs)))%Q
  end.

(** The square of [series.std()] (one degree of freedom removed), [None]
    for [NaN] (fewer than two values). *)
Definition variance (xs : list Q) : option Q :=
  match mean xs, xs with
  | Some m, _ :: _ :: _ =>
      Some (Qsum (map (fun x => (x - m) * (x - m)) xs)
            / inject_Z (Z.of_nat (length xs) - 1))%Q
  | _, _ => None
  end.

(** [x <= mean + n_std * std], with [std] the square root of [var], stated
    without the root: [x - mean <= 0] or [(x - mean)^2 <= n_std^2 * var]. *)
Definition within_limit (n_std m var x : Q) : bool :=
  Qle_bool (x - m) 0 || Qle_bool ((x - m) * (x - m)) (n_std * n_std * var).

(** The body of the loop of [_remove_outliers] for one column. *)
Definition remove_outliers_in (n_std : Q) (col : string) (df : DataFrame) : DataFrame :=
  if bool_decide (col ∈ columns df) then
    let xs := omap (fun row => cell_value (cell_of row col)) (rows df) in
    match mean xs, variance xs with
    | Some m, Some var =>
        if Qltb 0 var then
          with_rows df
            (List.filter (fun row => match cell_value (cell_of row col) with
                                     | Some x => within_limit n_std m var x
                                     | None => false
                                     end) (rows df))
        else df
    | _, _ => df
    end
  else df.

Definition _remove_outliers (n_std : Q) (df : DataFrame) : DataFrame :=
  fold_left (fun df col => remove_outliers_in n_std col df) ["consumo"; "estoque_atual"] df.

(** The text of a cell as a sort key ([_clean_columns] and
    [_normalize_dates] leave only text in the two key columns). *)
Definition cell_text (c : cell) : string :=
  match c with
  | CStr s => s
  | _ => EmptyString
  end.

(** Order of rows by medication, then by date. *)
Definition row_leb (r1 r2 : Row) : bool :=
  match String.compare (cell_text (cell_of r1 "medicamento"))
                       (cell_text (cell_of r2 "medicamento")) with
  | Lt => true
  | Gt => false
  | Eq => String.leb (cell_text (cell_of r1 "data")) (cell_text (cell_of r2 "data"))
  end.

(** A stable sort: a row goes before the first later row it does not
    exceed. *)
Fixpoint insert_row (leb : Row -> Row -> bool) (x : Row) (l : list Row) : list Row :=
  match l with
  | [] => [x]
  | y :: l' => if leb x y then x :: l else y :: insert_row leb x l'
  end.

Definition sort_rows (leb : Row -> Row -> bool) (l : list Row) : list Row :=
  fold_right (insert_row leb) [] l.

Definition _sort_data (df : DataFrame) : DataFrame :=
  with_rows df (sort_rows row_leb (rows df)).

Definition clean (str_of_num : num -> string) (df : DataFrame) : result DataFrame :=
  if is_empty df then Ok empty_frame
  else
    df ← _validate_structure df;
    let df := _remove_duplicates df in
    let df := _handle_missing_values df in
    let df := _clean_columns str_of_num df in
    df ← _normalize_dates df;
    let df := _remove_outliers 3 df in
    Ok (_sort_data df).

End DataCleaner.

(** ** [src/models/predict.py] *)

Module ConsumptionPredictor.

Import Text.

(** [df[col] = value] with a scalar, on every row. *)
Definition assign (col : string) (value : cell) (df : DataFrame) : DataFrame :=
  mkFrame (add_column (columns df) col) (map (fun row : Row => <[col := value]> row) (rows df)).

(** [pd.concat([a, b], ignore_index=True)]: the rows of [a], then those of
    [b]; the columns of [a], then the new ones of [b]. *)
Definition concat (a b : DataFrame) : DataFrame :=
  mkFrame (fold_left add_column (columns b) (columns a)) (rows a ++ rows b).

(** The text of every cell of a column, or [TypeError] when a cell is not
    text (sorting mixed values and adding ['-01'] to a number both raise
    it). *)
Definition text_of (c : cell) : result string :=
  match c with
  | CStr s => Ok s
  | _ => Raise TypeError
  end.

(** [df[col]]: the column must exist. *)
Definition column (df : DataFrame) (col : string) : result (list cell) :=
  if bool_decide (col ∈ columns df)
  then Ok (map (fun row => DataCleaner.cell_of row col) (rows df))
  else Raise (KeyError col).

(** [df.sort_values('data')] *)
Definition sort_by_data (df : DataFrame) : result DataFrame :=
  cells ← column df "data";
  _ ← traverse text_of cells;
  Ok (mkFrame (columns df)
        (DataCleaner.sort_rows
           (fun r1 r2 => String.leb (DataCleaner.cell_text (DataCleaner.cell_of r1 "data"))
                                    (DataCleaner.cell_text (DataCleaner.cell_of r2 "data")))
           (rows df))).

(** [pd.to_datetime(s)] on an ISO date [YYYY-MM-DD]; other spellings and
    the bounds of [Timestamp] are not modelled. *)
Definition to_datetime (s : string) : result Calendar.date :=
  match strptime s [DY; Lit "-"; Dm; Lit "-"; Dd] with
  | Some t => Ok t
  | None => Raise (ValueError "to_datetime" [s])
  end.

(** [round(x, 0)] *)
Definition round0 (x : num) : num :=
  match x with
  | Fin q => Fin (inject_Z (round_half_even q))
  | NaN => NaN
  end.

Definition cell_of_Z (z : Z) : cell := CNum (Fin (inject_Z z)).

(** [last_row[col] = last_row[col] + 1] *)
Definition increment (col : string) (df : DataFrame) : result DataFrame :=
  l ← traverse (fun row : Row =>
                  x ← as_num (DataCleaner.cell_of row col);
                  Ok (<[col := CNum (match x with Fin q => Fin (q + 1) | NaN => NaN end)]> row))
               (rows df);
  Ok (mkFrame (columns df) l).

Section Predictor.

(** The two collaborators handed to the constructor, [self.model.predict]
    and [self.feature_engineer.create_features], and numpy's sine and
    cosine of [2 * pi * month / 12], which are not rational. *)
Variable model_predict : DataFrame -> result (list num).
Variable create_features : DataFrame -> result DataFrame.
Variable month_sin month_cos : Z -> num.

Definition _create_future_features (historical_data : DataFrame) (future_date : Calendar.date)
  : result DataFrame :=
  match last (rows historical_data) with
  | None => Raise IndexError
  | Some row =>
      let m := Calendar.month future_date in
      let last_row := mkFrame (columns historical_data) [row] in
      let last_row := assign "mes" (cell_of_Z m) last_row in
      let last_row := assign "trimestre" (cell_of_Z ((m - 1) / 3 + 1)) last_row in
      let last_row := assign "ano" (cell_of_Z (Calendar.year future_date)) last_row in
      last_row ← (if bool_decide ("mes_idx" ∈ columns last_row)
                  then increment "mes_idx" last_row else Ok last_row);
      let last_row := (if bool_decide ("mes_sin" ∈ columns last_row)
                       then assign "mes_sin" (CNum (month_sin m)) last_row else last_row) in
      let last_row := (if bool_decide ("mes_cos" ∈ columns last_row)
                       then assign "mes_cos" (CNum (month_cos m)) last_row else last_row) in
      Ok last_row
  end.

(** The body of the loop of [predict_future], for step [i]. *)
Definition forecast_step (medicamento : string) (last_date : Calendar.date)
    (state : DataFrame * list Row) (i : nat) : result (DataFrame * list Row) :=
  let '(med_data, predictions) := state in
  let future_date := Calendar.add_days last_date (30 * i) in
  let future_date_str := strftime_ym future_date in
  future_features ← _create_future_features med_data future_date;
  pred ← model_predict future_features;
  pred0 ← (match pred with
           | x :: _ => Ok x
           | [] => Raise IndexError
           end);
  let pred_value := max0 pred0 in
  let record : Row :=
    list_to_map [("medicamento", CStr medicamento);
                 ("data", CStr future_date_str);
                 ("consumo_previsto", CNum (round0 pred_value));
                 ("tipo", CStr "predição")] in
  let new_row := assign "consumo" (CNum pred_value) future_features in
  let new_row := assign "data" (CStr future_date_str) new_row in
  let new_row := assign "medicamento" (CStr medicamento) new_row in
  med_data ← create_features (concat med_data new_row);
  Ok (med_data, (predictions ++ [record])%list).

Fixpoint forecast_loop (medicamento : string) (last_date : Calendar.date)
    (state : DataFrame * list Row) (steps : list nat) : result (DataFrame * list Row) :=
  match steps with
  | [] => Ok state
  | i :: steps' =>
      state ← forecast_step medicamento last_date state i;
      forecast_loop medicamento last_date state steps'
  end.

(** [pd.DataFrame(predictions)] *)
Definition frame_of_records (records : list Row) : DataFrame :=
  match records with
  | [] => empty_frame
  | _ => mkFrame ["medicamento"; "data"; "consumo_previsto"; "tipo"] records
  end.

Definition predict_future (df : DataFrame) (medicamento : string) (n_months : nat)
  : result DataFrame :=
  _ ← column df "medicamento";
  let med_data :=
    mkFrame (columns df)
      (List.filter (fun row => match DataCleaner.cell_of row "medicamento" with
                               | CStr s => String.eqb s medicamento
                               | _ => false
                               end) (rows df)) in
  if is_empty med_data then Ok empty_frame
  else
    med_data ← sort_by_data med_data;
    last_token ← (match last (rows med_data) with
                  | Some row => text_of (DataCleaner.cell_of row "data")
                  | None => Raise IndexError
                  end);
    last_date ← to_datetime (last_token ++ "-01");
    '(_, predictions) ← forecast_loop medicamento last_date (med_data, []) (seq 1 n_months);
    Ok (frame_of_records predictions).

End Predictor.

End ConsumptionPredictor.

(** ** [src/models/train.py]: prediction and persistence *)

Module MedicationPredictor.

Section Model.

(** The regressor of scikit-learn, fitted or not, and its [predict] on a
    matrix of features. *)
Variable Estimator : Type.
Variable estimator_predict : Estimator -> list (list Q) -> list num.
Variable new_estimator : Estimator.

(** The attributes of a [MedicationPredictor]. *)
Record predictor : Type := mkPredictor {
  model : Estimator;
  feature_names : list string;
  metrics : gmap string num
}.

(** [MedicationPredictor()] *)
Definition init : predictor := mkPredictor new_estimator [] ∅.

(** A feature value after [replace([inf, -inf], nan)] and [fillna(0)];
    text is refused by the regressor. *)
Definition feature_value (c : cell) : result Q :=
  match c with
  | CNum (Fin q) => Ok q
  | CNum NaN => Ok 0%Q
  | _ => Raise (ValueError "could not convert to float" [])
  end.

(** [X[self.feature_names] if self.feature_names else X], as a matrix; a
    name that is not a column raises [KeyError]. *)
Definition select (names : list string) (X : DataFrame) : result (list (list Q)) :=
  let names := match names with [] => columns X | _ => names end in
  _ ← traverse (fun col => if bool_decide (col ∈ columns X) then Ok col
                           else Raise (KeyError col)) names;
  traverse (fun row : Row =>
              traverse (fun col => feature_value (DataCleaner.cell_of row col)) names)
           (rows X).

(** [np.maximum(x, 0)] *)
Definition maximum0 (x : num) : num :=
  match x with
  | Fin q => Fin (Qmax q 0)
  | NaN => NaN
  end.

Definition predict (self : predictor) (X : DataFrame) : result (list num) :=
  X ← select (feature_names self) X;
  Ok (map maximum0 (estimator_predict (model self) X)).

(** What [pickle.load] returns: a dictionary that may or may not hold each
    of the three keys.  [pickle.dump] followed by [pickle.load] gives the
    dictionary back. *)
Record pickled : Type := mkPickled {
  p_model : option Estimator;
  p_feature_names : option (list string);
  p_metrics : option (gmap string num)
}.

(** The files, and the paths that can be opened for writing. *)
Record file_system : Type := mkFS {
  files : gmap string pickled;
  writable : string -> bool
}.

(** [save_model]: an error while writing is caught and printed. *)
Definition save_model (self : predictor) (filepath : string) (fs : file_system)
  : file_system :=
  if writable fs filepath then
    mkFS (<[filepath := mkPickled (Some (model self)) (Some (feature_names self))
                                  (Some (metrics self))]> (files fs))
         (writable fs)
  else fs.

(** [load_model]: the three attributes are assigned one after the other;
    an error (no file, a key that is absent) is caught and printed, and
    what was assigned before it stays. *)
Definition load_model (self : predictor) (filepath : string) (fs : file_system)
  : predictor :=
  match files fs !! filepath with
  | None => self
  | Some data =>
      match p_model data with
      | None => self
      | Some m =>
          let self := mkPredictor m (feature_names self) (metrics self) in
          match p_feature_names data with
          | None => self
          | Some names =>
              let self := mkPredictor (model self) names (metrics self) in
              match p_metrics data with
              | None => self
              | Some ms => mkPredictor (model self) (feature_names self) ms
              end
          end
      end
  end.

End Model.

Arguments mkPredictor {Estimator} _ _ _.
Arguments model {Estimator} _.
Arguments feature_names {Estimator} _.
Arguments metrics {Estimator} _.
Arguments init {Estimator} _.
Arguments predict {Estimator} _ _ _.
Arguments mkPickled {Estimator} _ _ _.
Arguments mkFS {Estimator} _ _.
Arguments files {Estimator} _.
Arguments writable {Estimator} _ _.
Arguments save_model {Estimator} _ _ _.
Arguments load_model {Estimator} _ _ _.

End MedicationPredictor.

(** ** pandas: comparison, sorting, distinct values *)

Module Series.

Import DataCleaner.

(** [a == b] on two values: a missing value is equal to nothing. *)
Definition cell_eq (a b : cell) : bool := negb (isna a) && cell_eqb a b.

(** [series.unique()]: the distinct values in order of first appearance;
    the missing values count as one value. *)
Fixpoint unique_from (seen : list cell) (l : list cell) : list cell :=
  match l with
  | [] => []
  | c :: l' =>
      if existsb (cell_eqb c) seen then unique_from seen l'
      else c :: unique_from (c :: seen) l'
  end.

Definition unique (l : list cell) : list cell := unique_from [] l.

(** [series.nunique()]: the number of distinct values that are not
    missing. *)
Definition nunique (l : list cell) : nat :=
  length (unique (List.filter (fun c => negb (isna c)) l)).

(** [series.value_counts().to_dict()]: each distinct value that is not
    missing with the number of its occurrences. *)
Definition value_counts (l : list cell) : list (cell * nat) :=
  map (fun v => (v, length (List.filter (cell_eqb v) l)))
      (unique (List.filter (fun c => negb (isna c)) l)).

(** [d.get(key, default)] on such a dictionary. *)
Definition get (d : list (cell * nat)) (key : cell) (dflt : nat) : nat :=
  match List.find (fun entry => cell_eqb (fst entry) key) d with
  | Some entry => snd entry
  | None => dflt
  end.

(** The order of two values of one kind: numbers by value, text by code
    point (which is the order of the bytes of its UTF-8 encoding),
    datetimes by date. *)
Definition cell_leb (a b : cell) : bool :=
  match a, b with
  | CNum (Fin x), CNum (Fin y) => Qle_bool x y
  | CStr s, CStr t => String.leb s t
  | CTime y m d, CTime y' m' d' =>
      match (y ?= y')%Z, (m ?= m')%Z with
      | Lt, _ => true
      | Gt, _ => false
      | Eq, Lt => true
      | Eq, Gt => false
      | Eq, Eq => (d <=? d')%Z
      end
  | _, _ => false
  end.

(** Values that can be sorted together: comparing text with a number, or
    either with a datetime, raises [TypeError]. *)
Definition homogeneous (l : list cell) : bool :=
  forallb is_text l || forallb is_number l || forallb is_time l.

(** The order of two sort keys: missing values last, whatever the
    direction. *)
Definition key_leb (ascending : bool) (a b : cell) : bool :=
  if isna b then true
  else if isna a then false
  else if ascending then cell_leb a b else cell_leb b a.

Definition key_ltb (ascending : bool) (a b : cell) : bool :=
  negb (key_leb ascending b a).

(** A label that is not a column is a [KeyError]. *)
Definition require_column (df : DataFrame) (col : string) : result unit :=
  if bool_decide (col ∈ columns df) then Ok tt else Raise (KeyError col).

(** The values of a column that are present can be compared. *)
Definition comparable (df : DataFrame) (col : string) : result unit :=
  if homogeneous (List.filter (fun c => negb (isna c))
                    (map (fun row => cell_of row col) (rows df)))
  then Ok tt else Raise TypeError.

(** [df.sort_values(col, ascending=...)]: rows in the order of their keys,
    missing keys last.  pandas' default algorithm leaves the order of rows
    with equal keys open; here they keep their order. *)
Definition sort_values (col : string) (ascending : bool) (df : DataFrame)
  : result DataFrame :=
  _ ← require_column df col;
  _ ← comparable df col;
  Ok (with_rows df
        (sort_rows (fun r1 r2 => key_leb ascending (cell_of r1 col) (cell_of r2 col))
                   (rows df))).

(** [df.sort_values([col1, col2], ascending=[asc1, asc2])]: by the first
    key, rows with equal first keys by the second; this sort is stable.
    Both labels are looked up before any value is compared. *)
Definition sort_values2 (col1 : string) (asc1 : bool) (col2 : string) (asc2 : bool)
    (df : DataFrame) : result DataFrame :=
  _ ← require_column df col1;
  _ ← require_column df col2;
  _ ← comparable df col1;
  _ ← comparable df col2;
  Ok (with_rows df
        (sort_rows (fun r1 r2 =>
                      key_ltb asc1 (cell_of r1 col1) (cell_of r2 col1) ||
                      (key_leb asc1 (cell_of r1 col1) (cell_of r2 col1) &&
                       key_leb asc2 (cell_of r1 col2) (cell_of r2 col2)))
                   (rows df))).

(** [df.head(n)]: the first [n] rows, or all but the last [-n]. *)
Definition head (n : Z) (df : DataFrame) : DataFrame :=
  with_rows df
    (if (0 <=? n)%Z then take (Z.to_nat n) (rows df)
     else take (length (rows df) - Z.to_nat (- n)) (rows df)).

(** [df.drop(col, axis=1)] of a column that exists. *)
Definition drop (col : string) (df : DataFrame) : DataFrame :=
  mkFrame (List.filter (fun c => negb (String.eqb c col)) (columns df))
          (map (fun row : Row => delete col row) (rows df)).

(** [len(df)] *)
Definition len (df : DataFrame) : nat := length (rows df).

End Series.

(** ** [src/preprocessing/cleaning.py]: aggregation, split, summary *)

Module CleanerReports.

Import Text DataHelpers DataCleaner Series.

(** *** [aggregate_monthly] *)

(** The order of two group keys.  pandas sorts the values of each key
    column: numbers by value and before text, text by code point.  (Where
    datetimes stand among values of other kinds is a choice of this
    definition; the tables of [clean] hold text in both key columns.) *)
Definition cell_compare (a b : cell) : comparison :=
  match a, b with
  | CNum (Fin x), CNum (Fin y) => (x ?= y)%Q
  | CNum _, CNum _ => Eq
  | CStr s, CStr t => String.compare s t
  | CTime y m d, CTime y' m' d' =>
      match (y ?= y')%Z, (m ?= m')%Z with
      | Eq, Eq => (d ?= d')%Z
      | Eq, c => c
      | c, _ => c
      end
  | CNum _, _ => Lt
  | _, CNum _ => Gt
  | CStr _, CTime _ _ _ => Lt
  | CTime _ _ _, CStr _ => Gt
  end.

Definition group_key (row : Row) : cell * cell :=
  (cell_of row "medicamento", cell_of row "data").

Definition key_compare (k1 k2 : cell * cell) : comparison :=
  match cell_compare (fst k1) (fst k2) with
  | Eq => cell_compare (snd k1) (snd k2)
  | c => c
  end.

Definition same_group (k : cell * cell) (row : Row) : bool :=
  match key_compare (group_key row) k with
  | Eq => true
  | _ => false
  end.

(** The keys of the groups, each once, in increasing order. *)
Fixpoint insert_key (k : cell * cell) (l : list (cell * cell)) : list (cell * cell) :=
  match l with
  | [] => [k]
  | k' :: l' =>
      match key_compare k k' with
      | Lt => k :: l
      | Eq => l
      | Gt => k' :: insert_key k l'
      end
  end.

Definition group_keys (l : list Row) : list (cell * cell) :=
  fold_right insert_key [] (map group_key l).

(** The numbers of a column, the missing values skipped; a value that is
    not a number is refused (text in a value column is outside the
    model). *)
Fixpoint numbers (l : list cell) : result (list Q) :=
  match l with
  | [] => Ok []
  | CNum (Fin q) :: l' => qs ← numbers l'; Ok (q :: qs)
  | CNum NaN :: l' => numbers l'
  | _ :: _ => Raise TypeError
  end.

(** [.round(0).astype(int)] on an aggregate; a missing aggregate cannot be
    cast. *)
Definition round_int (x : option Q) : result cell :=
  match x with
  | Some q => Ok (CNum (Fin (inject_Z (round_half_even q))))
  | None => Raise (ValueError "Cannot convert non-finite values (NA or inf) to integer" [])
  end.

(** The row of one group: its key, the sum of [consumo] and the mean of
    [estoque_atual]. *)
Definition aggregate_group (l : list Row) (k : cell * cell) : result Row :=
  let group := List.filter (same_group k) l in
  consumo ← numbers (map (fun row => cell_of row "consumo") group);
  estoque ← numbers (map (fun row => cell_of row "estoque_atual") group);
  consumo ← round_int (Some (Qsum consumo));
  estoque ← round_int (mean estoque);
  Ok (list_to_map [("medicamento", fst k); ("data", snd k);
                   ("consumo", consumo); ("estoque_atual", estoque)] : Row).

Definition aggregate_monthly (df : DataFrame) : result DataFrame :=
  if is_empty df then Ok df
  else
    _ ← require_column df "medicamento";
    _ ← require_column df "data";
    _ ← require_column df "consumo";
    _ ← require_column df "estoque_atual";
    let keyed :=
      List.filter (fun row => negb (isna (cell_of row "medicamento")) &&
                              negb (isna (cell_of row "data"))) (rows df) in
    l ← traverse (aggregate_group keyed) (group_keys keyed);
    Ok (mkFrame ["medicamento"; "data"; "consumo"; "estoque_atual"] l).

(** *** [split_by_medication] *)

(** The dictionary, as the list of its items in insertion order. *)
Definition split_by_medication (df : DataFrame) : result (list (cell * DataFrame)) :=
  if is_empty df then Ok []
  else
    cells ← ConsumptionPredictor.column df "medicamento";
    traverse (fun med =>
                let med_df :=
                  with_rows df
                    (List.filter (fun row => cell_eq (cell_of row "medicamento") med)
                                 (rows df)) in
                med_df ← sort_values "data" true med_df;
                Ok (med, med_df))
             (unique cells).

(** *** [get_cleaning_summary] *)

Record cleaning_summary : Type := mkSummary {
  registros_iniciais : nat;
  registros_finais : nat;
  registros_removidos : Z;
  taxa_retencao : num;
  medicamentos_unicos : nat
}.

(** The entries are computed in this order; [None] is Python's [None]. *)
Definition get_cleaning_summary (df_before df_after : option DataFrame)
  : result cleaning_summary :=
  let iniciais := match df_before with Some b => len b | None => 0%nat end in
  let finais := match df_after with Some a => len a | None => 0%nat end in
  let removidos :=
    match df_before, df_after with
    | Some b, Some a => (Z.of_nat (len b) - Z.of_nat (len a))%Z
    | _, _ => 0%Z
    end in
  taxa ← match df_before with
         | Some b =>
             if (0 <? len b)%nat then
               match df_after with
               | Some a =>
                   Ok (round2 (Fin (inject_Z (Z.of_nat (len a)) / inject_Z (Z.of_nat (len b))
                                    * 100)))
               | None => Raise TypeError
               end
             else Ok (Fin 0)
         | None => Ok (Fin 0)
         end;
  unicos ← match df_after with
           | Some a =>
               if is_empty a then Ok 0%nat
               else cells ← ConsumptionPredictor.column a "medicamento"; Ok (nunique cells)
           | None => Ok 0%nat
           end;
  Ok (mkSummary iniciais finais removidos taxa unicos).

End CleanerReports.

(** ** [src/utils/helpers.py]: rates, percentages, ranges of months *)

Module HelperFunctions.

Import Text.

Definition mul (x y : num) : num :=
  match x, y with
  | Fin a, Fin b => Fin (a * b)
  | _, _ => NaN
  end.

(** [calculate_percentage] *)
Definition calculate_percentage (part total : num) : num :=
  if Num.eqb total (Fin 0) then Fin 0
  else round2 (mul (Num.div part total) (Fin 100)).

(** [calculate_growth_rate] on a series of numbers: [iloc[0]] and
    [iloc[-1]] are its first and last values. *)
Definition calculate_growth_rate (series : list num) : num :=
  if (length series <? 2)%nat then Fin 0
  else
    match List.head series, last series with
    | Some first_value, Some last_value =>
        if Num.eqb first_value (Fin 0) then Fin 0
        else round2 (mul (Num.div (Num.sub last_value first_value) first_value) (Fin 100))
    | _, _ => Fin 0
    end.

(** [t + timedelta(days=n)] for [n >= 0]; [None] is the [OverflowError] of
    a date after year 9999. *)
Definition add_days_checked (t : Calendar.date) (n : nat) : option Calendar.date :=
  let t' := Calendar.add_days t n in
  if (Calendar.year t' <=? 9999)%Z then Some t' else None.

(** [generate_date_range]: any exception, from [strptime] or from the
    addition, is caught and the empty list returned. *)
Definition generate_date_range (start_date : string) (periods : Z) : list string :=
  match strptime start_date [DY; Lit "-"; Dm] with
  | Some start =>
      match mapM (fun i => t ← add_days_checked start (30 * i); Some (strftime_ym t))
                 (seq 0 (Z.to_nat periods)) with
      | Some dates => dates
      | None => []
      end
  | None => []
  end.

Definition prev_day (t : Calendar.date) : Calendar.date :=
  if (1 <? Calendar.day t)%Z
  then Calendar.mkDate (Calendar.year t) (Calendar.month t) (Calendar.day t - 1)
  else if (1 <? Calendar.month t)%Z
  then Calendar.mkDate (Calendar.year t) (Calendar.month t - 1)
         (Calendar.days_in_month (Calendar.year t) (Calendar.month t - 1))
  else Calendar.mkDate (Calendar.year t - 1) 12 31.

(** [t - timedelta(days=n)] for [n >= 0]; [None] is the [OverflowError] of
    a date before year 1. *)
Definition sub_days_checked (t : Calendar.date) (n : nat) : option Calendar.date :=
  let t' := Nat.iter n prev_day t in
  if (1 <=? Calendar.year t')%Z then Some t' else None.

(** [sorted] on a list of text. *)
Fixpoint insert_string (s : string) (l : list string) : list string :=
  match l with
  | [] => [s]
  | t :: l' => if String.leb s t then s :: l else t :: insert_string s l'
  end.

Definition sorted (l : list string) : list string := fold_right insert_string [] l.

(** The exceptions of [get_last_n_months], which catches none. *)
Inductive date_error : Type :=
| DateValueError      (* the text does not match ['%Y-%m'] *)
| DateOverflowError.  (* date value out of range *)

(** [get_last_n_months]; [now] is the date of [datetime.now()]. *)
Definition get_last_n_months (now : Calendar.date) (n : Z) (from_date : option string)
  : date_error + list string :=
  match (match from_date with
         | None => Some now
         | Some s => strptime s [DY; Lit "-"; Dm]
         end) with
  | None => inl DateValueError
  | Some end_date =>
      match mapM (fun i => t ← sub_days_checked end_date (30 * i); Some (strftime_ym t))
                 (seq 0 (Z.to_nat n)) with
      | Some months => inr (sorted months)
      | None => inl DateOverflowError
      end
  end.

End HelperFunctions.

(** ** [src/models/risk_classifier.py]: statistics, lists, report *)

Module RiskReports.

Import DataCleaner Series RiskClassifier.

Definition nivel_risco (row : Row) : cell := cell_of row "nivel_risco".

(** [get_risk_statistics] *)
Definition get_risk_statistics (df : DataFrame) : gmap string nat :=
  if is_empty df || negb (bool_decide ("nivel_risco" ∈ columns df))
  then list_to_map [("Alto", 0%nat); ("Médio", 0%nat); ("Baixo", 0%nat)]
  else
    let risk_counts := value_counts (map nivel_risco (rows df)) in
    list_to_map [("Alto", get risk_counts (CStr "Alto") 0);
                 ("Médio", get risk_counts (CStr "Médio") 0);
                 ("Baixo", get risk_counts (CStr "Baixo") 0)].

(** [get_high_risk_medications] *)
Definition get_high_risk_medications (df : DataFrame) : result DataFrame :=
  if is_empty df || negb (bool_decide ("nivel_risco" ∈ columns df))
  then Ok empty_frame
  else
    let high_risk :=
      with_rows df (List.filter (fun row => cell_eq (nivel_risco row) (CStr "Alto"))
                                (rows df)) in
    if negb (is_empty high_risk) && bool_decide ("deficit" ∈ columns high_risk)
    then sort_values "deficit" false high_risk
    else Ok high_risk.

(** [series.isin(values)] on one value. *)
Definition isin (values : list cell) (c : cell) : bool := existsb (cell_eqb c) values.

(** The dictionary [risk_order] of [get_priority_list], and
    [series.map(risk_order)] on one value: a value that is not a key
    becomes a missing value. *)
Definition risk_order : gmap string Z :=
  list_to_map [("Alto", 1%Z); ("Médio", 2%Z); ("Baixo", 3%Z)].

Definition map_risk_order (c : cell) : cell :=
  match c with
  | CStr s =>
      match risk_order !! s with
      | Some z => CNum (Fin (inject_Z z))
      | None => CNum NaN
      end
  | _ => CNum NaN
  end.

(** [get_priority_list] *)
Definition get_priority_list (df : DataFrame) (top_n : Z) : result DataFrame :=
  if is_empty df || negb (bool_decide ("nivel_risco" ∈ columns df))
  then Ok empty_frame
  else
    let priority :=
      with_rows df (List.filter (fun row => isin [CStr "Alto"; CStr "Médio"] (nivel_risco row))
                                (rows df)) in
    let priority :=
      mkFrame (add_column (columns priority) "risk_order")
              (map (fun row : Row => <["risk_order" := map_risk_order (nivel_risco row)]> row)
                   (rows priority)) in
    priority ← sort_values2 "risk_order" true "deficit" false priority;
    let priority := drop "risk_order" priority in
    Ok (head top_n priority).

(** [round(x, 1)] *)
Definition round1 (x : num) : num :=
  match x with
  | Fin q => Fin (inject_Z (round_half_even (q * 10)) / 10)
  | NaN => NaN
  end.

(** [round(count / total * 100, 1) if total > 0 else 0] *)
Definition percentual (count total : nat) : num :=
  if (0 <? total)%nat
  then round1 (Fin (inject_Z (Z.of_nat count) / inject_Z (Z.of_nat total) * 100))
  else Fin 0.

(** [series.sum()] of a column of numbers, the missing ones skipped (text
    in the column is outside the model: [TypeError]). *)
Fixpoint sum (l : list cell) : result Q :=
  match l with
  | [] => Ok 0%Q
  | CNum (Fin q) :: l' => s ← sum l'; Ok (q + s)%Q
  | CNum NaN :: l' => sum l'
  | _ :: _ => Raise TypeError
  end.

(** The dictionary [create_risk_report] returns. *)
Record risk_report : Type := mkReport {
  total_medicamentos : nat;
  estatisticas : gmap string nat;
  percentual_alto : num;
  percentual_medio : num;
  percentual_baixo : num;
  medicamentos_alto_risco : list Row;
  lista_prioridade : list Row;
  deficit_total : num
}.

(** [df.to_dict('records') if not df.empty else []] *)
Definition records (df : DataFrame) : list Row :=
  if is_empty df then [] else rows df.

(** [stats[key]] of a key the dictionary holds. *)
Definition count_of (stats : gmap string nat) (key : string) : nat :=
  default 0%nat (stats !! key).

Definition create_risk_report (df : DataFrame) : result risk_report :=
  let stats := get_risk_statistics df in
  high_risk ← get_high_risk_medications df;
  priority ← get_priority_list df 10;
  let total := len df in
  total_deficit ←
    (if bool_decide ("deficit" ∈ columns df)
     then s ← sum (map (fun row => cell_of row "deficit") (rows df)); Ok (Fin s)
     else Ok (Fin 0));
  Ok (mkReport total stats
        (percentual (count_of stats "Alto") total)
        (percentual (count_of stats "Médio") total)
        (percentual (count_of stats "Baixo") total)
        (records high_risk) (records priority) total_deficit).

End RiskReports.

(** ** [app.py]: the indicators of the dashboard *)

Module App.

Import RiskClassifier RiskReports.

(** The entries of [kpi_metrics] that come from the risk data
    ([model_r2] comes from the training). *)
Record kpi_metrics : Type := mkKpis {
  kpi_total_medicamentos : nat;
  kpi_risco_alto : nat;
  kpi_risco_medio : nat;
  kpi_percentual_alto : num;
  kpi_percentual_medio : num;
  kpi_deficit_total : num
}.

(** [d.get(key, 0)] *)
Definition stats_get (stats : gmap string nat) (key : string) : nat :=
  default 0%nat (stats !! key).

(** The step "Classificando riscos" of [main], from the call of
    [classify_batch] on: the classified copy [risk_df] feeds the tables of
    the page; the statistics and the report are computed from
    [risk_data]. *)
Definition risk_indicators (risk_data : ref) : M kpi_metrics :=
  risk_df ← classify_batch risk_data;
  data ← deref risk_data;
  let risk_stats := get_risk_statistics data in
  risk_report ← lift (create_risk_report data);
  Heap.ret (mkKpis (Series.len data)
                   (stats_get risk_stats "Alto")
                   (stats_get risk_stats "Médio")
                   (percentual_alto risk_report)
                   (percentual_medio risk_report)
                   (deficit_total risk_report)).

End App.

(** ** [src/models/predict.py]: the forecasts of every medication *)

Module ForecastAll.

Import Text DataCleaner Series ConsumptionPredictor.

Section Predictor.

Variable model_predict : DataFrame -> result (list num).
Variable create_features : DataFrame -> result DataFrame.
Variable month_sin month_cos : Z -> num.

(** [predict_all_medications] hands [predict_future] the values of the
    column as they are, text or not: the loop of [predict_future] for a
    name that is any value. *)
Definition forecast_step_for (medicamento : cell) (last_date : Calendar.date)
    (state : DataFrame * list Row) (i : nat) : result (DataFrame * list Row) :=
  let '(med_data, predictions) := state in
  let future_date := Calendar.add_days last_date (30 * i) in
  let future_date_str := strftime_ym future_date in
  future_features ←
    _create_future_features month_sin month_cos med_data future_date;
  pred ← model_predict future_features;
  pred0 ← (match pred with
           | x :: _ => Ok x
           | [] => Raise IndexError
           end);
  let pred_value := max0 pred0 in
  let record : Row :=
    list_to_map [("medicamento", medicamento);
                 ("data", CStr future_date_str);
                 ("consumo_previsto", CNum (round0 pred_value));
                 ("tipo", CStr "predição")] in
  let new_row := assign "consumo" (CNum pred_value) future_features in
  let new_row := assign "data" (CStr future_date_str) new_row in
  let new_row := assign "medicamento" medicamento new_row in
  med_data ← create_features (concat med_data new_row);
  Ok (med_data, (predictions ++ [record])%list).

Fixpoint forecast_loop_for (medicamento : cell) (last_date : Calendar.date)
    (state : DataFrame * list Row) (steps : list nat) : result (DataFrame * list Row) :=
  match steps with
  | [] => Ok state
  | i :: steps' =>
      state ← forecast_step_for medicamento last_date state i;
      forecast_loop_for medicamento last_date state steps'
  end.

(** [predict_future(df, medicamento, n_months)]; the rows are selected by
    [df['medicamento'] == medicamento], which no row satisfies when the
    name is a missing value. *)
Definition predict_future_for (df : DataFrame) (medicamento : cell) (n_months : nat)
  : result DataFrame :=
  _ ← column df "medicamento";
  let med_data :=
    mkFrame (columns df)
      (List.filter (fun row => cell_eq (cell_of row "medicamento") medicamento) (rows df)) in
  if is_empty med_data then Ok empty_frame
  else
    med_data ← sort_by_data med_data;
    last_token ← (match last (rows med_data) with
                  | Some row => text_of (cell_of row "data")
                  | None => Raise IndexError
                  end);
    last_date ← to_datetime (last_token ++ "-01");
    '(_, predictions) ←
      forecast_loop_for medicamento last_date (med_data, []) (seq 1 n_months);
    Ok (frame_of_records predictions).

(** The frames appended to [all_predictions]: a forecast that raises is
    caught and printed, an empty one is skipped. *)
Definition collected (df : DataFrame) (n_months : nat) (medicamentos : list cell)
  : list DataFrame :=
  omap (fun med =>
          match predict_future_for df med n_months with
          | Ok pred_df => if is_empty pred_df then None else Some pred_df
          | Raise _ => None
          end) medicamentos.

(** [pd.concat(frames, ignore_index=True)] of a list that is not empty. *)
Definition concat_all (first : DataFrame) (others : list DataFrame) : DataFrame :=
  fold_left concat others first.

(** [predict_all_medications]; the column is looked up outside the
    [try]. *)
Definition predict_all_medications (df : DataFrame) (n_months : nat) : result DataFrame :=
  cells ← column df "medicamento";
  let medicamentos := unique cells in
  match collected df n_months medicamentos with
  | [] => Ok empty_frame
  | first :: others => Ok (concat_all first others)
  end.

End Predictor.

End ForecastAll.

(** ** [src/models/train.py]: the training data *)

Module Training.

Import DataCleaner MedicationPredictor.

Section Model.

Variable Estimator : Type.

Definition exclude_cols : list string :=
  ["medicamento"; "data"; "consumo"; "estoque_atual"; "data_dt"].

(** [df[cols]] for labels of [df]. *)
Definition select_columns (cols : list string) (df : DataFrame) : DataFrame :=
  mkFrame cols
    (map (fun row : Row => list_to_map (map (fun col => (col, cell_of row col)) cols) : Row)
         (rows df)).

(** [X.replace([inf, -inf], nan).fillna(0)], column by column. *)
Definition fill_missing (X : DataFrame) : DataFrame :=
  fold_left (fun X col => map_column col fillna0 X) (columns X) X.

(** [prepare_data] returns [X] and [y] and leaves the names of the
    features in [self]; without a column [consumo] it raises before it
    assigns them. *)
Definition prepare_data (self : predictor Estimator) (df : DataFrame)
  : result (predictor Estimator * DataFrame * list cell) :=
  let feature_cols :=
    List.filter (fun col => negb (bool_decide (col ∈ exclude_cols))) (columns df) in
  let X := select_columns feature_cols df in
  y ← ConsumptionPredictor.column df "consumo";
  let X := fill_missing X in
  Ok (mkPredictor (model self) feature_cols (metrics self), X, y).

End Model.

Arguments prepare_data {Estimator} _ _.

End Training.

(** * Properties *)

(** ** Rational comparisons *)

Section NumFacts.

Local Open Scope Q_scope.

Lemma Qltb_lt (x y : Q) : Qltb x y = true <-> x < y.
Proof.
  unfold Qltb. rewrite negb_true_iff. split.
  - intros H. apply Qnot_le_lt. intros Hle. apply Qle_bool_iff in Hle. congruence.
  - intros H. destruct (Qle_bool y x) eqn:E; [|reflexivity].
    apply Qle_bool_iff in E. exfalso. exact (Qlt_not_le _ _ H E).
Qed.

Lemma Qltb_ge (x y : Q) : Qltb x y = false <-> y <= x.
Proof. unfold Qltb. rewrite negb_false_iff. apply Qle_bool_iff. Qed.

Lemma Qltb_comp (x x' y y' : Q) : x == x' -> y == y' -> Qltb x y = Qltb x' y'.
Proof. intros Hx Hy. unfold Qltb. now rewrite Hx, Hy. Qed.

End NumFacts.

(** Case analysis on every rational comparison of the goal. *)
Ltac qcases :=
  repeat match goal with
  | |- context [Qltb ?a ?b] =>
      let E := fresh "E" in
      destruct (Qltb a b) eqn:E; [apply Qltb_lt in E | apply Qltb_ge in E]
  end.

Section RoundFacts.

Local Open Scope Q_scope.

Lemma round_half_even_bounds (x : Q) :
  (Qfloor x <= round_half_even x <= Qfloor x + 1)%Z.
Proof. unfold round_half_even. repeat destruct (_ : bool); lia. Qed.

Lemma round_half_even_mono (x y : Q) :
  x <= y -> (round_half_even x <= round_half_even y)%Z.
Proof.
  intros Hxy. pose proof (Qfloor_resp_le _ _ Hxy) as Hf.
  destruct (Z.eq_dec (Qfloor x) (Qfloor y)) as [E|N].
  - unfold round_half_even. rewrite <- E.
    assert (Hr : x - inject_Z (Qfloor x) <= y - inject_Z (Qfloor x)) by lra.
    qcases; try lia; try (exfalso; lra); destruct (Z.even _); lia.
  - pose proof (round_half_even_bounds x).
    pose proof (round_half_even_bounds y). lia.
Qed.

(** A strictly larger rounded value comes from a strictly larger value. *)
Lemma round2_lt_inv (x y a b : Q) :
  round2 (Fin x) = Fin a -> round2 (Fin y) = Fin b -> a < b -> x < y.
Proof.
  cbn. intros [= <-] [= <-] Hab.
  apply Qnot_le_lt. intros Hyx.
  assert (Hm : y * 100 <= x * 100) by lra.
  apply round_half_even_mono in Hm.
  apply Qlt_not_le in Hab. apply Hab.
  apply Qmult_le_compat_r; [|discriminate].
  rewrite <- Zle_Qle. exact Hm.
Qed.

End RoundFacts.

(** ** Exceptions and traversals *)

Section TraverseFacts.

Context {A B : Type} (f : A -> result B).

Lemma traverse_Forall2 l v :
  traverse f l = Ok v -> Forall2 (fun x y => f x = Ok y) l v.
Proof.
  revert v. induction l as [|x l IH]; intros v; cbn.
  - intros [= <-]. constructor.
  - destruct (f x) eqn:E; cbn; [|discriminate].
    destruct (traverse f l) eqn:E'; cbn; [|discriminate].
    intros [= <-]. constructor; auto.
Qed.

Lemma traverse_total l :
  Forall (fun x => exists y, f x = Ok y) l -> exists v, traverse f l = Ok v.
Proof.
  induction 1 as [|x l [y Hy] _ [v Hv]]; cbn; [eauto|].
  rewrite Hy. cbn. rewrite Hv. cbn. eauto.
Qed.

End TraverseFacts.

Lemma Forall2_compose {A B C} (R : A -> B -> Prop) (S : B -> C -> Prop) l1 l2 l3 :
  Forall2 R l1 l2 -> Forall2 S l2 l3 ->
  Forall2 (fun x z => exists y, R x y /\ S y z) l1 l3.
Proof.
  intros H. revert l3.
  induction H; intros l3 H3; inversion H3; subst; constructor; eauto.
Qed.

(** Rows after [df[col] = df.apply(f, axis=1)]. *)
Lemma set_column_rows col (f : Row -> result cell) df v :
  traverse f (rows df) = Ok v ->
  Forall2 (fun row row' => exists c, f row = Ok c /\ row' = <[col := c]> row)
    (rows df) (rows (set_column col v df)).
Proof.
  intros H. apply traverse_Forall2 in H. cbn.
  induction H; cbn; constructor; eauto.
Qed.

(** ** The risk classifier *)

Module RiskFacts.

Import RiskClassifier.

(** One row through the five assignments of [classify_batch]. *)
Definition classified (row row' : Row) : Prop :=
  exists nivel razao deficit,
    nivel_risco_of row = Ok nivel /\
    razao_estoque_of row = Ok razao /\
    deficit_of row = Ok deficit /\
    row' = <["deficit" := deficit]> (<["razao_estoque" := razao]>
           (<["emoji_risco" := emoji_cell nivel]>
           (<["cor_risco" := color_cell nivel]>
           (<["nivel_risco" := nivel]> row)))).

Lemma razao_estoque_of_frame (row : Row) k c :
  k <> "estoque_atual" -> k <> "consumo_previsto" ->
  razao_estoque_of (<[k := c]> row) = razao_estoque_of row.
Proof.
  intros H1 H2. unfold razao_estoque_of, row_get, row_item.
  rewrite !lookup_insert_ne by done. reflexivity.
Qed.

Lemma deficit_of_frame (row : Row) k c :
  k <> "estoque_atual" -> k <> "consumo_previsto" ->
  deficit_of (<[k := c]> row) = deficit_of row.
Proof.
  intros H1 H2. unfold deficit_of, row_get.
  rewrite !lookup_insert_ne by done. reflexivity.
Qed.

Ltac step_traverse v E :=
  rewrite ?lookup_insert_eq; cbv beta iota;
  match goal with
  | |- context [traverse ?f (rows ?d)] =>
      destruct (traverse f (rows d)) as [v|] eqn:E; [|discriminate]
  end; cbv beta iota.

(** What a successful call of [classify_batch] did to the heap. *)
Lemma classify_batch_inv (r r' : ref) (σ σ' : Store) :
  classify_batch r σ = (Ok r', σ') ->
  exists df df',
    σ !! r = Some df /\ r' = fresh (dom σ) /\ σ' = <[r' := df']> σ /\
    Forall2 classified (rows df) (rows df') /\
    columns df' = foldl add_column (columns df) risk_columns.
Proof.
  unfold classify_batch, copy, apply_column, apply_rows, setitem, deref, lift, Heap.ret.
  unfold base.mbind, heap_bind, Heap.mbind.
  destruct (σ !! r) as [df|] eqn:Hr; [|discriminate].
  set (r0 := fresh (dom σ)).
  step_traverse v1 E1. step_traverse v2 E2. step_traverse v3 E3.
  step_traverse v4 E4. step_traverse v5 E5.
  intros H. inversion H; subst; clear H.
  eexists df, _. split; [reflexivity|]. split; [reflexivity|].
  split; [rewrite !insert_insert_eq; reflexivity|].
  split; [|reflexivity].
  apply (set_column_rows "nivel_risco") in E1.
  apply (set_column_rows "cor_risco") in E2.
  apply (set_column_rows "emoji_risco") in E3.
  apply (set_column_rows "razao_estoque") in E4.
  apply (set_column_rows "deficit") in E5.
  pose proof (Forall2_compose _ _ _ _ _
                (Forall2_compose _ _ _ _ _
                   (Forall2_compose _ _ _ _ _
                      (Forall2_compose _ _ _ _ _ E1 E2) E3) E4) E5) as H.
  eapply Forall2_impl; [exact H|]. clear.
  intros row row'
    (r4 & (r3 & (r2 & (r1 & (c1 & Hc1 & ->) & (c2 & Hc2 & ->))
                 & (c3 & Hc3 & ->)) & (c4 & Hc4 & ->)) & (c5 & Hc5 & ->)).
  unfold row_item in Hc2, Hc3.
  rewrite lookup_insert_eq in Hc2. cbn in Hc2. injection Hc2 as <-.
  rewrite lookup_insert_ne, lookup_insert_eq in Hc3 by done.
  cbn in Hc3. injection Hc3 as <-.
  rewrite !razao_estoque_of_frame in Hc4 by done.
  rewrite !deficit_of_frame in Hc5 by done.
  exists c1, c4, c5. auto.
Qed.

(** Whether it returns or raises, [classify_batch] writes to no object but
    the copy it made. *)
Lemma classify_batch_writes_copy (r : ref) (σ : Store) (k : ref) :
  k <> fresh (dom σ) -> snd (classify_batch r σ) !! k = σ !! k.
Proof.
  intros Hk.
  unfold classify_batch, copy, apply_column, apply_rows, setitem, deref, lift, Heap.ret.
  unfold base.mbind, heap_bind, Heap.mbind.
  destruct (σ !! r) as [df|] eqn:Hr; [|reflexivity].
  set (r0 := fresh (dom σ)) in *.
  repeat (rewrite ?lookup_insert_eq; cbv beta iota;
          match goal with
          | |- context [traverse ?f (rows ?d)] =>
              destruct (traverse f (rows d));
              [|cbn [snd]; now rewrite !lookup_insert_ne by done]
          end; cbv beta iota).
  cbn [snd]. now rewrite !lookup_insert_ne by done.
Qed.

(** The output frame of a successful call, row by row. *)
Lemma classify_batch_rows (r r' : ref) (σ σ' : Store) df' (row' : Row) :
  classify_batch r σ = (Ok r', σ') -> σ' !! r' = Some df' ->
  row' ∈ rows df' ->
  exists df row, σ !! r = Some df /\ row ∈ rows df /\ classified row row'.
Proof.
  intros Hrun Hdf' Hin.
  destruct (classify_batch_inv _ _ _ _ Hrun) as (df & d & Hr & -> & -> & Hrows & _).
  rewrite lookup_insert_eq in Hdf'. injection Hdf' as <-.
  apply list_elem_of_lookup in Hin as [i Hi].
  destruct (Forall2_lookup_r _ _ _ _ _ Hrows Hi) as (row & Hrow & Hc).
  exists df, row. split; [done|]. split; [|done].
  apply list_elem_of_lookup. eauto.
Qed.

(** [classify_batch] returns on every frame whose stock and forecast
    columns hold numbers. *)
Lemma classify_batch_total (r : ref) (σ : Store) df :
  σ !! r = Some df ->
  Forall (fun row : Row => exists e p,
            row !! "estoque_atual" = Some (CNum e) /\
            row !! "consumo_previsto" = Some (CNum p)) (rows df) ->
  exists r' σ', classify_batch r σ = (Ok r', σ').
Proof.
  intros Hr Hnum.
  unfold classify_batch, copy, apply_column, apply_rows, setitem, deref, lift, Heap.ret.
  unfold base.mbind, heap_bind, Heap.mbind. rewrite Hr.
  set (r0 := fresh (dom σ)). cbv beta iota. rewrite ?lookup_insert_eq. cbv beta iota.
  destruct (traverse_total nivel_risco_of (rows df)) as [v1 E1].
  { eapply Forall_impl; [exact Hnum|]. intros row (e & p & He & Hp).
    unfold nivel_risco_of, row_get. rewrite He, Hp. cbn.
    unfold classify_risk. destruct (cell_eq_zero _); cbn; [eauto|].
    repeat destruct (Num.ltb _ _); cbn; eauto. }
  rewrite E1. cbv beta iota. rewrite ?lookup_insert_eq. cbv beta iota.
  pose proof (set_column_rows "nivel_risco" _ _ _ E1) as F1.
  match goal with |- context [traverse ?f (rows ?d)] =>
    destruct (traverse_total f (rows d)) as [v2 E2] end.
  { apply Forall2_Forall_r with (1 := F1). apply Forall_true.
    intros row' row (c & _ & ->). unfold row_item.
    rewrite lookup_insert_eq. cbn. eauto. }
  rewrite E2. cbv beta iota. rewrite ?lookup_insert_eq. cbv beta iota.
  pose proof (Forall2_compose _ _ _ _ _ F1 (set_column_rows "cor_risco" _ _ _ E2)) as F2.
  match goal with |- context [traverse ?f (rows ?d)] =>
    destruct (traverse_total f (rows d)) as [v3 E3] end.
  { apply Forall2_Forall_r with (1 := F2). apply Forall_true.
    intros row' row (? & (c & _ & ->) & (c' & _ & ->)). unfold row_item.
    rewrite lookup_insert_ne, lookup_insert_eq by done. cbn. eauto. }
  rewrite E3. cbv beta iota. rewrite ?lookup_insert_eq. cbv beta iota.
  pose proof (Forall2_compose _ _ _ _ _ F2 (set_column_rows "emoji_risco" _ _ _ E3)) as F3.
  assert (Hnum3 : Forall (fun row : Row => exists e p,
            row !! "estoque_atual" = Some (CNum e) /\
            row !! "consumo_previsto" = Some (CNum p))
            (rows (set_column "emoji_risco" v3
              (set_column "cor_risco" v2 (set_column "nivel_risco" v1 df))))).
  { apply Forall2_Forall_r with (1 := F3).
    eapply Forall_impl; [exact Hnum|].
    intros row (e & p & He & Hp) row' (? & (? & (c & _ & ->) & (c' & _ & ->)) & (c'' & _ & ->)).
    exists e, p. rewrite !lookup_insert_ne by done. auto. }
  destruct (traverse_total razao_estoque_of _ ltac:(
    eapply Forall_impl; [exact Hnum3|];
    intros row (e & p & He & Hp);
    unfold razao_estoque_of, row_get, row_item; rewrite He, Hp; cbn;
    repeat case_match; cbn; eauto)) as [v4 E4].
  rewrite E4. cbv beta iota. rewrite ?lookup_insert_eq. cbv beta iota.
  pose proof (set_column_rows "razao_estoque" _ _ _ E4) as F4.
  match goal with |- context [traverse ?f (rows ?d)] =>
    destruct (traverse_total f (rows d)) as [v5 E5] end.
  { apply Forall2_Forall_r with (1 := F4).
    eapply Forall_impl; [exact Hnum3|].
    intros row (e & p & He & Hp) row' (c & _ & ->).
    unfold deficit_of, row_get. rewrite !lookup_insert_ne by done.
    rewrite He, Hp. cbn. eauto. }
  rewrite E5. cbv beta iota. rewrite ?lookup_insert_eq. cbv beta iota. eauto.
Qed.

End RiskFacts.

(** ** The classifier on doubles *)

(** The scenarios of the specification, computed on IEEE-754 doubles:
    1200 / 1000 is the double of the literal 1.2, hence not below it. *)
Lemma binary64_scenarios :
  Binary64.classify_risk 1200 1000 = RiskClassifier.Baixo /\
  Binary64.classify_risk 1100 1000 = RiskClassifier.Medio /\
  Binary64.classify_risk 500 1000 = RiskClassifier.Alto /\
  Binary64.classify_risk 500 0 = RiskClassifier.Baixo.
Proof. vm_compute. repeat split. Qed.

(** ** The outlier bound without the square root *)

Section OutlierBound.

Import DataCleaner.
Local Open Scope Q_scope.

(** Whenever the standard deviation [s] is a rational, [within_limit] is
    the comparison [x <= mean + n_std * s] of the code. *)
Lemma within_limit_spec (n_std m var x s : Q) :
  0 <= n_std -> 0 <= s -> s * s == var ->
  within_limit n_std m var x = true <-> x <= m + n_std * s.
Proof.
  intros Hn Hs Hv. unfold within_limit.
  rewrite orb_true_iff, !Qle_bool_iff, <- Hv.
  assert (Hb : 0 <= n_std * s) by (apply Qmult_le_0_compat; assumption).
  split.
  - intros [H|H]; [lra|].
    destruct (Qlt_le_dec (m + n_std * s) x) as [Hlt|]; [|assumption].
    exfalso.
    assert (0 < (x - m - n_std * s) * (x - m + n_std * s))
      by (apply Qmult_lt_0_compat; lra).
    lra.
  - intros H. destruct (Qlt_le_dec 0 (x - m)) as [Hpos|]; [right|left; assumption].
    assert (0 <= (n_std * s - (x - m)) * (n_std * s + (x - m)))
      by (apply Qmult_le_0_compat; lra).
    lra.
Qed.

End OutlierBound.

(** ** Claims about the risk classifier *)

Section RiskClaims.

Import RiskClassifier RiskFacts.
Local Open Scope Q_scope.

(** The level as a function of the exact ratio stock / forecast. *)
Definition level_of_ratio (x : Q) : risk :=
  if Qltb x 1 then Alto else if Qltb x (12 # 10) then Medio else Baixo.

Lemma level_of_ratio_antitone (x y : Q) :
  x <= y -> (severity (level_of_ratio y) <= severity (level_of_ratio x))%nat.
Proof.
  intros Hxy. unfold level_of_ratio. qcases; cbn; try lia; exfalso; lra.
Qed.

Lemma classify_risk_ratio (s f : Q) :
  ~ f == 0 ->
  classify_risk (CNum (Fin s)) (CNum (Fin f)) = Ok (level_of_ratio (s / f)).
Proof.
  intros Hf. unfold classify_risk, level_of_ratio. cbn.
  destruct (Qeq_bool f 0) eqn:E; [apply Qeq_bool_eq in E; contradiction|].
  repeat destruct (Qltb _ _); reflexivity.
Qed.




(** The rows of the frame a run returns, when it returns one. *)
Definition returned_row (run : result ref * Store) (i : nat) : option Row :=
  match run with
  | (Ok r', σ') => df' ← σ' !! r'; rows df' !! i
  | (Raise _, _) => None
  end.

Definition returned_cell (run : result ref * Store) (i : nat) (col : string) : option cell :=
  row ← returned_row run i; row !! col.

(** A frame of three medications: stock above, at zero and below the
    forecast. *)
Definition sample_risk_frame : DataFrame :=
  mkFrame ["medicamento"; "estoque_atual"; "consumo_previsto"]
    [ list_to_map [("medicamento", CStr "DIPIRONA"); ("estoque_atual", CNum (Fin 1200));
                   ("consumo_previsto", CNum (Fin 1000))];
      list_to_map [("medicamento", CStr "ATENOLOL"); ("estoque_atual", CNum (Fin 5));
                   ("consumo_previsto", CNum (Fin 0))];
      list_to_map [("medicamento", CStr "CAPTOPRIL"); ("estoque_atual", CNum (Fin 1));
                   ("consumo_previsto", CNum (Fin 2))] ].

Definition sample_risk_store : Store := {[ 0%nat := sample_risk_frame ]}.

Lemma sample_risk_run :
  let run := classify_batch 0%nat sample_risk_store in
  returned_cell run 1 "razao_estoque" = Some (CNum (Fin 0)) /\
  returned_cell run 1 "nivel_risco" = Some (CStr (risk_name Baixo)) /\
  returned_cell run 2 "razao_estoque" = Some (CNum (Fin (50 # 100))) /\
  returned_cell run 2 "nivel_risco" = Some (CStr (risk_name Alto)) /\
  returned_cell run 2 "deficit" = Some (CNum (Fin 1)).
Proof. vm_compute. repeat split. Qed.

(** Name the pieces of a run that [returned_cell] has shown to exist. *)
Ltac open_run Hrun Hdf' :=
  match goal with
  | H : context [returned_cell ?run _ _] |- _ =>
      unfold returned_cell, returned_row in *;
      let r' := fresh "r'" in
      let σ' := fresh "σ'" in
      let df' := fresh "df'" in
      destruct run as [[r'|] σ'] eqn:Hrun; [|cbn in H; discriminate];
      destruct (σ' !! r') as [df'|] eqn:Hdf'; [|cbn in H; discriminate];
      cbn [base.mbind option_bind] in *
  end.


(** A row with forecast 0 is recorded with ratio 0 and level Low. *)
Lemma zero_forecast_is_low (r r' : ref) (σ σ' : Store) df' (i : nat) (row' : Row) (p : Q) :
  classify_batch r σ = (Ok r', σ') ->
  σ' !! r' = Some df' ->
  rows df' !! i = Some row' ->
  row' !! "consumo_previsto" = Some (CNum (Fin p)) -> p == 0 ->
  row' !! "nivel_risco" = Some (CStr (risk_name Baixo)) /\
  row' !! "razao_estoque" = Some zero.
Proof.
  intros Hrun Hdf' Hi Hp Hzero.
  destruct (classify_batch_rows _ _ _ _ _ row' Hrun Hdf') as (df & row & _ & _ & Hc).
  { apply list_elem_of_lookup. eauto. }
  destruct Hc as (nivel & razao & deficit & Hn & Hr & _ & ->).
  rewrite !lookup_insert_ne in Hp by done.
  rewrite !lookup_insert_ne by done. rewrite lookup_insert_eq.
  rewrite lookup_insert_ne, lookup_insert_eq by done.
  unfold nivel_risco_of, razao_estoque_of, row_get, classify_risk in Hn, Hr.
  rewrite Hp in Hn, Hr. cbn in Hn, Hr.
  rewrite (Qeq_eq_bool _ _ Hzero) in Hn. cbn in Hn.
  replace (Qltb 0 p) with false in Hr
    by (symmetry; apply Qltb_ge; rewrite Hzero; apply Qle_refl).
  cbn in Hr. injection Hn as <-. injection Hr as <-. split; reflexivity.
Qed.

(** The claim of C8 on one output frame: a strictly greater emitted
    [razao_estoque] never comes with a more severe level. *)
Definition monotone_in_stock_ratio (df' : DataFrame) : Prop :=
  forall (i j : nat) (row1 row2 : Row) q1 q2 l1 l2,
    rows df' !! i = Some row1 -> rows df' !! j = Some row2 ->
    row1 !! "razao_estoque" = Some (CNum (Fin q1)) ->
    row2 !! "razao_estoque" = Some (CNum (Fin q2)) ->
    row1 !! "nivel_risco" = Some (CStr (risk_name l1)) ->
    row2 !! "nivel_risco" = Some (CStr (risk_name l2)) ->
    q1 < q2 -> (severity l2 <= severity l1)%nat.



(** Two medications with positive forecasts. *)
Definition sample_positive_frame : DataFrame :=
  mkFrame ["medicamento"; "estoque_atual"; "consumo_previsto"]
    [ list_to_map [("medicamento", CStr "LOSARTANA"); ("estoque_atual", CNum (Fin 500));
                   ("consumo_previsto", CNum (Fin 1000))];
      list_to_map [("medicamento", CStr "OMEPRAZOL"); ("estoque_atual", CNum (Fin 1100));
                   ("consumo_previsto", CNum (Fin 1000))] ].

Definition sample_positive_store : Store := {[ 0%nat := sample_positive_frame ]}.

Lemma sample_positive_run :
  let run := classify_batch 0%nat sample_positive_store in
  returned_cell run 0 "consumo_previsto" = Some (CNum (Fin 1000)) /\
  returned_cell run 1 "consumo_previsto" = Some (CNum (Fin 1000)) /\
  returned_cell run 0 "razao_estoque" = Some (CNum (Fin (50 # 100))) /\
  returned_cell run 1 "razao_estoque" = Some (CNum (Fin (110 # 100))).
Proof. vm_compute. repeat split. Qed.


Lemma add_column_spec (cols : list string) (c : string) :
  cols `prefix_of` add_column cols c /\
  forall x, x ∈ add_column cols c <-> x ∈ cols \/ x = c.
Proof.
  unfold add_column. case_bool_decide as Hc.
  - split; [reflexivity|]. intros x. split; [auto|]. intros [H| ->]; assumption.
  - split; [apply prefix_app_r; reflexivity|].
    intros x. rewrite elem_of_app, list_elem_of_singleton. reflexivity.
Qed.

Lemma foldl_add_column (new cols : list string) :
  cols `prefix_of` foldl add_column cols new /\
  forall x, x ∈ foldl add_column cols new <-> x ∈ cols \/ x ∈ new.
Proof.
  revert cols. induction new as [|c new IH]; intros cols; cbn.
  - split; [reflexivity|]. intros x. rewrite elem_of_nil. tauto.
  - destruct (IH (add_column cols c)) as [Hp Hm].
    destruct (add_column_spec cols c) as [Hp' Hm'].
    split; [etransitivity; eassumption|].
    intros x. rewrite Hm, Hm', elem_of_cons. tauto.
Qed.

(** A frame that already carries a [deficit] column. *)
Definition sample_reclassified_frame : DataFrame :=
  mkFrame ["medicamento"; "estoque_atual"; "consumo_previsto"; "deficit"]
    [ list_to_map [("medicamento", CStr "DIPIRONA"); ("estoque_atual", CNum (Fin 1200));
                   ("consumo_previsto", CNum (Fin 1000)); ("deficit", CNum (Fin 999))] ].

Definition sample_reclassified_store : Store := {[ 0%nat := sample_reclassified_frame ]}.

(** C10, as stated, fails: a column of the input that bears one of the
    five names is overwritten, so its values are not kept. *)
Lemma preexisting_deficit_overwritten :
  let run := classify_batch 0%nat sample_reclassified_store in
  "deficit" ∈ columns sample_reclassified_frame /\
  (row ← rows sample_reclassified_frame !! 0%nat; row !! "deficit")
    = Some (CNum (Fin 999)) /\
  returned_cell run 0 "deficit" = Some (CNum (Fin 0)).
Proof.
  split; [cbn; set_solver|]. vm_compute. split; reflexivity.
Qed.

(** C10, amended. Whether it returns or raises, [classify_batch] leaves the
    input object and every other object of the heap unmodified (it writes
    to its copy only).  When it returns, the new frame has the same number
    of rows in the same order, every column other than [risk_columns] has
    its input value, the five [risk_columns] are set (added when absent,
    overwritten when present), and the columns are those of the input
    followed by the new ones. *)
Theorem classify_batch_frame (r : ref) (σ : Store) (df : DataFrame) :
  σ !! r = Some df ->
  snd (classify_batch r σ) !! r = Some df /\
  (forall k, k <> fresh (dom σ) -> snd (classify_batch r σ) !! k = σ !! k) /\
  forall r' σ',
    classify_batch r σ = (Ok r', σ') ->
    r' <> r /\
    exists df',
      σ' !! r' = Some df' /\
      length (rows df') = length (rows df) /\
      (forall (i : nat) (row : Row), rows df !! i = Some row ->
         exists row' : Row, rows df' !! i = Some row' /\
           (forall k, k ∉ risk_columns -> row' !! k = row !! k) /\
           (forall k, k ∈ risk_columns -> is_Some (row' !! k))) /\
      columns df `prefix_of` columns df' /\
      (forall c, c ∈ columns df' <-> c ∈ columns df \/ c ∈ risk_columns).
Proof.
  intros Hr.
  assert (Hfresh : fresh (dom σ) <> r).
  { intros E. pose proof (is_fresh (dom σ)) as Hf. rewrite E in Hf.
    apply Hf. apply elem_of_dom. eauto. }
  split; [rewrite classify_batch_writes_copy by congruence; exact Hr|].
  split; [intros k Hk; now apply classify_batch_writes_copy|].
  intros r' σ' Hrun.
  destruct (classify_batch_inv _ _ _ _ Hrun) as (df0 & df' & Hr0 & -> & -> & Hrows & Hcols).
  rewrite Hr in Hr0. injection Hr0 as <-.
  split; [exact Hfresh|].
  exists df'. split; [apply lookup_insert_eq|].
  split; [symmetry; exact (Forall2_length _ _ _ Hrows)|].
  split.
  - intros i row Hi.
    destruct (Forall2_lookup_l _ _ _ _ _ Hrows Hi) as (row' & Hi' & Hc).
    exists row'. split; [exact Hi'|].
    destruct Hc as (nivel & razao & deficit & _ & _ & _ & ->). split.
    + intros k Hk. unfold risk_columns in Hk.
      rewrite !not_elem_of_cons in Hk. destruct Hk as (? & ? & ? & ? & ? & _).
      rewrite !lookup_insert_ne by done. reflexivity.
    + intros k Hk. unfold risk_columns in Hk.
      rewrite !elem_of_cons, elem_of_nil in Hk.
      rewrite !lookup_insert. repeat case_decide; eauto. intuition congruence.
  - rewrite Hcols. apply foldl_add_column.
Qed.

Lemma classify_batch_frame_witness :
  snd (classify_batch 0%nat sample_risk_store) !! 0%nat = Some sample_risk_frame.
Proof.
  exact (proj1 (classify_batch_frame 0%nat sample_risk_store sample_risk_frame eq_refl)).
Defined.

End RiskClaims.

(** ** Text *)

Lemma is_digit_cases (c : ascii) :
  Text.is_digit c = true ->
  In c ["0"; "1"; "2"; "3"; "4"; "5"; "6"; "7"; "8"; "9"]%char.
Proof.
  destruct c as [[] [] [] [] [] [] [] []]; intros H;
    first [discriminate H | cbn; tauto].
Qed.

(** Replace a digit character of the context by each of its ten values. *)
Ltac each_digit H :=
  apply is_digit_cases in H; cbn [In] in H;
  repeat (destruct H as [H|H]; [subst|]); [..|contradiction].

Section TextFacts.

Import Text.

Local Open Scope Z_scope.

Lemma digit_char_val (c : ascii) : is_digit c = true -> digit_char (digit_val c) = c.
Proof. intros H. each_digit H; reflexivity. Qed.

Lemma digit_val_range (c : ascii) : is_digit c = true -> 0 <= digit_val c <= 9.
Proof. intros H. each_digit H; cbv; split; discriminate. Qed.

Lemma pad4_digits (a b c d : ascii) :
  is_digit a = true -> is_digit b = true -> is_digit c = true -> is_digit d = true ->
  pad4 (1000 * digit_val a + 100 * digit_val b + 10 * digit_val c + digit_val d)
  = String a (String b (String c (String d EmptyString))).
Proof.
  intros Ha Hb Hc Hd.
  pose proof (digit_val_range _ Ha). pose proof (digit_val_range _ Hb).
  pose proof (digit_val_range _ Hc). pose proof (digit_val_range _ Hd).
  unfold pad4, pad2.
  set (n := 1000 * digit_val a + 100 * digit_val b + 10 * digit_val c + digit_val d).
  assert (E1 : n / 1000 mod 10 = digit_val a)
    by (subst n; Z.to_euclidean_division_equations; lia).
  assert (E2 : n / 100 mod 10 = digit_val b)
    by (subst n; Z.to_euclidean_division_equations; lia).
  assert (E3 : n / 10 mod 10 = digit_val c)
    by (subst n; Z.to_euclidean_division_equations; lia).
  assert (E4 : n mod 10 = digit_val d)
    by (subst n; Z.to_euclidean_division_equations; lia).
  rewrite E1, E2, E3, E4, !digit_char_val by assumption. reflexivity.
Qed.

(** *** [strip] and [upper] *)

Lemma is_space_upper_char (c : ascii) : is_space (upper_char c) = is_space c.
Proof. destruct c as [[] [] [] [] [] [] [] []]; reflexivity. Qed.

Lemma upper_char_idem (c : ascii) : upper_char (upper_char c) = upper_char c.
Proof. destruct c as [[] [] [] [] [] [] [] []]; reflexivity. Qed.

Lemma upper_idem (s : string) : upper (upper s) = upper s.
Proof. induction s as [|c s IH]; cbn; [reflexivity|]. now rewrite upper_char_idem, IH. Qed.

Lemma lstrip_upper (s : string) : lstrip (upper s) = upper (lstrip s).
Proof.
  induction s as [|c s IH]; cbn; [reflexivity|].
  rewrite is_space_upper_char. destruct (is_space c); [exact IH|reflexivity].
Qed.

Lemma rstrip_upper (s : string) : rstrip (upper s) = upper (rstrip s).
Proof.
  induction s as [|c s IH]; cbn; [reflexivity|].
  rewrite IH, is_space_upper_char.
  destruct (rstrip s); cbn; [destruct (is_space c)|]; reflexivity.
Qed.

Lemma strip_upper (s : string) : strip (upper s) = upper (strip s).
Proof. unfold strip. now rewrite lstrip_upper, rstrip_upper. Qed.

(** The text does not begin with white space. *)
Definition no_lead (s : string) : Prop :=
  match s with
  | String c _ => is_space c = false
  | EmptyString => True
  end.

Lemma lstrip_no_lead (s : string) : no_lead (lstrip s).
Proof.
  induction s as [|c s IH]; cbn; [exact I|].
  destruct (is_space c) eqn:E; [exact IH|exact E].
Qed.

Lemma lstrip_fixed (s : string) : no_lead s -> lstrip s = s.
Proof. destruct s as [|c s]; cbn; [reflexivity|]. now intros ->. Qed.

Lemma rstrip_no_lead (s : string) : no_lead s -> no_lead (rstrip s).
Proof.
  destruct s as [|c s]; cbn; [auto|]. intros H.
  destruct (rstrip s); cbn; [rewrite H; cbn|]; exact H.
Qed.

Lemma rstrip_idem (s : string) : rstrip (rstrip s) = rstrip s.
Proof.
  induction s as [|c s IH]; cbn; [reflexivity|].
  destruct (rstrip s) as [|c' t] eqn:E.
  - destruct (is_space c) eqn:Ec; cbn; [reflexivity|]. now rewrite Ec.
  - cbn [rstrip]. cbn [rstrip] in IH. rewrite IH. reflexivity.
Qed.

Lemma strip_idem (s : string) : strip (strip s) = strip s.
Proof.
  unfold strip. rewrite (lstrip_fixed (rstrip (lstrip s))).
  - apply rstrip_idem.
  - apply rstrip_no_lead, lstrip_no_lead.
Qed.

(** A normalized medication name is a fixed point of the normalization. *)
Lemma normalize_idem (s : string) : upper (strip (upper (strip s))) = upper (strip s).
Proof. now rewrite strip_upper, strip_idem, upper_idem. Qed.

End TextFacts.

(** ** [format_date] on tokens of the shape [YYYY-MM] *)

Section DateFacts.

Import Text DataHelpers DataCleaner.

Local Open Scope Z_scope.

(** The tail of a token that [matches_year_month] accepts after the month:
    nothing, or one line feed. *)
Definition token_end (rest : string) : Prop :=
  rest = EmptyString \/ rest = String newline EmptyString.

Lemma matches_year_month_inv (s : string) :
  matches_year_month s = true ->
  exists a b c d m1 m2 rest,
    s = String a (String b (String c (String d (String "-" (String m1 (String m2 rest)))))) /\
    is_digit a = true /\ is_digit b = true /\ is_digit c = true /\ is_digit d = true /\
    is_digit m1 = true /\ is_digit m2 = true /\ token_end rest.
Proof.
  destruct s as [|a [|b [|c [|d [|h [|m1 [|m2 rest]]]]]]]; try discriminate.
  cbn. rewrite !andb_true_iff.
  intros [[[[[[[Ha Hb] Hc] Hd] Hh] Hm1] Hm2] Hrest].
  apply Ascii.eqb_eq in Hh. subst h.
  exists a, b, c, d, m1, m2, rest. repeat split; try assumption.
  destruct rest as [|n [|? ?]]; [left; reflexivity| |discriminate].
  apply Ascii.eqb_eq in Hrest. subst n. right. reflexivity.
Qed.

Lemma match_format_year (fmt : list directive) (f : fields) (a b c d : ascii) (rest : string) :
  is_digit a = true -> is_digit b = true -> is_digit c = true -> is_digit d = true ->
  match_format (DY :: fmt) f (String a (String b (String c (String d rest)))) =
  match_format fmt
    (mkFields (1000 * digit_val a + 100 * digit_val b + 10 * digit_val c + digit_val d)
              (f_month f) (f_day f)) rest.
Proof.
  intros Ha Hb Hc Hd. cbn [match_format]. unfold match_year.
  rewrite Ha, Hb, Hc, Hd. cbn. apply app_nil_r.
Qed.

Lemma match_format_lit (fmt : list directive) (f : fields) (c : ascii) (rest : string) :
  match_format (Lit c :: fmt) f (String c rest) = match_format fmt f rest.
Proof. cbn [match_format]. now rewrite Ascii.eqb_refl. Qed.

(** When ['%m'] consumes the two digits of the month and nothing is left,
    the month is a real one and prints back as the same two digits. *)
Lemma match_month_two_digits (f : fields) (m1 m2 : ascii) (rest : string) :
  is_digit m1 = true -> is_digit m2 = true -> token_end rest ->
  match match_format [Dm] f (String m1 (String m2 rest)) with
  | (f', EmptyString) :: _ =>
      rest = EmptyString /\ f_year f' = f_year f /\ f_day f' = f_day f /\
      1 <= f_month f' <= 12 /\
      pad2 (f_month f') = String m1 (String m2 EmptyString)
  | _ => True
  end.
Proof.
  intros H1 H2 [-> | ->]; each_digit H1; each_digit H2; cbv;
    first [exact I | repeat split; discriminate].
Qed.

Lemma match_format_day_digits (fmt : list directive) (f : fields) (a b c : ascii) (rest : string) :
  is_digit a = true -> is_digit b = true -> is_digit c = true ->
  match_format (Dd :: Lit "/" :: fmt) f (String a (String b (String c rest))) = [].
Proof.
  intros Ha Hb Hc. each_digit Ha; each_digit Hb; each_digit Hc; reflexivity.
Qed.

Lemma match_format_month_dash (fmt : list directive) (f : fields) (m1 m2 : ascii) (rest : string) :
  is_digit m1 = true -> is_digit m2 = true -> token_end rest ->
  match_format (Dm :: Lit "-" :: fmt) f (String m1 (String m2 rest)) = [].
Proof.
  intros H1 H2 [-> | ->]; each_digit H1; each_digit H2; reflexivity.
Qed.

Lemma valid_first_day (y m : Z) :
  1 <= m <= 12 -> Calendar.valid_date y m 1 = (1 <=? y) && (y <=? 9999).
Proof.
  intros Hm. unfold Calendar.valid_date, Calendar.days_in_month.
  replace (1 <=? m) with true by (symmetry; apply Z.leb_le; lia).
  replace (m <=? 12) with true by (symmetry; apply Z.leb_le; lia).
  rewrite !andb_true_r.
  repeat match goal with |- context [if ?b then _ else _] => destruct b end;
    cbn; rewrite ?andb_true_r; reflexivity.
Qed.

(** A token of the shape [YYYY-MM] that ['%Y-%m'] parses is printed back
    as itself. *)
Lemma strptime_year_month_fixed (s : string) (t : Calendar.date) :
  matches_year_month s = true ->
  strptime s [DY; Lit "-"; Dm] = Some t -> strftime_ym t = s.
Proof.
  intros Hs. destruct (matches_year_month_inv _ Hs)
    as (a & b & c & d & m1 & m2 & rest & -> & Ha & Hb & Hc & Hd & H1 & H2 & Hrest).
  unfold strptime. rewrite match_format_year, match_format_lit by assumption.
  match goal with
  | |- context [match_format [Dm] ?f _] =>
      pose proof (match_month_two_digits f m1 m2 rest H1 H2 Hrest) as Hm
  end.
  destruct (match_format [Dm] _ _) as [|[f' r] l]; [intros [=]|].
  destruct r; [|intros [=]].
  destruct Hm as (-> & Hy & Hday & Hmonth & Hpad).
  cbn in Hy, Hday. rewrite Hy, Hday.
  destruct (Calendar.valid_date _ _ _); [|discriminate].
  intros [= <-]. unfold strftime_ym. cbn [Calendar.year Calendar.month].
  rewrite pad4_digits, Hpad by assumption. reflexivity.
Qed.

(** No other format parses a token of that shape. *)
Lemma strptime_other_formats (s : string) :
  matches_year_month s = true ->
  Forall (fun fmt => strptime s fmt = None)
    [ [DY; Lit "/"; Dm]; [DY; Dm]; [Dd; Lit "/"; Dm; Lit "/"; DY];
      [DY; Lit "-"; Dm; Lit "-"; Dd] ].
Proof.
  intros Hs. destruct (matches_year_month_inv _ Hs)
    as (a & b & c & d & m1 & m2 & rest & -> & Ha & Hb & Hc & Hd & H1 & H2 & Hrest).
  repeat first [apply List.Forall_cons | apply List.Forall_nil]; unfold strptime.
  - rewrite match_format_year by assumption. reflexivity.
  - rewrite match_format_year by assumption. reflexivity.
  - rewrite match_format_day_digits by assumption. reflexivity.
  - rewrite match_format_year, match_format_lit by assumption.
    rewrite match_format_month_dash by assumption. reflexivity.
Qed.

Lemma format_date_fixed (s : string) :
  matches_year_month s = true -> format_date (CStr s) = CStr s.
Proof.
  intros Hs. pose proof (strptime_other_formats s Hs) as Hother.
  inversion_clear Hother as [|? ? E2 Hother2].
  inversion_clear Hother2 as [|? ? E3 Hother3].
  inversion_clear Hother3 as [|? ? E4 Hother4].
  inversion_clear Hother4 as [|? ? E5 _].
  unfold format_date, date_formats. cbn [first_parse].
  destruct (strptime s [DY; Lit "-"; Dm]) as [t|] eqn:E1.
  - now rewrite (strptime_year_month_fixed s t Hs E1).
  - now rewrite E2, E3, E4, E5.
Qed.

End DateFacts.

(** ** The cleaner, stage by stage *)

Section CleanerFacts.

Import Text DataHelpers DataCleaner.

(** *** Lists *)

Lemma filter_Forall {A} (P : A -> Prop) (f : A -> bool) (l : list A) :
  Forall P l -> Forall P (List.filter f l).
Proof.
  induction 1 as [|x l Hx _ IH]; cbn; [constructor|].
  destruct (f x); [constructor|]; assumption.
Qed.

Lemma filter_Forall_true {A} (f : A -> bool) (l : list A) :
  Forall (fun x => f x = true) (List.filter f l).
Proof.
  induction l as [|x l IH]; cbn; [constructor|].
  destruct (f x) eqn:E; [constructor|]; assumption.
Qed.

Lemma filter_fixed {A} (f : A -> bool) (l : list A) :
  Forall (fun x => f x = true) l -> List.filter f l = l.
Proof.
  induction 1 as [|x l Hx _ IH]; cbn; [reflexivity|]. now rewrite Hx, IH.
Qed.

Lemma map_fixed {A} (g : A -> A) (l : list A) :
  Forall (fun x => g x = x) l -> map g l = l.
Proof. induction 1 as [|x l Hx _ IH]; cbn; [reflexivity|]. now rewrite Hx, IH. Qed.

(** *** Sorting *)

Fixpoint locally_sorted (leb : Row -> Row -> bool) (l : list Row) : Prop :=
  match l with
  | x :: (y :: _) as l' => leb x y = true /\ locally_sorted leb l'
  | _ => True
  end.

Section Sorting.

Variable leb : Row -> Row -> bool.
Hypothesis leb_total : forall x y, leb x y = false -> leb y x = true.

Lemma insert_row_sorted (x : Row) (l : list Row) :
  locally_sorted leb l -> locally_sorted leb (insert_row leb x l).
Proof.
  induction l as [|y l IH]; cbn [insert_row]; [intros; exact I|].
  intros Hs. destruct (leb x y) eqn:E; [split; assumption|].
  destruct l as [|z l]; cbn [insert_row] in *.
  - split; [apply leb_total, E|exact I].
  - destruct Hs as [Hyz Hs]. specialize (IH Hs).
    destruct (leb x z) eqn:E'.
    + split; [apply leb_total, E|exact IH].
    + split; [exact Hyz|exact IH].
Qed.

Lemma sort_rows_sorted (l : list Row) : locally_sorted leb (sort_rows leb l).
Proof.
  induction l as [|x l IH]; cbn; [exact I|]. apply insert_row_sorted, IH.
Qed.

End Sorting.

(** Sorting a sorted list changes nothing (the sort is stable). *)
Lemma sort_rows_fixed (leb : Row -> Row -> bool) (l : list Row) :
  locally_sorted leb l -> sort_rows leb l = l.
Proof.
  induction l as [|x l IH]; [reflexivity|].
  intros Hs. cbn [sort_rows fold_right]. fold (sort_rows leb l).
  destruct l as [|y l]; [reflexivity|].
  destruct Hs as [Hxy Hs]. rewrite (IH Hs). cbn. now rewrite Hxy.
Qed.

Lemma insert_row_Forall (P : Row -> Prop) leb (x : Row) (l : list Row) :
  P x -> Forall P l -> Forall P (insert_row leb x l).
Proof.
  intros Hx. induction 1 as [|y l Hy Hl IH]; cbn.
  - repeat constructor; assumption.
  - destruct (leb x y); repeat constructor; assumption.
Qed.

Lemma sort_rows_Forall (P : Row -> Prop) leb (l : list Row) :
  Forall P l -> Forall P (sort_rows leb l).
Proof.
  induction 1 as [|x l Hx _ IH]; cbn; [constructor|].
  apply insert_row_Forall; assumption.
Qed.

Lemma row_leb_total (x y : Row) : row_leb x y = false -> row_leb y x = true.
Proof.
  unfold row_leb, String.leb.
  rewrite (String.compare_antisym (cell_text (cell_of y "medicamento"))).
  rewrite (String.compare_antisym (cell_text (cell_of y "data"))).
  destruct (String.compare (cell_text (cell_of x "medicamento")) _);
    destruct (String.compare (cell_text (cell_of x "data")) _);
    cbn; congruence.
Qed.

(** *** Columns *)

Lemma add_column_present (cols : list string) (col : string) :
  col ∈ cols -> add_column cols col = cols.
Proof. intros H. unfold add_column. now rewrite bool_decide_eq_true_2. Qed.

Lemma map_column_fixed (col : string) (f : cell -> cell) (df : DataFrame) :
  col ∈ columns df ->
  Forall (fun row : Row => exists c, row !! col = Some c /\ f c = c) (rows df) ->
  map_column col f df = df.
Proof.
  intros Hcol Hrows. destruct df as [cols l]. unfold map_column. cbn in *.
  rewrite add_column_present by assumption. f_equal.
  apply map_fixed. eapply Forall_impl; [exact Hrows|].
  intros row (c & Hc & Hf). unfold cell_of, row_get. rewrite Hc. cbn.
  rewrite Hf. now apply insert_id.
Qed.

Lemma with_rows_fixed (df : DataFrame) : with_rows df (rows df) = df.
Proof. now destruct df. Qed.

(** The required columns are columns of a frame that passes validation. *)
Lemma validate_dataframe_columns (df : DataFrame) (col : string) :
  validate_dataframe df required_columns = true ->
  col ∈ required_columns -> col ∈ columns df.
Proof.
  unfold validate_dataframe. destruct (is_empty df); [discriminate|].
  destruct (list_difference required_columns (columns df)) eqn:E; [|discriminate].
  intros _ Hreq. destruct (decide (col ∈ columns df)) as [Hin|Hout]; [exact Hin|].
  assert (H : col ∈ list_difference required_columns (columns df))
    by (apply list_elem_of_difference; auto).
  rewrite E in H. inversion H.
Qed.

(** *** Rows of a cleaned table *)

Lemma clip0_idem (q : Q) : clip0 (clip0 q) = clip0 q.
Proof. unfold clip0. destruct (Qltb q 0) eqn:E; [reflexivity|]. now rewrite E. Qed.

(** What the stages leave in the four columns of every row. *)
Definition cleaned_row (row : Row) : Prop :=
  exists m d c e,
    row !! "medicamento" = Some (CStr m) /\ upper (strip m) = m /\
    row !! "data" = Some (CStr d) /\ matches_year_month d = true /\
    row !! "consumo" = Some (CNum (Fin c)) /\ clip0 c = c /\
    row !! "estoque_atual" = Some (CNum (Fin e)) /\ clip0 e = e.

(** After [_clean_columns]: a normalized name and two clipped numbers. *)
Lemma _clean_columns_rows (str_of_num : num -> string) (df : DataFrame) :
  Forall (fun row : Row =>
            exists m c e,
              row !! "medicamento" = Some (CStr (upper (strip m))) /\
              row !! "consumo" = Some (CNum (Fin (clip0 c))) /\
              row !! "estoque_atual" = Some (CNum (Fin (clip0 e))))
         (rows (_clean_columns str_of_num df)).
Proof.
  unfold _clean_columns, map_column. cbn [rows].
  rewrite !Forall_map. apply Forall_true. intros row.
  unfold cell_of, row_get.
  repeat (rewrite ?lookup_insert_eq; rewrite ?lookup_insert_ne by done; cbn).
  eexists _, _, _. repeat split; reflexivity.
Qed.

Lemma _clean_columns_columns (str_of_num : num -> string) (df : DataFrame) :
  (forall col, col ∈ required_columns -> col ∈ columns df) ->
  columns (_clean_columns str_of_num df) = columns df.
Proof.
  intros Hreq. unfold _clean_columns, map_column. cbn [columns].
  assert (H1 : "medicamento" ∈ columns df) by (apply Hreq; set_solver).
  assert (H2 : "consumo" ∈ columns df) by (apply Hreq; set_solver).
  assert (H3 : "estoque_atual" ∈ columns df) by (apply Hreq; set_solver).
  now rewrite !(add_column_present (columns df)) by assumption.
Qed.

Lemma _handle_missing_values_columns (df : DataFrame) :
  (forall col, col ∈ required_columns -> col ∈ columns df) ->
  columns (_handle_missing_values df) = columns df.
Proof.
  intros Hreq. unfold _handle_missing_values, map_column, with_rows. cbn [columns].
  assert (H2 : "consumo" ∈ columns df) by (apply Hreq; set_solver).
  assert (H3 : "estoque_atual" ∈ columns df) by (apply Hreq; set_solver).
  now rewrite !(add_column_present (columns df)) by assumption.
Qed.

(** After [_normalize_dates]: the date of every row is text of the shape
    [YYYY-MM], and the other columns are as before. *)
Lemma _normalize_dates_inv (df df' : DataFrame) :
  _normalize_dates df = Ok df' ->
  "data" ∈ columns df ->
  columns df' = columns df /\
  Forall (fun row' : Row =>
            exists (row : Row) d,
              row ∈ rows df /\ row' = <["data" := CStr d]> row /\
              matches_year_month d = true)
         (rows df').
Proof.
  unfold _normalize_dates. intros H Hcol.
  destruct (str_accessor _) as [cells|]; [|discriminate].
  cbn in H. injection H as <-. cbn.
  split; [now apply add_column_present|].
  apply Forall_forall. intros row' Hin.
  apply list_elem_of_In, filter_In in Hin. destruct Hin as [Hin Hmatch].
  apply in_map_iff in Hin. destruct Hin as (row & <- & Hrow).
  unfold cell_of at 1, row_get in Hmatch.
  rewrite lookup_insert_eq in Hmatch. cbn in Hmatch.
  destruct (format_date (cell_of row "data")) as [d| |] eqn:E; try discriminate.
  exists row, d. split; [now apply list_elem_of_In|]. split; [reflexivity|exact Hmatch].
Qed.

Lemma remove_outliers_in_inv (P : Row -> Prop) (n_std : Q) (col : string) (df : DataFrame) :
  Forall P (rows df) ->
  columns (remove_outliers_in n_std col df) = columns df /\
  Forall P (rows (remove_outliers_in n_std col df)).
Proof.
  intros H. unfold remove_outliers_in.
  repeat match goal with
         | |- context [if ?b then _ else _] => destruct b
         | |- context [match ?o with Some _ => _ | None => _ end] => destruct o
         end; cbn; (split; [reflexivity|]); try assumption;
    now apply filter_Forall.
Qed.

Lemma _remove_outliers_inv (P : Row -> Prop) (n_std : Q) (df : DataFrame) :
  Forall P (rows df) ->
  columns (_remove_outliers n_std df) = columns df /\
  Forall P (rows (_remove_outliers n_std df)).
Proof.
  intros H. unfold _remove_outliers. cbn [fold_left].
  destruct (remove_outliers_in_inv P n_std "consumo" df H) as [E1 H1].
  destruct (remove_outliers_in_inv P n_std "estoque_atual" _ H1) as [E2 H2].
  split; [congruence|assumption].
Qed.

(** What every table returned by [clean] for a table with rows and columns
    looks like. *)
Lemma clean_inv (str_of_num : num -> string) (X Y : DataFrame) :
  is_empty X = false ->
  clean str_of_num X = Ok Y ->
  validate_dataframe X required_columns = true /\
  columns Y = columns X /\
  Forall cleaned_row (rows Y) /\
  locally_sorted row_leb (rows Y).
Proof.
  intros Hne. unfold clean, _validate_structure. rewrite Hne.
  destruct (validate_dataframe X required_columns) eqn:Hv; [|discriminate].
  cbn [base.mbind result_bind Frame.bind].
  pose proof (validate_dataframe_columns X) as Hreq.
  set (A := _remove_duplicates X).
  assert (HA : forall col, col ∈ required_columns -> col ∈ columns A)
    by (intros col Hc; apply (Hreq col Hv Hc)).
  set (B := _handle_missing_values A).
  assert (EB : columns B = columns A) by (apply _handle_missing_values_columns, HA).
  assert (HB : forall col, col ∈ required_columns -> col ∈ columns B)
    by (intros col Hc; rewrite EB; auto).
  set (C := _clean_columns str_of_num B).
  assert (EC : columns C = columns B) by (apply _clean_columns_columns, HB).
  pose proof (_clean_columns_rows str_of_num B) as HC. fold C in HC.
  destruct (_normalize_dates C) as [D|] eqn:HD; [|discriminate].
  cbn [base.mbind result_bind Frame.bind]. intros [= <-].
  destruct (_normalize_dates_inv C D HD) as [ED HDrows].
  { rewrite EC. apply HB. set_solver. }
  assert (Hclean : Forall cleaned_row (rows D)).
  { eapply Forall_impl; [exact HDrows|].
    intros row' (row & d & Hin & -> & Hd).
    rewrite Forall_forall in HC. destruct (HC row Hin) as (m & c & e & Hm & Hc & He).
    exists (upper (strip m)), d, (clip0 c), (clip0 e).
    rewrite lookup_insert_eq, !lookup_insert_ne by done.
    repeat split; try assumption.
    - apply normalize_idem.
    - apply clip0_idem.
    - apply clip0_idem. }
  destruct (_remove_outliers_inv cleaned_row 3 D Hclean) as [EO HO].
  split; [reflexivity|]. split; [|split].
  - unfold _sort_data, with_rows. cbn [columns]. rewrite EO, ED, EC, EB. reflexivity.
  - unfold _sort_data, with_rows. cbn [rows]. now apply sort_rows_Forall.
  - unfold _sort_data, with_rows. cbn [rows]. apply sort_rows_sorted, row_leb_total.
Qed.

(** *** Duplicates *)

(** No two rows of the table have the same medication and month. *)
Definition distinct_pairs (df : DataFrame) : Prop :=
  forall (i j : nat) (r1 r2 : Row),
    (i < j)%nat -> rows df !! i = Some r1 -> rows df !! j = Some r2 ->
    same_key ["medicamento"; "data"] r2 r1 = false.

Lemma drop_duplicates_from_fixed (subset : list string) (l : list Row) :
  forall seen : list Row,
    Forall (fun row => existsb (same_key subset row) seen = false) l ->
    (forall (i j : nat) (r1 r2 : Row),
       (i < j)%nat -> l !! i = Some r1 -> l !! j = Some r2 ->
       same_key subset r2 r1 = false) ->
    drop_duplicates_from subset seen l = l.
Proof.
  induction l as [|row l IH]; intros seen Hseen Hpair; [reflexivity|].
  cbn [drop_duplicates_from]. inversion_clear Hseen as [|? ? Hrow Hrest].
  rewrite Hrow. f_equal. apply IH.
  - apply Forall_forall. intros r Hr. cbn [existsb].
    apply list_elem_of_lookup in Hr as [j Hj].
    rewrite (Hpair 0%nat (S j) row r) by (cbn; first [lia | assumption | reflexivity]).
    rewrite Forall_forall in Hrest. apply Hrest.
    apply list_elem_of_lookup. eauto.
  - intros i j r1 r2 Hij H1 H2. apply (Hpair (S i) (S j)); [lia|assumption..].
Qed.

Lemma _remove_duplicates_distinct (df : DataFrame) :
  distinct_pairs df -> _remove_duplicates df = df.
Proof.
  intros H. unfold _remove_duplicates.
  rewrite drop_duplicates_from_fixed; [apply with_rows_fixed| |exact H].
  apply Forall_true. reflexivity.
Qed.

(** *** Each stage on a cleaned table *)

Section Recleaning.

Variable str_of_num : num -> string.
Variable Y : DataFrame.
Hypothesis Y_columns : forall col, col ∈ required_columns -> col ∈ columns Y.
Hypothesis Y_rows : Forall cleaned_row (rows Y).

Lemma _handle_missing_values_cleaned : _handle_missing_values Y = Y.
Proof.
  unfold _handle_missing_values.
  rewrite filter_fixed, with_rows_fixed.
  - rewrite (map_column_fixed "consumo" fillna0 Y).
    + apply map_column_fixed; [apply Y_columns; set_solver|].
      eapply Forall_impl; [exact Y_rows|].
      intros row (m & d & c & e & Hm & Em & Hd & Ed & Hc & Ec & He & Ee).
      eexists. split; [exact He|reflexivity].
    + apply Y_columns; set_solver.
    + eapply Forall_impl; [exact Y_rows|].
      intros row (m & d & c & e & Hm & Em & Hd & Ed & Hc & Ec & He & Ee).
      eexists. split; [exact Hc|reflexivity].
  - eapply Forall_impl; [exact Y_rows|].
    intros row (m & d & c & e & Hm & Em & Hd & Ed & Hc & Ec & He & Ee).
    unfold cell_of, row_get. rewrite Hm, Hd. reflexivity.
Qed.

Lemma _clean_columns_cleaned : _clean_columns str_of_num Y = Y.
Proof.
  unfold _clean_columns.
  assert (E1 : map_column "medicamento"
                 (fun c => CStr (upper (strip (astype_str str_of_num c)))) Y = Y).
  { apply map_column_fixed; [apply Y_columns; set_solver|].
    eapply Forall_impl; [exact Y_rows|].
    intros row (m & d & c & e & Hm & Em & Hd & Ed & Hc & Ec & He & Ee).
    eexists. split; [exact Hm|].
    change (CStr (upper (strip m)) = CStr m). now rewrite Em. }
  assert (E2 : map_column "consumo" (fun c => CNum (Fin (clean_numeric c))) Y = Y).
  { apply map_column_fixed; [apply Y_columns; set_solver|].
    eapply Forall_impl; [exact Y_rows|].
    intros row (m & d & c & e & Hm & Em & Hd & Ed & Hc & Ec & He & Ee).
    eexists. split; [exact Hc|reflexivity]. }
  assert (E3 : map_column "estoque_atual" (fun c => CNum (Fin (clean_numeric c))) Y = Y).
  { apply map_column_fixed; [apply Y_columns; set_solver|].
    eapply Forall_impl; [exact Y_rows|].
    intros row (m & d & c & e & Hm & Em & Hd & Ed & Hc & Ec & He & Ee).
    eexists. split; [exact He|reflexivity]. }
  assert (E4 : map_column "consumo" clip_lower0 Y = Y).
  { apply map_column_fixed; [apply Y_columns; set_solver|].
    eapply Forall_impl; [exact Y_rows|].
    intros row (m & d & c & e & Hm & Em & Hd & Ed & Hc & Ec & He & Ee).
    eexists. split; [exact Hc|].
    change (CNum (Fin (clip0 c)) = CNum (Fin c)). now rewrite Ec. }
  assert (E5 : map_column "estoque_atual" clip_lower0 Y = Y).
  { apply map_column_fixed; [apply Y_columns; set_solver|].
    eapply Forall_impl; [exact Y_rows|].
    intros row (m & d & c & e & Hm & Em & Hd & Ed & Hc & Ec & He & Ee).
    eexists. split; [exact He|].
    change (CNum (Fin (clip0 e)) = CNum (Fin e)). now rewrite Ee. }
  cbn zeta. now rewrite E1, E2, E3, E4, E5.
Qed.

Lemma str_accessor_text (cells : list cell) :
  cells <> [] -> Forall (fun c => is_text c = true) cells ->
  str_accessor cells = Ok cells.
Proof.
  intros Hne Htext. unfold str_accessor.
  rewrite filter_fixed.
  - destruct Htext as [|c l Hc _]; [contradiction|].
    destruct c; try discriminate. reflexivity.
  - eapply Forall_impl; [exact Htext|]. intros [] H; try discriminate. reflexivity.
Qed.

Lemma _normalize_dates_cleaned : rows Y <> [] -> _normalize_dates Y = Ok Y.
Proof.
  intros Hne. unfold _normalize_dates.
  rewrite (map_column_fixed "data" format_date Y).
  - rewrite str_accessor_text.
    + cbn [base.mbind result_bind Frame.bind].
      rewrite filter_fixed, with_rows_fixed; [reflexivity|].
      eapply Forall_impl; [exact Y_rows|].
      intros row (m & d & c & e & Hm & Em & Hd & Ed & Hc & Ec & He & Ee).
      unfold cell_of, row_get. rewrite Hd. exact Ed.
    + destruct (rows Y); [contradiction|discriminate].
    + apply Forall_map. eapply Forall_impl; [exact Y_rows|].
      intros row (m & d & c & e & Hm & Em & Hd & Ed & Hc & Ec & He & Ee).
      unfold cell_of, row_get. now rewrite Hd.
  - apply Y_columns; set_solver.
  - eapply Forall_impl; [exact Y_rows|].
    intros row (m & d & c & e & Hm & Em & Hd & Ed & Hc & Ec & He & Ee).
    eexists. split; [exact Hd|]. now apply format_date_fixed.
Qed.

End Recleaning.

End CleanerFacts.

(** ** Claims about the cleaner, on concrete tables *)

Section CleanerSamples.

Import Text DataHelpers DataCleaner.

(** One raw consumption record. *)
Definition consumption_record (medicamento data consumo estoque_atual : cell) : Row :=
  list_to_map [("medicamento", medicamento); ("data", data);
               ("consumo", consumo); ("estoque_atual", estoque_atual)].

Definition units (z : Z) : cell := CNum (Fin (inject_Z z)).

(** The medication and month of every row of a cleaned table. *)
Definition keys_of (run : result DataFrame) : result (list (option cell * option cell)) :=
  df ← run; Ok (map (fun row : Row => (row !! "medicamento", row !! "data")) (rows df)).

(** The same medication and month, spelt in two ways. *)
Definition sample_respelt : DataFrame :=
  mkFrame required_columns
    [ consumption_record (CStr " dipirona") (CStr "2024-01") (units 10) (units 5);
      consumption_record (CStr "DIPIRONA") (CStr "2024/01") (units 20) (units 5) ].

(** C4: the code compares the raw cells before it normalizes them, so the
    two spellings of (DIPIRONA, 2024-01) both survive: the cleaned table
    holds two rows for one (medication, month) pair. *)
Theorem clean_keeps_respelt_duplicates (str_of_num : num -> string) :
  keys_of (clean str_of_num sample_respelt) =
    Ok [ (Some (CStr "DIPIRONA"), Some (CStr "2024-01"));
         (Some (CStr "DIPIRONA"), Some (CStr "2024-01")) ].
Proof. vm_compute. reflexivity. Qed.

(** Raw duplicates, for comparison, are removed and the first one stays. *)
Definition sample_repeated : DataFrame :=
  mkFrame required_columns
    [ consumption_record (CStr "DIPIRONA") (CStr "2024-01") (units 10) (units 5);
      consumption_record (CStr "DIPIRONA") (CStr "2024-01") (units 20) (units 5) ].

Lemma clean_drops_raw_duplicates (str_of_num : num -> string) :
  (df ← clean str_of_num sample_repeated;
   Ok (map (fun row : Row => row !! "consumo") (rows df))) = Ok [Some (units 10)].
Proof. vm_compute. reflexivity. Qed.

(** A month that does not exist. *)
Definition sample_month13 : DataFrame :=
  mkFrame required_columns
    [ consumption_record (CStr "DIPIRONA") (CStr "2024-13") (units 10) (units 5) ].

(** C5: no format parses ["2024-13"], [format_date] returns it unchanged,
    and the filter, which only looks at the shape, keeps the row: the
    cleaned table holds a row whose date was not normalized. *)
Theorem clean_keeps_month13 (str_of_num : num -> string) :
  first_parse "2024-13" date_formats = None /\
  format_date (CStr "2024-13") = CStr "2024-13" /\
  keys_of (clean str_of_num sample_month13) =
    Ok [ (Some (CStr "DIPIRONA"), Some (CStr "2024-13")) ].
Proof. vm_compute. repeat split. Qed.

(** A token of another shape is dropped, without an exception. *)
Lemma clean_drops_unreadable_date (str_of_num : num -> string) :
  keys_of (clean str_of_num
             (mkFrame required_columns
                [ consumption_record (CStr "DIPIRONA") (CStr "13-2024") (units 10) (units 5) ]))
  = Ok [].
Proof. vm_compute. reflexivity. Qed.

(** Months written as numbers, as a CSV reader delivers [YYYYMM]. *)
Definition sample_numeric_dates : DataFrame :=
  mkFrame required_columns
    [ consumption_record (CStr "DIPIRONA") (units 202401) (units 10) (units 5);
      consumption_record (CStr "DIPIRONA") (units 202402) (units 12) (units 5) ].

(** The first half of C6: a table with rows and columns that lacks a
    required column is refused before any transformation, with a
    [ValueError] that lists the required columns. *)
Lemma clean_missing_column (str_of_num : num -> string) (df : DataFrame) (col : string) :
  is_empty df = false ->
  col ∈ required_columns -> col ∉ columns df ->
  clean str_of_num df = Raise (ValueError error_message required_columns).
Proof.
  intros Hne Hreq Hmiss. unfold clean, _validate_structure, validate_dataframe.
  rewrite Hne.
  destruct (list_difference required_columns (columns df)) as [|c l] eqn:E;
    [|reflexivity].
  exfalso. assert (Hin : col ∈ list_difference required_columns (columns df)).
  { apply list_elem_of_difference. auto. }
  rewrite E in Hin. inversion Hin.
Qed.

(** C6: with every required column present, [clean] still raises when the
    date column holds only numbers: [format_date] returns them as they
    came and the [.str] accessor refuses the column. *)
Theorem clean_raises_on_numeric_dates (str_of_num : num -> string) :
  validate_dataframe sample_numeric_dates required_columns = true /\
  clean str_of_num sample_numeric_dates = Raise AttributeError.
Proof. vm_compute. split; reflexivity. Qed.

End CleanerSamples.

(** ** Cleaning twice *)

Section Idempotence.

Import Text DataHelpers DataCleaner.


(** The text of numbers plays no part in the samples. *)
Definition no_text : num -> string := fun _ => EmptyString.

Definition sample_cleaned : DataFrame :=
  mkFrame required_columns
    [ consumption_record (CStr "DIPIRONA") (CStr "2024-01") (units 10) (units 5) ].


(** Twelve months of one medication: ten of 1000 units, one of 1100 and
    one of 1000000. *)
Definition sample_outliers : DataFrame :=
  mkFrame required_columns
    (map (fun '(month, consumo) =>
            consumption_record (CStr "DIPIRONA") (CStr month) (units consumo) (units 500))
         [ ("2023-01", 1000); ("2023-02", 1000); ("2023-03", 1000); ("2023-04", 1000);
           ("2023-05", 1000); ("2023-06", 1000); ("2023-07", 1000); ("2023-08", 1000);
           ("2023-09", 1000); ("2023-10", 1000); ("2023-11", 1100);
           ("2023-12", 1000000) ]%Z).

Definition row_count (run : result DataFrame) : result nat :=
  df ← run; Ok (length (rows df)).


End Idempotence.

(** ** The forecasting loop *)

Section ForecastFacts.

Import Text ConsumptionPredictor.

Variable model_predict : DataFrame -> result (list num).
Variable create_features : DataFrame -> result DataFrame.
Variable month_sin month_cos : Z -> num.

Abbreviation step := (forecast_step model_predict create_features month_sin month_cos).
Abbreviation loop := (forecast_loop model_predict create_features month_sin month_cos).

(** The record emitted at step [i]: its fields, the forecast value apart. *)
Definition emitted (medicamento : string) (last_date : Calendar.date) (i : nat) (record : Row)
  : Prop :=
  record !! "medicamento" = Some (CStr medicamento) /\
  record !! "data" = Some (CStr (strftime_ym (Calendar.add_days last_date (30 * i)))) /\
  record !! "tipo" = Some (CStr "predição") /\
  exists x, record !! "consumo_previsto" = Some (CNum (round0 (max0 x))).

Lemma forecast_step_emits medicamento last_date med_data predictions i state' :
  step medicamento last_date (med_data, predictions) i = Ok state' ->
  exists record, snd state' = (predictions ++ [record])%list /\
                 emitted medicamento last_date i record.
Proof.
  unfold forecast_step.
  destruct (_create_future_features _ _ _ _) as [ff|]; [|discriminate]. cbn.
  destruct (model_predict ff) as [[|x pred]|]; try discriminate. cbn.
  destruct (create_features _) as [md|]; [|discriminate]. cbn.
  intros [= <-]. eexists. split; [reflexivity|].
  repeat split; try reflexivity. exists x. reflexivity.
Qed.

(** Every step of a loop that returns appends one record, for its own
    30-day offset from the last historical date. *)
Lemma forecast_loop_emits medicamento last_date steps :
  forall state state',
    loop medicamento last_date state steps = Ok state' ->
    exists records,
      snd state' = (snd state ++ records)%list /\
      Forall2 (emitted medicamento last_date) steps records.
Proof.
  induction steps as [|i steps IH]; intros state state'; cbn.
  - intros [= <-]. exists []. split; [now rewrite app_nil_r|constructor].
  - destruct state as [med_data predictions].
    destruct (step medicamento last_date (med_data, predictions) i) as [st|] eqn:E;
      [|discriminate]. cbn.
    intros Hloop.
    destruct (forecast_step_emits _ _ _ _ _ _ E) as (record & Hst & Hrec).
    destruct (IH _ _ Hloop) as (records & Hs & Hall).
    exists (record :: records). split.
    + rewrite Hs, Hst. cbn. now rewrite <- app_assoc.
    + constructor; assumption.
Qed.

(** A forecast that returns is empty (no history for the medication) or
    holds one record per step 1, ..., [n_months], each with the medication,
    the month 30 days times the step after the first day of the last
    historical month, a forecast value and the kind. *)
Lemma predict_future_emits (df : DataFrame) (medicamento : string) (n_months : nat)
    (out : DataFrame) :
  predict_future model_predict create_features month_sin month_cos df medicamento n_months
    = Ok out ->
  out = empty_frame \/
  exists last_date,
    Forall2 (emitted medicamento last_date) (seq 1 n_months) (rows out).
Proof.
  unfold predict_future.
  destruct (column df "medicamento") as [cells|]; [|discriminate].
  cbn [base.mbind result_bind Frame.bind].
  destruct (is_empty _); [intros [= <-]; left; reflexivity|].
  destruct (sort_by_data _) as [med_data|]; [|discriminate].
  cbn [base.mbind result_bind Frame.bind].
  destruct (match last (rows med_data) with Some _ => _ | None => _ end) as [token|];
    [|discriminate].
  cbn [base.mbind result_bind Frame.bind].
  destruct (to_datetime _) as [last_date|]; [|discriminate].
  cbn [base.mbind result_bind Frame.bind].
  destruct (forecast_loop _ _ _ _ _ _ _ _) as [[md predictions]|] eqn:Hloop; [|discriminate].
  cbn [base.mbind result_bind Frame.bind]. intros [= <-].
  destruct (forecast_loop_emits _ _ _ _ _ Hloop) as (records & Hs & Hall).
  cbn in Hs. subst predictions. right. exists last_date.
  destruct records; [inversion Hall; constructor|exact Hall].
Qed.

End ForecastFacts.

Section ForecastClaims.

Import Text ConsumptionPredictor.

(** Two months of history that end in January 2024. *)
Definition sample_history : DataFrame :=
  mkFrame ["medicamento"; "data"; "consumo"; "estoque_atual"]
    [ consumption_record (CStr "DIPIRONA") (CStr "2023-12") (units 1000) (units 500);
      consumption_record (CStr "DIPIRONA") (CStr "2024-01") (units 1000) (units 500) ].

(** The months of the records of a forecast. *)
Definition months_of (run : result DataFrame) : result (list (option cell)) :=
  df ← run; Ok (map (fun row : Row => row !! "data") (rows df)).

(** C2: whatever the model and the feature engineer, a forecast of two
    months from a history that ends in 2024-01 steps 30 and 60 days from
    2024-01-01, to 2024-01-31 and 2024-03-01: its first month is the last
    historical month again and February is skipped. *)
Theorem forecast_repeats_last_month
    (model_predict : DataFrame -> result (list num))
    (create_features : DataFrame -> result DataFrame)
    (month_sin month_cos : Z -> num) (out : DataFrame) :
  predict_future model_predict create_features month_sin month_cos
                 sample_history "DIPIRONA" 2 = Ok out ->
  length (rows out) = 2%nat /\
  months_of (Ok out) = Ok [Some (CStr "2024-01"); Some (CStr "2024-03")].
Proof.
  unfold predict_future.
  replace (column sample_history "medicamento") with
    (Ok (map (fun row => DataCleaner.cell_of row "medicamento") (rows sample_history)))
    by reflexivity.
  cbn [base.mbind result_bind Frame.bind].
  match goal with
  | |- context [is_empty ?md] =>
      replace md with sample_history by (vm_compute; reflexivity)
  end.
  replace (is_empty sample_history) with false by reflexivity.
  replace (sort_by_data sample_history) with (Ok sample_history)
    by (vm_compute; reflexivity).
  cbn [base.mbind result_bind Frame.bind].
  replace (last (rows sample_history)) with
    (Some (consumption_record (CStr "DIPIRONA") (CStr "2024-01") (units 1000) (units 500)))
    by reflexivity.
  replace (text_of _) with (Ok "2024-01") by (vm_compute; reflexivity).
  cbn [base.mbind result_bind Frame.bind].
  replace (to_datetime _) with (Ok (Calendar.mkDate 2024 1 1)) by (vm_compute; reflexivity).
  cbn [base.mbind result_bind Frame.bind].
  destruct (forecast_loop _ _ _ _ _ _ _ _) as [[md predictions]|] eqn:Hloop; [|discriminate].
  intros [= <-].
  destruct (forecast_loop_emits _ _ _ _ _ _ _ _ _ Hloop) as (records & Hs & Hall).
  cbn in Hs. subst predictions.
  inversion Hall as [|i1 r1 l1 l1' Hr1 Hall1]; subst.
  inversion Hall1 as [|i2 r2 l2 l2' Hr2 Hall2]; subst.
  inversion Hall2; subst. cbn.
  destruct Hr1 as (_ & Hd1 & _). destruct Hr2 as (_ & Hd2 & _).
  split; [reflexivity|]. unfold months_of. cbn. rewrite Hd1, Hd2. reflexivity.
Qed.

Lemma forecast_repeats_last_month_witness :
  exists out,
    length (rows out) = 2%nat /\
    months_of (Ok out) = Ok [Some (CStr "2024-01"); Some (CStr "2024-03")].
Proof.
  pose (run := predict_future (fun _ => Ok [Fin 1000]) Ok (fun _ => NaN) (fun _ => NaN)
                 sample_history "DIPIRONA" 2).
  assert (Hok : match run with Ok _ => true | Raise _ => false end = true)
    by (vm_compute; reflexivity).
  destruct run as [out|] eqn:Hrun; [|discriminate].
  exists out. exact (forecast_repeats_last_month _ _ _ _ _ Hrun).
Defined.

End ForecastClaims.

(** ** Persistence of the trained model *)

Section PersistenceClaims.

Import MedicationPredictor.

Variable Estimator : Type.
Variable estimator_predict : Estimator -> list (list Q) -> list num.
Variable new_estimator : Estimator.

Abbreviation predictor := (predictor Estimator).


End PersistenceClaims.

(** A constant regressor, fitted to answer 1000 for every row. *)
Definition sample_predictor : MedicationPredictor.predictor Q :=
  MedicationPredictor.mkPredictor 1000%Q ["mes"; "ano"] {[ "test_mae" := Fin 12 ]}.

Definition sample_file_system : MedicationPredictor.file_system Q :=
  MedicationPredictor.mkFS ∅ (fun path => String.eqb path "models/model.pkl").


(** ** The cleaner: what every cleaned table satisfies *)

Section CleanerInvariants.

Import Text DataHelpers DataCleaner.

Local Open Scope Q_scope.

Lemma clip0_fixed_nonneg (q : Q) : clip0 q = q -> 0 <= q.
Proof.
  unfold clip0. destruct (Qltb q 0) eqn:E.
  - intros <-. apply Qle_refl.
  - intros _. now apply Qltb_ge.
Qed.

Lemma empty_frame_rows (df : DataFrame) : is_empty df = true -> columns df <> [] -> rows df = [].
Proof.
  unfold is_empty. destruct (columns df); [congruence|]. destruct (rows df); [reflexivity|discriminate].
Qed.



(** *** Row counts *)

Lemma drop_duplicates_from_length (subset : list string) (l seen : list Row) :
  (length (drop_duplicates_from subset seen l) <= length l)%nat.
Proof.
  revert seen. induction l as [|row l IH]; intros seen; cbn; [lia|].
  destruct (existsb _ seen); cbn.
  - specialize (IH seen). lia.
  - specialize (IH (row :: seen)). lia.
Qed.

Lemma insert_row_length leb (x : Row) (l : list Row) :
  length (insert_row leb x l) = S (length l).
Proof.
  induction l as [|y l IH]; cbn; [reflexivity|].
  destruct (leb x y); cbn; [reflexivity|]. now rewrite IH.
Qed.

Lemma sort_rows_length leb (l : list Row) : length (sort_rows leb l) = length l.
Proof.
  induction l as [|x l IH]; cbn; [reflexivity|].
  fold (sort_rows leb l). now rewrite insert_row_length, IH.
Qed.

Lemma remove_outliers_in_length (n_std : Q) (col : string) (df : DataFrame) :
  (length (rows (remove_outliers_in n_std col df)) <= length (rows df))%nat.
Proof.
  unfold remove_outliers_in.
  repeat match goal with
         | |- context [if ?b then _ else _] => destruct b
         | |- context [match ?o with Some _ => _ | None => _ end] => destruct o
         end; cbn; try lia.
  apply List.filter_length_le.
Qed.

Lemma clean_length (str_of_num : num -> string) (X Y : DataFrame) :
  clean str_of_num X = Ok Y -> (length (rows Y) <= length (rows X))%nat.
Proof.
  unfold clean. destruct (is_empty X).
  { intros [= <-]. cbn. lia. }
  unfold _validate_structure. destruct (validate_dataframe _ _); [|discriminate].
  cbn [base.mbind result_bind Frame.bind].
  unfold _normalize_dates.
  destruct (str_accessor _); [|discriminate].
  cbn [base.mbind result_bind Frame.bind]. intros [= <-].
  unfold _sort_data, _remove_outliers. cbn [rows with_rows fold_left].
  rewrite sort_rows_length.
  etransitivity; [apply remove_outliers_in_length|].
  etransitivity; [apply remove_outliers_in_length|].
  cbn [rows with_rows map_column].
  etransitivity; [apply List.filter_length_le|].
  rewrite length_map.
  unfold _clean_columns, _handle_missing_values, _remove_duplicates, map_column.
  cbn [rows with_rows]. rewrite !length_map.
  etransitivity; [apply List.filter_length_le|].
  apply drop_duplicates_from_length.
Qed.



End CleanerInvariants.

(** ** The cleaner: duplicates and outliers *)

Section DuplicateFacts.

Import Text DataHelpers DataCleaner.

Lemma drop_duplicates_from_sublist (subset : list string) (l seen : list Row) :
  drop_duplicates_from subset seen l `sublist_of` l.
Proof.
  revert seen. induction l as [|row l IH]; intros seen; cbn; [constructor|].
  destruct (existsb _ seen); [apply sublist_cons|apply sublist_skip]; apply IH.
Qed.

Lemma drop_duplicates_from_unseen (subset : list string) (l seen : list Row) (r : Row) :
  r ∈ drop_duplicates_from subset seen l -> existsb (same_key subset r) seen = false.
Proof.
  revert seen. induction l as [|row l IH]; intros seen; cbn; [inversion 1|].
  destruct (existsb (same_key subset row) seen) eqn:E; [apply IH|].
  intros [->|Hin]%elem_of_cons; [exact E|].
  apply IH in Hin. cbn in Hin. now apply orb_false_iff in Hin.
Qed.

Lemma drop_duplicates_from_distinct (subset : list string) (l seen : list Row) :
  forall (i j : nat) (r1 r2 : Row),
    (i < j)%nat ->
    drop_duplicates_from subset seen l !! i = Some r1 ->
    drop_duplicates_from subset seen l !! j = Some r2 ->
    same_key subset r2 r1 = false.
Proof.
  revert seen. induction l as [|row l IH]; intros seen i j r1 r2 Hij; cbn; [discriminate|].
  destruct (existsb (same_key subset row) seen) eqn:E; [now apply IH|].
  destruct j as [|j]; [lia|]. destruct i as [|i]; cbn.
  - intros [= <-] H2.
    assert (Hin : r2 ∈ drop_duplicates_from subset (row :: seen) l)
      by (apply list_elem_of_lookup; eauto).
    apply drop_duplicates_from_unseen in Hin. cbn in Hin.
    now apply orb_false_iff in Hin.
  - apply IH. lia.
Qed.

Lemma drop_duplicates_from_first (subset : list string) (l seen : list Row) (i : nat) (row : Row) :
  l !! i = Some row ->
  existsb (same_key subset row) seen = false ->
  (forall (j : nat) (r : Row), (j < i)%nat -> l !! j = Some r -> same_key subset row r = false) ->
  row ∈ drop_duplicates_from subset seen l.
Proof.
  revert seen i. induction l as [|x l IH]; intros seen i; [discriminate|].
  destruct i as [|i]; cbn [drop_duplicates_from].
  - intros [= ->] Hseen _. rewrite Hseen. left.
  - intros Hi Hseen Hfirst.
    assert (Hx : same_key subset row x = false) by (apply (Hfirst 0%nat); [lia|reflexivity]).
    assert (Hrest : forall (j : nat) (r : Row), (j < i)%nat -> l !! j = Some r ->
                                                same_key subset row r = false).
    { intros j r Hj Hr. apply (Hfirst (S j)); [lia|exact Hr]. }
    destruct (existsb (same_key subset x) seen).
    + apply (IH seen i); assumption.
    + right. apply (IH (x :: seen) i); try assumption.
      cbn. now rewrite Hx, Hseen.
Qed.

(** X3. [_remove_duplicates] keeps the rows of the table in their order
    and drops some of them; no two rows it keeps have the same raw
    medication and date; and it keeps every row that no earlier row
    matches, that is, the first occurrence of each pair. *)
Theorem remove_duplicates_keeps_first (df : DataFrame) :
  columns (_remove_duplicates df) = columns df /\
  rows (_remove_duplicates df) `sublist_of` rows df /\
  distinct_pairs (_remove_duplicates df) /\
  forall (i : nat) (row : Row),
    rows df !! i = Some row ->
    (forall (j : nat) (r : Row),
       (j < i)%nat -> rows df !! j = Some r ->
       same_key ["medicamento"; "data"] row r = false) ->
    row ∈ rows (_remove_duplicates df).
Proof.
  unfold _remove_duplicates, distinct_pairs. cbn [columns rows with_rows].
  split; [reflexivity|]. split; [apply drop_duplicates_from_sublist|]. split.
  - apply drop_duplicates_from_distinct.
  - intros i row Hi Hfirst. now apply (drop_duplicates_from_first _ _ [] i).
Qed.

End DuplicateFacts.

Section OutlierFacts.

Import Text DataHelpers DataCleaner.

Local Open Scope Q_scope.

Lemma Qsum_lower_bound (x : Q) (l : list Q) :
  List.Forall (fun y => x <= y) l -> inject_Z (Z.of_nat (length l)) * x <= Qsum l.
Proof.
  induction 1 as [|y l Hy _ IH].
  - change (0 * x <= 0). lra.
  - cbn [length Qsum fold_right]. fold (Qsum l).
    rewrite Nat2Z.inj_succ, <- Z.add_1_r, inject_Z_plus.
    change (inject_Z 1) with 1. lra.
Qed.

Lemma least_element (l : list Q) :
  l <> [] -> exists x, List.In x l /\ List.Forall (fun y => x <= y) l.
Proof.
  induction l as [|a l IH]; [congruence|]. intros _.
  destruct l as [|b l].
  - exists a. split; [now left|]. constructor; [apply Qle_refl|constructor].
  - destruct IH as (x & Hin & Hall); [discriminate|].
    destruct (Qlt_le_dec a x) as [Hlt|Hle].
    + exists a. split; [now left|]. constructor; [apply Qle_refl|].
      eapply List.Forall_impl; [|exact Hall]. cbn. intros y Hy. lra.
    + exists x. split; [now right|]. now constructor.
Qed.

(** Some value of a column that is not empty is at most the mean. *)
Lemma mean_above_least (l : list Q) (m : Q) :
  mean l = Some m -> exists x, List.In x l /\ x <= m.
Proof.
  unfold mean. destruct l as [|a l]; [discriminate|]. intros [= <-].
  destruct (least_element (a :: l)) as (x & Hin & Hall); [discriminate|].
  exists x. split; [exact Hin|].
  apply Qsum_lower_bound in Hall.
  apply Qle_shift_div_l.
  - change 0 with (inject_Z 0). rewrite <- Zlt_Qlt. cbn [length]. lia.
  - rewrite Qmult_comm. exact Hall.
Qed.

Definition numeric_in (col : string) (row : Row) : Prop :=
  exists q, row !! col = Some (CNum (Fin q)).

Lemma remove_outliers_in_sublist (n_std : Q) (col : string) (df : DataFrame) :
  rows (remove_outliers_in n_std col df) `sublist_of` rows df.
Proof.
  unfold remove_outliers_in.
  repeat match goal with
         | |- context [if ?b then _ else _] => destruct b
         | |- context [match ?o with Some _ => _ | None => _ end] => destruct o
         end; cbn; try reflexivity.
  generalize (rows df). intros l. induction l as [|x l IH]; cbn; [constructor|].
  destruct (match cell_value (cell_of x col) with Some _ => _ | None => _ end);
    [apply sublist_skip|apply sublist_cons]; exact IH.
Qed.

Lemma omap_values (col : string) (l : list Row) :
  Forall (numeric_in col) l ->
  forall x, List.In x (omap (fun row => cell_value (cell_of row col)) l) ->
            exists row, row ∈ l /\ cell_value (cell_of row col) = Some x.
Proof.
  induction 1 as [|row l [q Hq] _ IH]; cbn; [contradiction|].
  unfold cell_of at 1, row_get. rewrite Hq. cbn.
  intros x [<-|Hin].
  - exists row. split; [left|]. unfold cell_of, row_get. now rewrite Hq.
  - destruct (IH x Hin) as (r & Hr & Hv). exists r. split; [now right|exact Hv].
Qed.

Lemma remove_outliers_in_nonempty (n_std : Q) (col : string) (df : DataFrame) :
  Forall (numeric_in col) (rows df) -> rows df <> [] ->
  rows (remove_outliers_in n_std col df) <> [].
Proof.
  intros Hnum Hne. unfold remove_outliers_in.
  destruct (bool_decide _); [|exact Hne].
  destruct (mean _) as [m|] eqn:Hm; [|exact Hne].
  destruct (variance _) as [var|]; [|exact Hne].
  destruct (Qltb 0 var); [|exact Hne]. cbn [rows with_rows].
  destruct (mean_above_least _ _ Hm) as (x & Hin & Hle).
  destruct (omap_values col _ Hnum x Hin) as (row & Hrow & Hv).
  intros E.
  assert (Hkept : List.In row (List.filter
            (fun row => match cell_value (cell_of row col) with
                        | Some x => within_limit n_std m var x
                        | None => false
                        end) (rows df))).
  { apply filter_In. split; [now apply list_elem_of_In|].
    rewrite Hv. unfold within_limit.
    apply orb_true_iff. left. apply Qle_bool_iff. lra. }
  rewrite E in Hkept. contradiction.
Qed.

(** X4. [_remove_outliers] only drops rows (the rows it returns are rows
    of the table, in their order, under the same columns), and from a
    table whose consumption and stock are all numbers it never drops all
    of them: a row at or below the mean is always kept. *)
Theorem remove_outliers_keeps_some (n_std : Q) (df : DataFrame) :
  columns (_remove_outliers n_std df) = columns df /\
  rows (_remove_outliers n_std df) `sublist_of` rows df /\
  (Forall (fun row => numeric_in "consumo" row /\ numeric_in "estoque_atual" row) (rows df) ->
   rows df <> [] -> rows (_remove_outliers n_std df) <> []).
Proof.
  unfold _remove_outliers. cbn [fold_left].
  split; [|split].
  - now destruct (_remove_outliers_inv (fun _ => True) n_std df) as [E _];
      [apply Forall_true|].
  - etransitivity; apply remove_outliers_in_sublist.
  - intros Hnum Hne.
    apply remove_outliers_in_nonempty.
    + destruct (remove_outliers_in_inv (numeric_in "estoque_atual") n_std "consumo" df)
        as [_ H]; [|exact H].
      eapply Forall_impl; [exact Hnum|]. now intros row [_ H].
    + apply remove_outliers_in_nonempty; [|exact Hne].
      eapply Forall_impl; [exact Hnum|]. now intros row [H _].
Qed.

End OutlierFacts.

(** ** Rounding keeps integer bounds *)

Section RoundBounds.

Local Open Scope Q_scope.

Lemma round_half_even_Z (n : Z) : round_half_even (inject_Z n) = n.
Proof.
  unfold round_half_even. rewrite Qfloor_Z.
  assert (E : Qltb (inject_Z n - inject_Z n) (1 # 2) = true) by (apply Qltb_lt; lra).
  now rewrite E.
Qed.

(** [round(x, 2)] of a value between two integers lies between them. *)
Lemma round2_between (lo hi : Z) (q : Q) :
  inject_Z lo <= q <= inject_Z hi ->
  exists p, round2 (Fin q) = Fin p /\ inject_Z lo <= p <= inject_Z hi.
Proof.
  intros [Hlo Hhi]. eexists. split; [reflexivity|].
  assert (H1 : inject_Z (lo * 100) <= q * 100)
    by (rewrite inject_Z_mult; change (inject_Z 100) with 100; lra).
  assert (H2 : q * 100 <= inject_Z (hi * 100))
    by (rewrite inject_Z_mult; change (inject_Z 100) with 100; lra).
  apply round_half_even_mono in H1, H2. rewrite round_half_even_Z in H1, H2.
  rewrite Zle_Qle, inject_Z_mult in H1. rewrite Zle_Qle, inject_Z_mult in H2.
  change (inject_Z 100) with 100 in H1, H2.
  split.
  - apply Qle_shift_div_l; [reflexivity|exact H1].
  - apply Qle_shift_div_r; [reflexivity|exact H2].
Qed.

End RoundBounds.

(** ** The cleaning summary *)

Section SummaryFacts.

Import Text DataHelpers DataCleaner Series CleanerReports.

Lemma unique_from_length (l seen : list cell) : (length (unique_from seen l) <= length l)%nat.
Proof.
  revert seen. induction l as [|c l IH]; intros seen; cbn; [lia|].
  destruct (existsb _ seen); cbn.
  - specialize (IH seen). lia.
  - specialize (IH (c :: seen)). lia.
Qed.

Lemma nunique_length (l : list cell) : (nunique l <= length l)%nat.
Proof.
  unfold nunique, unique.
  etransitivity; [apply unique_from_length|apply List.filter_length_le].
Qed.

Local Open Scope Q_scope.

(** X5. For a table that [clean] accepts, the summary of the cleaning is
    computed without an exception; it reports the two row counts, their
    difference (never negative), a retention rate between 0 and 100, and a
    number of distinct medications that is at most the number of rows
    left. *)
Theorem cleaning_summary_of_clean (str_of_num : num -> string) (X Y : DataFrame) :
  clean str_of_num X = Ok Y ->
  exists s,
    get_cleaning_summary (Some X) (Some Y) = Ok s /\
    registros_iniciais s = length (rows X) /\
    registros_finais s = length (rows Y) /\
    registros_removidos s = (Z.of_nat (length (rows X)) - Z.of_nat (length (rows Y)))%Z /\
    (0 <= registros_removidos s)%Z /\
    (exists t, taxa_retencao s = Fin t /\ 0 <= t <= 100) /\
    (medicamentos_unicos s <= registros_finais s)%nat.
Proof.
  intros Hclean. pose proof (clean_length _ _ _ Hclean) as Hlen.
  unfold get_cleaning_summary, len.
  assert (Htaxa : exists t,
    (if (0 <? length (rows X))%nat
     then Ok (round2 (Fin (inject_Z (Z.of_nat (length (rows Y))) /
                           inject_Z (Z.of_nat (length (rows X))) * 100)))
     else Ok (Fin 0)) = Ok (Fin t) /\ 0 <= t <= 100).
  { destruct (0 <? length (rows X))%nat eqn:E.
    - apply Nat.ltb_lt in E.
      destruct (round2_between 0 100
                  (inject_Z (Z.of_nat (length (rows Y))) /
                   inject_Z (Z.of_nat (length (rows X))) * 100)) as (p & Hp & Hb).
      + assert (Hx : 0 < inject_Z (Z.of_nat (length (rows X))))
          by (change 0 with (inject_Z 0); rewrite <- Zlt_Qlt; lia).
        assert (Hy : 0 <= inject_Z (Z.of_nat (length (rows Y))))
          by (change 0 with (inject_Z 0); rewrite <- Zle_Qle; lia).
        assert (Hyx : inject_Z (Z.of_nat (length (rows Y))) <=
                      inject_Z (Z.of_nat (length (rows X))))
          by (rewrite <- Zle_Qle; lia).
        change (inject_Z 0) with 0. change (inject_Z 100) with 100.
        assert (H0 : 0 <= inject_Z (Z.of_nat (length (rows Y))) /
                          inject_Z (Z.of_nat (length (rows X))))
          by (apply Qle_shift_div_l; [exact Hx|lra]).
        assert (H1 : inject_Z (Z.of_nat (length (rows Y))) /
                     inject_Z (Z.of_nat (length (rows X))) <= 1)
          by (apply Qle_shift_div_r; [exact Hx|lra]).
        lra.
      + exists p. rewrite Hp. split; [reflexivity|exact Hb].
    - exists 0. split; [reflexivity|lra]. }
  destruct Htaxa as (t & -> & Ht).
  cbn [base.mbind result_bind Frame.bind].
  assert (Hun : exists n,
    (if is_empty Y then Ok 0%nat
     else cells ← ConsumptionPredictor.column Y "medicamento"; Ok (nunique cells)) = Ok n /\
    (n <= length (rows Y))%nat).
  { destruct (is_empty Y) eqn:HY; [exists 0%nat; split; [reflexivity|lia]|].
    destruct (is_empty X) eqn:HX.
    { unfold clean in Hclean. rewrite HX in Hclean. injection Hclean as <-. discriminate HY. }
    destruct (clean_inv str_of_num X Y HX Hclean) as (Hv & Hc & _).
    unfold ConsumptionPredictor.column. rewrite Hc.
    rewrite bool_decide_eq_true_2
      by (apply (validate_dataframe_columns X _ Hv); constructor).
    cbn [base.mbind result_bind Frame.bind]. eexists. split; [reflexivity|].
    etransitivity; [apply nunique_length|]. now rewrite length_map. }
  destruct Hun as (n & -> & Hn).
  cbn [base.mbind result_bind Frame.bind].
  eexists. split; [reflexivity|]. cbn.
  repeat split; try lia; try assumption. exists t. split; [reflexivity|exact Ht].
Qed.

Lemma cleaning_summary_of_clean_witness :
  exists s,
    get_cleaning_summary (Some sample_repeated) (Some sample_cleaned) = Ok s /\
    registros_iniciais s = 2%nat /\
    registros_finais s = 1%nat /\
    registros_removidos s = 1%Z /\
    (0 <= registros_removidos s)%Z /\
    (exists t, taxa_retencao s = Fin t /\ 0 <= t <= 100) /\
    (medicamentos_unicos s <= registros_finais s)%nat.
Proof.
  apply (cleaning_summary_of_clean no_text sample_repeated sample_cleaned).
  vm_compute. reflexivity.
Defined.

End SummaryFacts.

(** ** The order of text *)

Section StringOrder.

Lemma ascii_compare_refl (a : ascii) : Ascii.compare a a = Eq.
Proof. unfold Ascii.compare. apply N.compare_refl. Qed.

Lemma ascii_compare_lt_trans (a b c : ascii) :
  Ascii.compare a b = Lt -> Ascii.compare b c = Lt -> Ascii.compare a c = Lt.
Proof. unfold Ascii.compare. rewrite !N.compare_lt_iff. lia. Qed.

Lemma string_compare_refl (s : string) : String.compare s s = Eq.
Proof. induction s as [|a s IH]; cbn; [reflexivity|]. now rewrite ascii_compare_refl. Qed.

Lemma string_compare_lt_trans (s t u : string) :
  String.compare s t = Lt -> String.compare t u = Lt -> String.compare s u = Lt.
Proof.
  revert t u. induction s as [|a s IH]; intros [|b t] [|c u]; cbn; try congruence.
  destruct (Ascii.compare a b) eqn:E1; try discriminate.
  - apply Ascii.compare_eq_iff in E1. subst b.
    destruct (Ascii.compare a c); try congruence. apply IH.
  - intros _. destruct (Ascii.compare b c) eqn:E2; try discriminate.
    + apply Ascii.compare_eq_iff in E2. subst c. now rewrite E1.
    + now rewrite (ascii_compare_lt_trans a b c).
Qed.

End StringOrder.

(** ** Monthly aggregation *)

Section AggregationFacts.

Import Text DataHelpers DataCleaner Series CleanerReports.

(** A key made of two pieces of text, as in a cleaned table. *)
Definition text_key (k : cell * cell) : Prop :=
  exists m d, k = (CStr m, CStr d).

Lemma key_compare_refl (k : cell * cell) : text_key k -> key_compare k k = Eq.
Proof.
  intros (m & d & ->). unfold key_compare. cbn. now rewrite !string_compare_refl.
Qed.

Lemma key_compare_eq (k1 k2 : cell * cell) :
  text_key k1 -> text_key k2 -> key_compare k1 k2 = Eq -> k1 = k2.
Proof.
  intros (m & d & ->) (m' & d' & ->). unfold key_compare. cbn.
  destruct (String.compare m m') eqn:E; try discriminate.
  intros E'. apply String.compare_eq_iff in E, E'. now subst.
Qed.

Lemma key_compare_gt_lt (k1 k2 : cell * cell) :
  text_key k1 -> text_key k2 -> key_compare k1 k2 = Gt -> key_compare k2 k1 = Lt.
Proof.
  intros (m & d & ->) (m' & d' & ->). unfold key_compare. cbn. intros H.
  rewrite (String.compare_antisym m' m), (String.compare_antisym d' d).
  destruct (String.compare m m'); cbn in *; try discriminate; try reflexivity.
  destruct (String.compare d d'); cbn in *; try discriminate; reflexivity.
Qed.

Lemma key_compare_lt_trans (k1 k2 k3 : cell * cell) :
  text_key k1 -> text_key k2 -> text_key k3 ->
  key_compare k1 k2 = Lt -> key_compare k2 k3 = Lt -> key_compare k1 k3 = Lt.
Proof.
  intros (m1 & d1 & ->) (m2 & d2 & ->) (m3 & d3 & ->). unfold key_compare. cbn.
  destruct (String.compare m1 m2) eqn:E1; try discriminate.
  - apply String.compare_eq_iff in E1. subst m2.
    destruct (String.compare m1 m3); try congruence.
    apply string_compare_lt_trans.
  - intros _. destruct (String.compare m2 m3) eqn:E2; try discriminate.
    + apply String.compare_eq_iff in E2. subst m3. now rewrite E1.
    + now rewrite (string_compare_lt_trans m1 m2 m3).
Qed.

Definition key_lt (k1 k2 : cell * cell) : Prop := key_compare k1 k2 = Lt.

Lemma insert_key_elem (k x : cell * cell) (l : list (cell * cell)) :
  List.In x (insert_key k l) -> x = k \/ List.In x l.
Proof.
  induction l as [|k' l IH]; cbn.
  - intros [<-|[]]. now left.
  - destruct (key_compare k k'); cbn.
    + tauto.
    + intros [<-|H]; [now left|tauto].
    + intros [<-|H]; [tauto|]. destruct (IH H); tauto.
Qed.

Lemma insert_key_keeps (k x : cell * cell) (l : list (cell * cell)) :
  List.In x l -> List.In x (insert_key k l).
Proof.
  induction l as [|k' l IH]; cbn; [contradiction|].
  destruct (key_compare k k'); cbn; tauto.
Qed.

Lemma insert_key_adds (k : cell * cell) (l : list (cell * cell)) :
  text_key k -> List.Forall text_key l -> List.In k (insert_key k l).
Proof.
  intros Hk. induction 1 as [|k' l Hk' _ IH]; cbn; [now left|].
  destruct (key_compare k k') eqn:E; cbn.
  - left. symmetry. now apply key_compare_eq.
  - now left.
  - now right.
Qed.

Lemma insert_key_text (k : cell * cell) (l : list (cell * cell)) :
  text_key k -> List.Forall text_key l -> List.Forall text_key (insert_key k l).
Proof.
  intros Hk Hl. apply List.Forall_forall. intros x Hx.
  destruct (insert_key_elem _ _ _ Hx) as [->|Hin]; [exact Hk|].
  rewrite List.Forall_forall in Hl. now apply Hl.
Qed.

(** Every key is below the keys after it. *)
Fixpoint increasing (l : list (cell * cell)) : Prop :=
  match l with
  | [] => True
  | k :: l' => List.Forall (key_lt k) l' /\ increasing l'
  end.

Lemma insert_key_sorted (k : cell * cell) (l : list (cell * cell)) :
  text_key k -> List.Forall text_key l ->
  increasing l -> increasing (insert_key k l).
Proof.
  intros Hk Htext. induction l as [|k' l IH]; cbn [insert_key increasing].
  - intros _. split; [constructor|exact I].
  - intros [Hall Hs]. inversion_clear Htext as [|? ? Hk' Hl].
    destruct (key_compare k k') eqn:E; cbn [increasing].
    + split; assumption.
    + split; [|split; assumption]. constructor; [exact E|].
      rewrite List.Forall_forall in Hall, Hl. apply List.Forall_forall. intros x Hx.
      apply (key_compare_lt_trans k k' x); auto. now apply Hall.
    + split; [|now apply IH].
      apply List.Forall_forall. intros x Hx.
      destruct (insert_key_elem _ _ _ Hx) as [->|Hin].
      * now apply key_compare_gt_lt.
      * rewrite List.Forall_forall in Hall. now apply Hall.
Qed.

Definition text_keyed (row : Row) : Prop := text_key (group_key row).

Lemma group_keys_text (l : list Row) :
  List.Forall text_keyed l -> List.Forall text_key (group_keys l).
Proof.
  induction 1 as [|row l Hrow _ IH]; cbn; [constructor|]. now apply insert_key_text.
Qed.

Lemma group_keys_sorted (l : list Row) :
  List.Forall text_keyed l -> increasing (group_keys l).
Proof.
  induction 1 as [|row l Hrow Hl IH]; cbn [group_keys map fold_right]; [exact I|].
  apply insert_key_sorted; [exact Hrow|now apply group_keys_text|exact IH].
Qed.

Lemma group_keys_complete (l : list Row) (row : Row) :
  List.Forall text_keyed l -> List.In row l -> List.In (group_key row) (group_keys l).
Proof.
  induction 1 as [|x l Hx Hl IH]; cbn; [contradiction|].
  intros [->|Hin].
  - apply insert_key_adds; [exact Hx|now apply group_keys_text].
  - now apply insert_key_keeps, IH.
Qed.

Lemma group_keys_sound (l : list Row) (k : cell * cell) :
  List.In k (group_keys l) -> exists row, List.In row l /\ group_key row = k.
Proof.
  induction l as [|x l IH]; cbn; [contradiction|].
  intros H. destruct (insert_key_elem _ _ _ H) as [->|Hin].
  - exists x. split; [now left|reflexivity].
  - destruct (IH Hin) as (row & Hrow & E). exists row. split; [now right|exact E].
Qed.

(** The numbers of a column of a list of rows. *)
Definition column_values (col : string) (l : list Row) : list Q :=
  omap (fun row => cell_value (cell_of row col)) l.

Lemma numbers_values (col : string) (l : list Row) :
  Forall (numeric_in col) l ->
  numbers (map (fun row => cell_of row col) l) = Ok (column_values col l) /\
  length (column_values col l) = length l.
Proof.
  induction 1 as [|row l [q Hq] _ [IH1 IH2]]; [split; reflexivity|].
  assert (Hc : cell_of row col = CNum (Fin q))
    by (unfold cell_of, row_get; now rewrite Hq).
  unfold column_values in *. cbn. rewrite Hc. cbn. rewrite IH1. cbn.
  split; [reflexivity|]. now rewrite IH2.
Qed.

(** The rows of the table in the group of a row of the result. *)
Definition group_of (Y : DataFrame) (r : Row) : list Row :=
  List.filter (same_group (group_key r)) (rows Y).

(** One row of the result: its group in the table is not empty, its
    consumption is the rounded sum and its stock the rounded mean of the
    group. *)
Definition aggregates (Y : DataFrame) (r : Row) : Prop :=
  group_of Y r <> [] /\
  r !! "consumo" =
    Some (CNum (Fin (inject_Z (round_half_even (Qsum (column_values "consumo" (group_of Y r))))))) /\
  r !! "estoque_atual" =
    Some (CNum (Fin (inject_Z (round_half_even
            (Qsum (column_values "estoque_atual" (group_of Y r))
             / inject_Z (Z.of_nat (length (group_of Y r)))))))).

Lemma cleaned_row_text_keyed (row : Row) : cleaned_row row -> text_keyed row.
Proof.
  intros (m & d & c & e & Hm & _ & Hd & _). exists m, d.
  unfold group_key, cell_of, row_get. now rewrite Hm, Hd.
Qed.

Lemma cleaned_row_numeric (row : Row) :
  cleaned_row row -> numeric_in "consumo" row /\ numeric_in "estoque_atual" row.
Proof.
  intros (m & d & c & e & _ & _ & _ & _ & Hc & _ & He & _). split; eexists; eassumption.
Qed.

Lemma aggregate_group_cleaned (l : list Row) (k : cell * cell) :
  Forall cleaned_row l -> List.In k (group_keys l) ->
  exists r, aggregate_group l k = Ok r /\ group_key r = k /\
            List.filter (same_group k) l <> [] /\
            r !! "consumo" =
              Some (CNum (Fin (inject_Z (round_half_even
                      (Qsum (column_values "consumo" (List.filter (same_group k) l))))))) /\
            r !! "estoque_atual" =
              Some (CNum (Fin (inject_Z (round_half_even
                      (Qsum (column_values "estoque_atual" (List.filter (same_group k) l))
                       / inject_Z (Z.of_nat (length (List.filter (same_group k) l)))))))).
Proof.
  intros Hclean Hk. unfold aggregate_group.
  set (group := List.filter (same_group k) l).
  assert (Hgroup : Forall cleaned_row group) by now apply filter_Forall.
  destruct (numbers_values "consumo" group) as [-> _].
  { eapply Forall_impl; [exact Hgroup|]. intros row H. now apply cleaned_row_numeric. }
  destruct (numbers_values "estoque_atual" group) as [-> Hlen].
  { eapply Forall_impl; [exact Hgroup|]. intros row H. now apply cleaned_row_numeric. }
  cbn [base.mbind result_bind Frame.bind round_int].
  assert (Hne : group <> []).
  { destruct (group_keys_sound _ _ Hk) as (row & Hrow & E).
    assert (Hin : List.In row group).
    { apply filter_In. split; [exact Hrow|]. unfold same_group. rewrite E.
      rewrite key_compare_refl; [reflexivity|].
      rewrite <- E. apply cleaned_row_text_keyed.
      rewrite Forall_forall in Hclean. now apply Hclean, list_elem_of_In. }
    intros E'. rewrite E' in Hin. contradiction. }
  assert (Hmean : mean (column_values "estoque_atual" group) =
                  Some (Qsum (column_values "estoque_atual" group)
                        / inject_Z (Z.of_nat (length group)))%Q).
  { unfold mean. rewrite <- Hlen.
    destruct (column_values "estoque_atual" group); [|reflexivity].
    exfalso. apply Hne. destruct group; [reflexivity|discriminate Hlen]. }
  rewrite Hmean. cbn [base.mbind result_bind Frame.bind round_int].
  eexists. split; [reflexivity|]. repeat split; try assumption.
  now destruct k.
Qed.

Lemma aggregate_rows_cleaned (l : list Row) (keys : list (cell * cell)) :
  Forall cleaned_row l -> List.Forall (fun k => List.In k (group_keys l)) keys ->
  exists out, traverse (aggregate_group l) keys = Ok out /\
              map group_key out = keys /\
              Forall (fun r => aggregates (mkFrame [] l) r) out.
Proof.
  intros Hclean. induction 1 as [|k keys Hk _ (out & Hout & Hkeys & Hall)]; cbn.
  - exists []. repeat split; constructor.
  - destruct (aggregate_group_cleaned l k Hclean Hk) as (r & -> & Ek & Hne & Hc & He).
    cbn. rewrite Hout. cbn. exists (r :: out). split; [reflexivity|]. split.
    + cbn. now rewrite Ek, Hkeys.
    + constructor; [|exact Hall].
      unfold aggregates, group_of. cbn [rows]. rewrite Ek. auto.
Qed.

Lemma increasing_lookup (l : list (cell * cell)) :
  increasing l ->
  forall (i j : nat) (x y : cell * cell),
    (i < j)%nat -> l !! i = Some x -> l !! j = Some y -> key_lt x y.
Proof.
  induction l as [|a l IH]; intros Hs i j x y Hij Hi Hj; [discriminate|].
  destruct Hs as [Hall Hs].
  destruct j as [|j]; [lia|]. destruct i as [|i]; cbn in Hi, Hj.
  - injection Hi as <-. rewrite List.Forall_forall in Hall.
    apply Hall. apply list_elem_of_In, list_elem_of_lookup. eauto.
  - apply (IH Hs i j); [lia|assumption..].
Qed.


End AggregationFacts.

(** ** Sorting by a column *)

Section SortFacts.

Import Text DataHelpers DataCleaner Series.

Lemma insert_row_perm leb (x : Row) (l : list Row) : insert_row leb x l ≡ₚ x :: l.
Proof.
  induction l as [|y l IH]; cbn; [reflexivity|].
  destruct (leb x y); [reflexivity|]. rewrite IH. apply Permutation_swap.
Qed.

Lemma sort_rows_perm leb (l : list Row) : sort_rows leb l ≡ₚ l.
Proof.
  induction l as [|x l IH]; cbn; [reflexivity|].
  fold (sort_rows leb l). now rewrite insert_row_perm, IH.
Qed.

(** Sorting rows that the order compares one way or the other. *)
Section SortingOn.

Variable P : Row -> Prop.
Variable leb : Row -> Row -> bool.
Hypothesis leb_total : forall x y, P x -> P y -> leb x y = false -> leb y x = true.

Lemma insert_row_sorted_on (x : Row) (l : list Row) :
  P x -> Forall P l -> locally_sorted leb l -> locally_sorted leb (insert_row leb x l).
Proof.
  intros Hx. induction 1 as [|y l Hy Hl IH]; cbn [insert_row]; [intros; exact I|].
  intros Hs. destruct (leb x y) eqn:E; [split; assumption|].
  destruct l as [|z l]; cbn [insert_row] in *.
  - split; [now apply leb_total|exact I].
  - destruct Hs as [Hyz Hs]. specialize (IH Hs).
    destruct (leb x z) eqn:E'.
    + split; [now apply leb_total|exact IH].
    + split; [exact Hyz|exact IH].
Qed.

Lemma sort_rows_sorted_on (l : list Row) :
  Forall P l -> locally_sorted leb (sort_rows leb l).
Proof.
  induction 1 as [|x l Hx Hl IH]; cbn; [exact I|].
  apply insert_row_sorted_on; [exact Hx| |exact IH].
  now apply sort_rows_Forall.
Qed.

End SortingOn.

(** Cells that [key_leb] compares: missing ones, and those of one kind. *)
Definition kind_of (c : cell) : nat :=
  match c with
  | CNum _ => 0
  | CStr _ => 1
  | CTime _ _ _ => 2
  end.

Definition of_kind (k : nat) (c : cell) : Prop := isna c = true \/ kind_of c = k.

Lemma cell_leb_total (a b : cell) :
  isna a = false -> isna b = false -> kind_of a = kind_of b ->
  cell_leb a b = false -> cell_leb b a = true.
Proof.
  destruct a as [s|[x|]|y m d], b as [t|[x'|]|y' m' d']; cbn; try discriminate.
  - intros _ _ _ H. destruct (String.leb_total s t) as [E|E]; congruence.
  - intros _ _ _ H. apply Qle_bool_iff.
    destruct (Qle_bool x x') eqn:E; [discriminate|].
    apply Qlt_le_weak, Qnot_le_lt. intros Hle. apply Qle_bool_iff in Hle. congruence.
  - intros _ _ _. rewrite (Z.compare_antisym y y'), (Z.compare_antisym m m').
    destruct (y ?= y')%Z; cbn; try congruence.
    destruct (m ?= m')%Z; cbn; try congruence.
    intros H. apply Z.leb_gt in H. apply Z.leb_le. lia.
Qed.

Lemma key_leb_total (ascending : bool) (k : nat) (a b : cell) :
  of_kind k a -> of_kind k b ->
  key_leb ascending a b = false -> key_leb ascending b a = true.
Proof.
  unfold key_leb, of_kind. intros Ha Hb.
  destruct (isna b) eqn:Eb; [discriminate|].
  destruct (isna a) eqn:Ea; [reflexivity|].
  destruct Ha as [|Ha]; [discriminate|]. destruct Hb as [|Hb]; [discriminate|].
  destruct ascending; apply cell_leb_total; congruence.
Qed.

Lemma forallb_present (f : cell -> bool) (l : list cell) :
  forallb f (List.filter (fun c => negb (isna c)) l) = true ->
  Forall (fun c => isna c = true \/ f c = true) l.
Proof.
  induction l as [|c l IH]; cbn; [constructor|].
  destruct (isna c) eqn:E; cbn.
  - intros H. constructor; [now left|now apply IH].
  - intros [H1 H2]%andb_true_iff. constructor; [now right|now apply IH].
Qed.

(** A column whose values can be compared holds values of one kind. *)
Lemma comparable_kind (df : DataFrame) (col : string) :
  comparable df col = Ok tt ->
  exists k, Forall (fun row => of_kind k (cell_of row col)) (rows df).
Proof.
  unfold comparable, homogeneous.
  destruct (forallb is_text _) eqn:E1; cbn.
  { intros _. exists 1%nat.
    apply forallb_present in E1. rewrite Forall_map in E1.
    eapply Forall_impl; [exact E1|]. intros row [H|H]; [now left|right].
    now destruct (cell_of row col). }
  destruct (forallb is_number _) eqn:E2; cbn.
  { intros _. exists 0%nat.
    apply forallb_present in E2. rewrite Forall_map in E2.
    eapply Forall_impl; [exact E2|]. intros row [H|H]; [now left|right].
    now destruct (cell_of row col). }
  destruct (forallb is_time _) eqn:E3; [|discriminate].
  intros _. exists 2%nat.
  apply forallb_present in E3. rewrite Forall_map in E3.
  eapply Forall_impl; [exact E3|]. intros row [H|H]; [now left|right].
  now destruct (cell_of row col).
Qed.

Lemma require_column_inv (df : DataFrame) (col : string) :
  require_column df col = Ok tt -> col ∈ columns df.
Proof.
  unfold require_column. destruct (bool_decide _) eqn:E; [|discriminate].
  intros _. now apply bool_decide_eq_true in E.
Qed.

(** The order of the rows after [sort_values(col, ascending)]. *)
Definition ordered_by (col : string) (ascending : bool) (r1 r2 : Row) : bool :=
  key_leb ascending (cell_of r1 col) (cell_of r2 col).

Lemma sort_values_spec (col : string) (ascending : bool) (df df' : DataFrame) :
  sort_values col ascending df = Ok df' ->
  col ∈ columns df /\ columns df' = columns df /\ rows df' ≡ₚ rows df /\
  locally_sorted (ordered_by col ascending) (rows df').
Proof.
  unfold sort_values. destruct (require_column df col) as [[]|] eqn:Hc; [|discriminate].
  cbn [base.mbind result_bind Frame.bind].
  destruct (comparable df col) as [[]|] eqn:Hs; [|discriminate].
  cbn [base.mbind result_bind Frame.bind]. intros [= <-].
  apply require_column_inv in Hc.
  destruct (comparable_kind _ _ Hs) as (k & Hk). cbn [rows columns with_rows].
  split; [exact Hc|]. split; [reflexivity|]. split; [apply sort_rows_perm|].
  apply (sort_rows_sorted_on (fun row => of_kind k (cell_of row col))); [|exact Hk].
  intros x y Hx Hy. now apply (key_leb_total ascending k).
Qed.

(** The order of the rows after [sort_values([col1, col2], ...)]. *)
Definition ordered_by2 (col1 : string) (asc1 : bool) (col2 : string) (asc2 : bool)
    (r1 r2 : Row) : bool :=
  key_ltb asc1 (cell_of r1 col1) (cell_of r2 col1) ||
  (key_leb asc1 (cell_of r1 col1) (cell_of r2 col1) &&
   key_leb asc2 (cell_of r1 col2) (cell_of r2 col2)).

Lemma sort_values2_spec (col1 : string) (asc1 : bool) (col2 : string) (asc2 : bool)
    (df df' : DataFrame) :
  sort_values2 col1 asc1 col2 asc2 df = Ok df' ->
  columns df' = columns df /\ rows df' ≡ₚ rows df /\
  locally_sorted (ordered_by2 col1 asc1 col2 asc2) (rows df').
Proof.
  unfold sort_values2.
  destruct (require_column df col1) as [[]|]; [|discriminate].
  cbn [base.mbind result_bind Frame.bind].
  destruct (require_column df col2) as [[]|]; [|discriminate].
  cbn [base.mbind result_bind Frame.bind].
  destruct (comparable df col1) as [[]|] eqn:Hs1; [|discriminate].
  cbn [base.mbind result_bind Frame.bind].
  destruct (comparable df col2) as [[]|] eqn:Hs2; [|discriminate].
  cbn [base.mbind result_bind Frame.bind]. intros [= <-].
  destruct (comparable_kind _ _ Hs1) as (k1 & Hk1).
  destruct (comparable_kind _ _ Hs2) as (k2 & Hk2). cbn [rows columns with_rows].
  split; [reflexivity|]. split; [apply sort_rows_perm|].
  apply (sort_rows_sorted_on
           (fun row => of_kind k1 (cell_of row col1) /\ of_kind k2 (cell_of row col2))).
  - intros x y [Hx1 Hx2] [Hy1 Hy2]. unfold key_ltb.
    intros [H1 H2]%orb_false_iff. apply negb_false_iff in H1. rewrite H1.
    apply andb_false_iff in H2 as [H2|H2].
    + rewrite H2. reflexivity.
    + rewrite (key_leb_total asc2 k2 _ _ Hx2 Hy2 H2). cbn. apply orb_true_r.
  - rewrite Forall_forall in Hk1, Hk2. apply Forall_forall. auto.
Qed.

End SortFacts.

(** ** One table per medication *)

Section SplitFacts.

Import Text DataHelpers DataCleaner Series CleanerReports.

Lemma cell_eqb_sym (a b : cell) : cell_eqb a b = cell_eqb b a.
Proof.
  destruct a as [s|[x|]|y m d], b as [t|[x'|]|y' m' d']; cbn; try reflexivity.
  - apply String.eqb_sym.
  - apply Qeq_bool_comm.
  - now rewrite (Z.eqb_sym y), (Z.eqb_sym m), (Z.eqb_sym d).
Qed.

Lemma cell_eqb_trans (a b c : cell) :
  cell_eqb a b = true -> cell_eqb b c = true -> cell_eqb a c = true.
Proof.
  destruct a as [s|[x|]|y m d], b as [t|[x'|]|y' m' d'], c as [u|[x''|]|y'' m'' d''];
    cbn; try discriminate; try reflexivity.
  - intros ->%String.eqb_eq. auto.
  - apply Qeq_bool_trans.
  - intros [[->%Z.eqb_eq ->%Z.eqb_eq]%andb_true_iff ->%Z.eqb_eq]%andb_true_iff. auto.
Qed.

Lemma cell_eqb_refl (a : cell) : cell_eqb a a = true.
Proof.
  destruct a as [s|[x|]|y m d]; cbn; [apply String.eqb_refl|apply Qeq_bool_refl|reflexivity|].
  now rewrite !Z.eqb_refl.
Qed.

(** The values of [unique] in a list: pairwise different, none of them
    seen before, and every value of the list among them. *)
Lemma unique_from_unseen (l seen : list cell) (c : cell) :
  c ∈ unique_from seen l -> existsb (cell_eqb c) seen = false.
Proof.
  revert seen. induction l as [|x l IH]; intros seen; cbn; [inversion 1|].
  destruct (existsb (cell_eqb x) seen) eqn:E; [apply IH|].
  intros [->|Hin]%elem_of_cons; [exact E|].
  apply IH in Hin. cbn in Hin. now apply orb_false_iff in Hin.
Qed.

Lemma unique_from_distinct (l seen : list cell) :
  forall (i j : nat) (c1 c2 : cell),
    (i < j)%nat -> unique_from seen l !! i = Some c1 -> unique_from seen l !! j = Some c2 ->
    cell_eqb c2 c1 = false.
Proof.
  revert seen. induction l as [|x l IH]; intros seen i j c1 c2 Hij; cbn; [discriminate|].
  destruct (existsb (cell_eqb x) seen) eqn:E; [now apply IH|].
  destruct j as [|j]; [lia|]. destruct i as [|i]; cbn.
  - intros [= <-] H2.
    assert (Hin : c2 ∈ unique_from (x :: seen) l) by (apply list_elem_of_lookup; eauto).
    apply unique_from_unseen in Hin. cbn in Hin. now apply orb_false_iff in Hin.
  - apply IH. lia.
Qed.

Lemma existsb_cell_eqb (c : cell) (seen : list cell) :
  existsb (cell_eqb c) seen = true -> exists s, s ∈ seen /\ cell_eqb c s = true.
Proof.
  intros (s & Hs & E)%existsb_exists. exists s. split; [now apply list_elem_of_In|exact E].
Qed.

Lemma unique_from_complete (l seen : list cell) (c : cell) :
  c ∈ l ->
  (exists k, k ∈ unique_from seen l /\ cell_eqb c k = true) \/
  (exists s, s ∈ seen /\ cell_eqb c s = true).
Proof.
  revert seen. induction l as [|x l IH]; intros seen; [inversion 1|].
  cbn [unique_from]. intros [->|Hin]%elem_of_cons.
  - destruct (existsb (cell_eqb x) seen) eqn:E.
    + right. now apply existsb_cell_eqb.
    + left. exists x. split; [left|apply cell_eqb_refl].
  - destruct (existsb (cell_eqb x) seen) eqn:E.
    + apply (IH seen Hin).
    + destruct (IH (x :: seen) Hin) as [(k & Hk & Ek)|(s & Hs & Es)].
      * left. exists k. split; [now right|exact Ek].
      * apply elem_of_cons in Hs as [->|Hs].
        -- left. exists x. split; [left|exact Es].
        -- right. eauto.
Qed.

(** Adding a row to the one block whose key it has. *)
Lemma concat_blocks_insert (row : Row) (m : cell -> bool) (g : cell -> list Row)
    (keys : list cell) (k0 : cell) :
  k0 ∈ keys -> m k0 = true ->
  (forall (i j : nat) (a b : cell),
     (i < j)%nat -> keys !! i = Some a -> keys !! j = Some b -> m a = true -> m b = false) ->
  (forall (i j : nat) (a b : cell),
     (i < j)%nat -> keys !! i = Some a -> keys !! j = Some b -> m b = true -> m a = false) ->
  concat (map (fun k => if m k then row :: g k else g k) keys) ≡ₚ
  row :: concat (map g keys).
Proof.
  induction keys as [|k keys IH]; [inversion 1|].
  intros Hin Hm Hafter Hbefore. cbn [map concat].
  destruct (m k) eqn:Ek.
  - cbn. f_equiv. f_equiv.
    clear IH Hin Hbefore. 
    assert (Hno : Forall (fun b => m b = false) keys).
    { apply Forall_forall. intros b Hb. apply list_elem_of_lookup in Hb as [j Hj].
      apply (Hafter 0%nat (S j) k b); [lia|reflexivity|exact Hj|exact Ek]. }
    clear Hafter. induction Hno as [|b keys Hb _ IHk]; cbn; [reflexivity|].
    now rewrite Hb, IHk.
  - apply elem_of_cons in Hin as [->|Hin]; [congruence|].
    rewrite IH; [|exact Hin|exact Hm| |].
    + now rewrite Permutation_middle.
    + intros i j a b Hij Ha Hb. apply (Hafter (S i) (S j)); [lia|exact Ha|exact Hb].
    + intros i j a b Hij Ha Hb. apply (Hbefore (S i) (S j)); [lia|exact Ha|exact Hb].
Qed.

Lemma concat_blocks_skip (m : cell -> bool) (row : Row) (g : cell -> list Row)
    (keys : list cell) :
  Forall (fun k => m k = false) keys ->
  concat (map (fun k => if m k then row :: g k else g k) keys) = concat (map g keys).
Proof.
  induction 1 as [|k keys Hk _ IH]; cbn; [reflexivity|]. now rewrite Hk, IH.
Qed.

(** The rows of a medication. *)
Definition rows_of (med : cell) (l : list Row) : list Row :=
  List.filter (fun row => cell_eq (cell_of row "medicamento") med) l.

(** Blocks of rows, one per key, together hold the rows whose medication
    is not missing, each once. *)
Lemma concat_rows_of (keys : list cell) (l : list Row) :
  (forall (i j : nat) (a b : cell),
     (i < j)%nat -> keys !! i = Some a -> keys !! j = Some b -> cell_eqb b a = false) ->
  (forall row, row ∈ l -> isna (cell_of row "medicamento") = false ->
               exists k, k ∈ keys /\ cell_eqb (cell_of row "medicamento") k = true) ->
  concat (map (fun k => rows_of k l) keys) ≡ₚ
  List.filter (fun row => negb (isna (cell_of row "medicamento"))) l.
Proof.
  intros Hdistinct. induction l as [|row l IH]; intros Hcover.
  - clear. induction keys as [|k keys IHk]; cbn; [reflexivity|exact IHk].
  - assert (IH' : concat (map (fun k => rows_of k l) keys) ≡ₚ
                  List.filter (fun row => negb (isna (cell_of row "medicamento"))) l).
    { apply IH. intros r Hr. apply Hcover. now right. }
    clear IH. unfold rows_of in *. cbn [List.filter].
    set (c := cell_of row "medicamento") in *.
    destruct (isna c) eqn:Ena; cbn [negb].
    + rewrite <- IH'. unfold cell_eq at 1. rewrite Ena. cbn. reflexivity.
    + rewrite <- IH'.
      destruct (Hcover row) as (k0 & Hk0 & E0); [left|exact Ena|].
      change (cell_eqb c k0 = true) in E0.
      apply (concat_blocks_insert row (fun k => cell_eq c k)
               (fun k => List.filter (fun r => cell_eq (cell_of r "medicamento") k) l)
               keys k0 Hk0).
      * unfold cell_eq. fold c. now rewrite Ena, E0.
      * intros i j a b Hij Ha Hb. unfold cell_eq. rewrite Ena. cbn. intros Eca.
        destruct (cell_eqb c b) eqn:Ecb; [|reflexivity].
        rewrite <- (Hdistinct i j a b Hij Ha Hb).
        symmetry. apply (cell_eqb_trans b c a); [|exact Eca].
        now rewrite cell_eqb_sym.
      * intros i j a b Hij Ha Hb. unfold cell_eq. rewrite Ena. cbn. intros Ecb.
        destruct (cell_eqb c a) eqn:Eca; [|reflexivity].
        rewrite <- (Hdistinct i j a b Hij Ha Hb).
        symmetry. apply (cell_eqb_trans b c a); [|exact Eca].
        now rewrite cell_eqb_sym.
Qed.

(** X7. When [split_by_medication] returns, its keys are pairwise
    different medications; the table of each key has the columns of the
    input and holds the rows with that medication, each once, in
    non-decreasing order of date (missing dates last); and the tables
    together hold every row whose medication is not missing exactly
    once. *)
Theorem split_by_medication_partition (df : DataFrame) (groups : list (cell * DataFrame)) :
  is_empty df = false ->
  split_by_medication df = Ok groups ->
  (forall (i j : nat) (g1 g2 : cell * DataFrame),
     (i < j)%nat -> groups !! i = Some g1 -> groups !! j = Some g2 ->
     cell_eqb (fst g2) (fst g1) = false) /\
  Forall (fun g =>
            columns (snd g) = columns df /\
            rows (snd g) ≡ₚ rows_of (fst g) (rows df) /\
            locally_sorted (ordered_by "data" true) (rows (snd g))) groups /\
  concat (map (fun g => rows (snd g)) groups) ≡ₚ
    List.filter (fun row => negb (isna (cell_of row "medicamento"))) (rows df).
Proof.
  unfold split_by_medication. intros ->.
  unfold ConsumptionPredictor.column.
  destruct (bool_decide _); [|discriminate].
  cbn [base.mbind result_bind Frame.bind].
  set (cells := map (fun row => cell_of row "medicamento") (rows df)).
  intros Hrun. apply traverse_Forall2 in Hrun.
  assert (Hkeys : map fst groups = unique cells).
  { clear -Hrun. induction Hrun as [|k g keys groups Hg _ IH]; [reflexivity|].
    cbn. rewrite IH. f_equal.
    destruct (sort_values _ _ _); [|discriminate]. now injection Hg as <-. }
  assert (Hgroups : Forall (fun g =>
            columns (snd g) = columns df /\
            rows (snd g) ≡ₚ rows_of (fst g) (rows df) /\
            locally_sorted (ordered_by "data" true) (rows (snd g))) groups).
  { clear -Hrun. induction Hrun as [|k g keys groups Hg _ IH]; constructor; [|exact IH].
    destruct (sort_values _ _ _) as [med_df|] eqn:Hs; [|discriminate].
    injection Hg as <-. cbn [fst snd].
    apply sort_values_spec in Hs as (_ & Hc & Hp & Hs). auto. }
  split; [|split; [exact Hgroups|]].
  - intros i j g1 g2 Hij H1 H2.
    apply (unique_from_distinct cells [] i j); [exact Hij|..];
      fold (unique cells); rewrite <- Hkeys, list_lookup_fmap; [now rewrite H1|now rewrite H2].
  - transitivity (concat (map (fun k => rows_of k (rows df)) (unique cells))).
    + rewrite <- Hkeys. clear -Hgroups.
      induction Hgroups as [|g groups (_ & Hp & _) _ IH]; cbn; [reflexivity|].
      now rewrite Hp, IH.
    + apply concat_rows_of.
      * apply (unique_from_distinct cells []).
      * intros row Hrow _.
        destruct (unique_from_complete cells [] (cell_of row "medicamento"))
          as [H|(s & Hs & _)]; [|exact H|inversion Hs].
        unfold cells. apply list_elem_of_In.
        apply (in_map (fun r : Row => cell_of r "medicamento")).
        now apply list_elem_of_In.
Qed.

End SplitFacts.

(** ** Aggregation and split on sample tables *)

Section ReportSamples.

Import Text DataHelpers DataCleaner Series CleanerReports.

(** What [clean] returns for [sample_respelt]: one pair in two rows. *)
Definition sample_pairs : DataFrame :=
  mkFrame required_columns
    [ consumption_record (CStr "DIPIRONA") (CStr "2024-01") (units 10) (units 5);
      consumption_record (CStr "DIPIRONA") (CStr "2024-01") (units 20) (units 5) ].


(** The two rows of the pair become one, with the sum of the consumption
    and the mean of the stock. *)
Lemma aggregate_monthly_sample :
  (df ← aggregate_monthly sample_pairs;
   Ok (map (fun row : Row => (row !! "consumo", row !! "estoque_atual")) (rows df)))
  = Ok [(Some (units 30), Some (units 5))].
Proof. vm_compute. reflexivity. Qed.

(** Two medications, out of order. *)
Definition sample_two_medications : DataFrame :=
  mkFrame required_columns
    [ consumption_record (CStr "IBUPROFENO") (CStr "2024-02") (units 7) (units 5);
      consumption_record (CStr "DIPIRONA") (CStr "2024-01") (units 10) (units 5);
      consumption_record (CStr "IBUPROFENO") (CStr "2024-01") (units 9) (units 5) ].

Lemma split_by_medication_partition_witness :
  exists groups,
    split_by_medication sample_two_medications = Ok groups /\
    concat (map (fun g => rows (snd g)) groups) ≡ₚ
      List.filter (fun row => negb (isna (cell_of row "medicamento")))
                  (rows sample_two_medications).
Proof.
  pose (run := split_by_medication sample_two_medications).
  assert (Hok : match run with Ok _ => true | Raise _ => false end = true)
    by (vm_compute; reflexivity).
  destruct run as [groups|] eqn:Hrun; [|discriminate].
  exists groups. split; [exact Hrun|].
  exact (proj2 (proj2 (split_by_medication_partition sample_two_medications groups
                         eq_refl Hrun))).
Defined.

End ReportSamples.

(** ** Percentages and growth rates *)

Section RateFacts.

Import HelperFunctions.

Local Open Scope Q_scope.

Lemma round2_lower (lo : Z) (q : Q) :
  inject_Z lo <= q -> inject_Z lo <= inject_Z (round_half_even (q * 100)) / 100.
Proof.
  intros Hlo.
  assert (H1 : inject_Z (lo * 100) <= q * 100)
    by (rewrite inject_Z_mult; change (inject_Z 100) with 100; lra).
  apply round_half_even_mono in H1. rewrite round_half_even_Z in H1.
  rewrite Zle_Qle, inject_Z_mult in H1. change (inject_Z 100) with 100 in H1.
  apply Qle_shift_div_l; [reflexivity|exact H1].
Qed.

Lemma round2_upper (hi : Z) (q : Q) :
  q <= inject_Z hi -> inject_Z (round_half_even (q * 100)) / 100 <= inject_Z hi.
Proof.
  intros Hhi.
  assert (H2 : q * 100 <= inject_Z (hi * 100))
    by (rewrite inject_Z_mult; change (inject_Z 100) with 100; lra).
  apply round_half_even_mono in H2. rewrite round_half_even_Z in H2.
  rewrite Zle_Qle, inject_Z_mult in H2. change (inject_Z 100) with 100 in H2.
  apply Qle_shift_div_r; [reflexivity|exact H2].
Qed.

Lemma Qeq_bool_false_pos (x : Q) : 0 < x -> Qeq_bool x 0 = false.
Proof.
  intros H. destruct (Qeq_bool x 0) eqn:E; [|reflexivity].
  apply Qeq_bool_eq in E. lra.
Qed.

Lemma Qdiv_bounds (a b : Q) : 0 <= a -> a <= b -> 0 < b -> 0 <= a / b <= 1.
Proof.
  intros Ha Hab Hb. split.
  - apply Qle_shift_div_l; [exact Hb|lra].
  - apply Qle_shift_div_r; [exact Hb|lra].
Qed.

(** X8. For a part between 0 and the total, [calculate_percentage]
    returns a number between 0 and 100: 0 for a total of 0, and 100 when
    the part is the whole of a positive total. *)
Theorem calculate_percentage_bounds (part total : Q) :
  0 <= part -> part <= total ->
  exists p,
    calculate_percentage (Fin part) (Fin total) = Fin p /\
    0 <= p <= 100 /\
    (total == 0 -> p == 0) /\
    (0 < total -> part == total -> p == 100).
Proof.
  intros Hpart Hle. unfold calculate_percentage. cbn [Num.eqb].
  destruct (Qeq_bool total 0) eqn:E.
  - apply Qeq_bool_eq in E. exists 0. split; [reflexivity|].
    split; [lra|]. split; [reflexivity|]. intros H. lra.
  - assert (Hpos : 0 < total).
    { apply Qeq_bool_neq in E. destruct (Qlt_le_dec 0 total) as [H|H]; [exact H|].
      exfalso. apply E. lra. }
    cbn [Num.div mul round2]. eexists. split; [reflexivity|].
    destruct (Qdiv_bounds part total Hpart Hle Hpos) as [H0 H1].
    split; [|split].
    + split.
      * apply (round2_lower 0). change (inject_Z 0) with 0. lra.
      * apply (round2_upper 100). change (inject_Z 100) with 100. lra.
    + intros H. lra.
    + intros _ Heq.
      assert (Hq : part / total * 100 == 100).
      { rewrite Heq. field. lra. }
      apply Qle_antisym.
      * apply (round2_upper 100). rewrite Hq. apply Qle_refl.
      * apply (round2_lower 100). rewrite Hq. apply Qle_refl.
Qed.

Lemma calculate_percentage_bounds_witness :
  exists p,
    calculate_percentage (Fin 1) (Fin 3) = Fin p /\
    0 <= p <= 100 /\
    (3 == 0 -> p == 0) /\
    (0 < 3 -> 1 == 3 -> p == 100).
Proof.
  apply (calculate_percentage_bounds 1 3); [discriminate|discriminate].
Defined.

Lemma last_middle {A} (x y : A) (mid : list A) : last (x :: mid ++ [y])%list = Some y.
Proof. change (x :: mid ++ [y])%list with ((x :: mid) ++ [y])%list. apply last_snoc. Qed.

(** X9. On a series of at least two numbers that starts with a positive
    value and ends with one that is not negative, [calculate_growth_rate]
    depends on the first and the last value only; the rate is at least
    -100, not negative when the series ends at or above its start, and
    not positive when it ends at or below it. *)
Theorem calculate_growth_rate_ends (a b : Q) (mid : list num) :
  0 < a -> 0 <= b ->
  exists g,
    calculate_growth_rate (Fin a :: mid ++ [Fin b])%list = Fin g /\
    calculate_growth_rate [Fin a; Fin b] = Fin g /\
    -100 <= g /\ (a <= b -> 0 <= g) /\ (b <= a -> g <= 0).
Proof.
  intros Ha Hb. unfold calculate_growth_rate.
  replace (length (Fin a :: mid ++ [Fin b])%list <? 2)%nat with false
    by (symmetry; apply Nat.ltb_ge; cbn; rewrite length_app; cbn; lia).
  rewrite last_middle. cbn [List.head length Nat.ltb Nat.leb last Num.eqb].
  rewrite (Qeq_bool_false_pos a Ha). cbn [Num.sub Num.div mul round2].
  eexists. split; [reflexivity|]. split; [reflexivity|].
  assert (Hq : (b - a) / a * 100 == b / a * 100 - 100) by (field; lra).
  assert (H0 : 0 <= b / a) by (apply Qle_shift_div_l; [exact Ha|lra]).
  split; [|split].
  - apply (round2_lower (-100)). change (inject_Z (-100)) with (-100). lra.
  - intros Hab. apply (round2_lower 0). change (inject_Z 0) with 0.
    assert (H1 : 1 <= b / a) by (apply Qle_shift_div_l; [exact Ha|lra]). lra.
  - intros Hba. apply (round2_upper 0). change (inject_Z 0) with 0.
    assert (H1 : b / a <= 1) by (apply Qle_shift_div_r; [exact Ha|lra]). lra.
Qed.

Lemma calculate_growth_rate_ends_witness :
  exists g,
    calculate_growth_rate (Fin 100 :: [Fin 7; NaN] ++ [Fin 150])%list = Fin g /\
    calculate_growth_rate [Fin 100; Fin 150] = Fin g /\
    -100 <= g /\ (100 <= 150 -> 0 <= g) /\ (150 <= 100 -> g <= 0).
Proof.
  apply (calculate_growth_rate_ends 100 150 [Fin 7; NaN]); [reflexivity|discriminate].
Defined.

End RateFacts.

(** ** Ranges of months *)

Section RangeFacts.

Import Text DataHelpers DataCleaner HelperFunctions.

Local Open Scope Z_scope.

Lemma digit_char_is_digit (k : Z) : is_digit (digit_char (k mod 10)) = true.
Proof.
  pose proof (Z.mod_pos_bound k 10 ltac:(lia)) as H.
  remember (k mod 10) as r eqn:Er. clear Er.
  assert (E : r = 0 \/ r = 1 \/ r = 2 \/ r = 3 \/ r = 4 \/ r = 5 \/ r = 6 \/ r = 7 \/
              r = 8 \/ r = 9) by lia.
  repeat (destruct E as [->|E]; [reflexivity|]). subst r. reflexivity.
Qed.

(** Every month that [strftime] prints has the shape [YYYY-MM]. *)
Lemma strftime_ym_shape (t : Calendar.date) : matches_year_month (strftime_ym t) = true.
Proof.
  unfold strftime_ym, pad4, pad2.
  lazy beta iota delta [String.append matches_year_month].
  now rewrite !digit_char_is_digit.
Qed.

(** A format without ['%d'] leaves the day at its default. *)
Lemma match_format_day (fmt : list directive) :
  List.Forall (fun d => d <> Dd) fmt ->
  forall f s f' rest, List.In (f', rest) (match_format fmt f s) -> f_day f' = f_day f.
Proof.
  induction 1 as [|d fmt Hd _ IH]; intros f s f' rest; cbn [match_format].
  - intros [[= <- _]|[]]. reflexivity.
  - destruct d as [| | |c]; [| |congruence|].
    + intros ([v r] & _ & Hin)%in_flat_map. now apply IH in Hin.
    + intros ([v r] & _ & Hin)%in_flat_map. now apply IH in Hin.
    + destruct s as [|a s]; [intros []|].
      destruct (Ascii.eqb a c); [apply IH|intros []].
Qed.

Lemma strptime_year_month (s : string) (t : Calendar.date) :
  strptime s [DY; Lit "-"; Dm] = Some t ->
  Calendar.day t = 1 /\
  Calendar.valid_date (Calendar.year t) (Calendar.month t) 1 = true.
Proof.
  unfold strptime.
  destruct (match_format _ _ s) as [|[f r] l] eqn:E; [discriminate|].
  assert (Hday : f_day f = 1).
  { apply (match_format_day [DY; Lit "-"; Dm]) with (f := mkFields 1900 1 1) (s := s) (rest := r).
    - repeat constructor; discriminate.
    - rewrite E. now left. }
  destruct r; [|discriminate].
  destruct (Calendar.valid_date _ _ _) eqn:Hv; [|discriminate].
  intros [= <-]. cbn. rewrite Hday in Hv. auto.
Qed.

(** Days added within a month. *)
Lemma add_days_in_month (y m d : Z) (n : nat) :
  d + Z.of_nat n <= Calendar.days_in_month y m ->
  Calendar.add_days (Calendar.mkDate y m d) n = Calendar.mkDate y m (d + Z.of_nat n).
Proof.
  unfold Calendar.add_days. induction n as [|n IH]; intros H.
  - cbn. f_equal. lia.
  - rewrite Nat.iter_succ, IH by lia. unfold Calendar.next_day. cbn.
    replace (d + Z.of_nat n <? Calendar.days_in_month y m) with true
      by (symmetry; apply Z.ltb_lt; lia).
    f_equal. lia.
Qed.

Lemma next_day_year (t : Calendar.date) :
  Calendar.year t <= Calendar.year (Calendar.next_day t).
Proof.
  unfold Calendar.next_day.
  repeat match goal with |- context [if ?b then _ else _] => destruct b end; cbn; lia.
Qed.

Lemma add_days_year (t : Calendar.date) (n k : nat) :
  (n <= k)%nat ->
  Calendar.year (Calendar.add_days t n) <= Calendar.year (Calendar.add_days t k).
Proof.
  unfold Calendar.add_days. induction 1 as [|k _ IH]; [lia|].
  rewrite Nat.iter_succ. etransitivity; [exact IH|apply next_day_year].
Qed.

(** The tokens of a range whose dates stay within year 9999. *)
Lemma range_tokens (start : Calendar.date) (n : nat) :
  Calendar.year (Calendar.add_days start (30 * (n - 1))) <= 9999 ->
  mapM (fun i => t ← add_days_checked start (30 * i); Some (strftime_ym t)) (seq 0 n)
  = Some (map (fun i => strftime_ym (Calendar.add_days start (30 * i))) (seq 0 n)).
Proof.
  intros Hlast. apply mapM_Some_2.
  apply Forall2_fmap_r, Forall_Forall2_diag, Forall_forall.
  intros i Hi%elem_of_seq. unfold add_days_checked.
  replace (Calendar.year (Calendar.add_days start (30 * i)) <=? 9999) with true; [reflexivity|].
  symmetry. apply Z.leb_le. etransitivity; [|exact Hlast].
  apply add_days_year. lia.
Qed.



Lemma mapM_first_two {A} (f : nat -> option A) (n : nat) (d0 d1 : A) (rest : list A) :
  mapM f (seq 0 n) = Some (d0 :: d1 :: rest) -> f 0%nat = Some d0 /\ f 1%nat = Some d1.
Proof.
  intros E. apply mapM_Some_1 in E.
  destruct n as [|[|n]]; cbn [seq] in E;
    [inversion E|inversion E as [|? ? ? ? _ E']; inversion E'|].
  inversion E as [|? ? ? ? H0 E']; subst. inversion E' as [|? ? ? ? H1 _]; subst.
  split; assumption.
Qed.

Lemma add_days_checked_in_month (y m : Z) (n : nat) (t : Calendar.date) :
  1 + Z.of_nat n <= Calendar.days_in_month y m ->
  add_days_checked (Calendar.mkDate y m 1) n = Some t ->
  Calendar.year t = y /\ Calendar.month t = m.
Proof.
  intros Hn. unfold add_days_checked. rewrite (add_days_in_month y m 1 n Hn).
  cbn [Calendar.year]. destruct (y <=? 9999); [|discriminate].
  intros [= <-]. split; reflexivity.
Qed.

(** X11. A range that starts in a month of 31 days names that month
    twice: the second date, 30 days after the first of the month, is its
    31st, so the first two tokens are equal. *)
Theorem generate_date_range_repeats_long_month (start_date : string) (periods : Z)
    (start : Calendar.date) (d0 d1 : string) (rest : list string) :
  strptime start_date [DY; Lit "-"; Dm] = Some start ->
  Calendar.days_in_month (Calendar.year start) (Calendar.month start) = 31 ->
  generate_date_range start_date periods = d0 :: d1 :: rest ->
  d1 = d0.
Proof.
  intros Hstart Hlong. unfold generate_date_range. rewrite Hstart.
  destruct (mapM _ _) as [dates|] eqn:E; [|discriminate].
  intros ->. apply mapM_first_two in E as [H0 H1].
  destruct (strptime_year_month _ _ Hstart) as [Hday _].
  destruct start as [y m d]. cbn [Calendar.day Calendar.year Calendar.month] in Hday, Hlong.
  subst d.
  destruct (add_days_checked (Calendar.mkDate y m 1) (30 * 0)) as [t0|] eqn:E0;
    [|discriminate].
  destruct (add_days_checked (Calendar.mkDate y m 1) (30 * 1)) as [t1|] eqn:E1;
    [|discriminate].
  apply add_days_checked_in_month in E0 as [Ey0 Em0]; [|lia].
  apply add_days_checked_in_month in E1 as [Ey1 Em1]; [|lia].
  cbn [base.mbind option_bind] in H0, H1.
  assert (F0 : d0 = strftime_ym t0) by congruence.
  assert (F1 : d1 = strftime_ym t1) by congruence.
  rewrite F0, F1. unfold strftime_ym. now rewrite Ey0, Em0, Ey1, Em1.
Qed.

Lemma generate_date_range_repeats_long_month_witness :
  exists d0 d1 rest, generate_date_range "2024-01" 3 = d0 :: d1 :: rest /\ d1 = d0.
Proof.
  exists "2024-01", "2024-01", ["2024-03"].
  assert (E : generate_date_range "2024-01" 3 = ["2024-01"; "2024-01"; "2024-03"])
    by (vm_compute; reflexivity).
  split; [exact E|].
  exact (generate_date_range_repeats_long_month "2024-01" 3 (Calendar.mkDate 2024 1 1)
           "2024-01" "2024-01" ["2024-03"] eq_refl eq_refl E).
Defined.

(** *** The last months *)

Lemma insert_string_length (s : string) (l : list string) :
  length (insert_string s l) = S (length l).
Proof.
  induction l as [|t l IH]; cbn; [reflexivity|].
  destruct (String.leb s t); cbn; [reflexivity|]. now rewrite IH.
Qed.

Lemma sorted_length (l : list string) : length (sorted l) = length l.
Proof.
  induction l as [|s l IH]; cbn; [reflexivity|].
  fold (sorted l). now rewrite insert_string_length, IH.
Qed.

Lemma insert_string_Forall (P : string -> Prop) (s : string) (l : list string) :
  P s -> Forall P l -> Forall P (insert_string s l).
Proof.
  intros Hs. induction 1 as [|t l Ht Hl IH]; cbn.
  - repeat constructor; assumption.
  - destruct (String.leb s t); repeat constructor; assumption.
Qed.

Lemma sorted_Forall (P : string -> Prop) (l : list string) :
  Forall P l -> Forall P (sorted l).
Proof.
  induction 1 as [|s l Hs _ IH]; cbn; [constructor|].
  apply insert_string_Forall; assumption.
Qed.

(** Each text is at most its successor. *)
Fixpoint ascending (l : list string) : Prop :=
  match l with
  | s :: (t :: _) as l' => String.leb s t = true /\ ascending l'
  | _ => True
  end.

Lemma string_leb_false (s t : string) : String.leb s t = false -> String.leb t s = true.
Proof. intros H. destruct (String.leb_total s t) as [E|E]; congruence. Qed.

Lemma insert_string_ascending (s : string) (l : list string) :
  ascending l -> ascending (insert_string s l).
Proof.
  induction l as [|t l IH]; cbn [insert_string]; [intros; exact I|].
  intros Hs. destruct (String.leb s t) eqn:E; [split; assumption|].
  destruct l as [|u l]; cbn [insert_string] in *.
  - split; [now apply string_leb_false|exact I].
  - destruct Hs as [Htu Hs]. specialize (IH Hs).
    destruct (String.leb s u) eqn:E'.
    + split; [now apply string_leb_false|exact IH].
    + split; [exact Htu|exact IH].
Qed.

Lemma sorted_ascending (l : list string) : ascending (sorted l).
Proof.
  induction l as [|s l IH]; cbn; [exact I|]. apply insert_string_ascending, IH.
Qed.


End RangeFacts.

(** ** [format_date] *)

Section FormatDateFacts.

Import Text DataHelpers DataCleaner.


End FormatDateFacts.

(** ** Risk statistics and lists *)

Section RiskReportFacts.

Import Text DataHelpers DataCleaner Series RiskClassifier RiskFacts RiskReports.

Lemma stats_lookup (a m b : nat) :
  let stats : gmap string nat := list_to_map [("Alto", a); ("Médio", m); ("Baixo", b)] in
  stats !! "Alto" = Some a /\ stats !! "Médio" = Some m /\ stats !! "Baixo" = Some b.
Proof. vm_compute. repeat split. Qed.

(** The number of cells that hold a given text. *)
Definition count_text (name : string) (l : list cell) : nat :=
  length (List.filter (fun c => cell_eq c (CStr name)) l).

Lemma cell_eq_text (c : cell) (name : string) :
  cell_eq c (CStr name) = cell_eqb (CStr name) c.
Proof.
  unfold cell_eq. rewrite (cell_eqb_sym c). destruct c as [s|[x|]|y m d]; reflexivity.
Qed.

Lemma filter_ext_length {A} (f g : A -> bool) (l : list A) :
  (forall x, f x = g x) -> length (List.filter f l) = length (List.filter g l).
Proof. intros H. now rewrite (List.filter_ext f g H). Qed.

Lemma cell_eqb_congr (a b c : cell) : cell_eqb a b = true -> cell_eqb a c = cell_eqb b c.
Proof.
  intros Hab. destruct (cell_eqb a c) eqn:Hac, (cell_eqb b c) eqn:Hbc; try reflexivity.
  - rewrite cell_eqb_sym in Hab. now rewrite (cell_eqb_trans b a c Hab Hac) in Hbc.
  - now rewrite (cell_eqb_trans a b c Hab Hbc) in Hac.
Qed.

(** What [value_counts().to_dict().get(name, 0)] returns. *)
Lemma get_value_counts (name : string) (l : list cell) :
  get (value_counts l) (CStr name) 0 = count_text name l.
Proof.
  unfold get, value_counts, count_text.
  rewrite (filter_ext_length _ (cell_eqb (CStr name))) by (intros c; apply cell_eq_text).
  set (present := List.filter (fun c => negb (isna c)) l).
  destruct (List.find _ _) as [[v n]|] eqn:Hfind.
  - apply find_some in Hfind as [Hin Hv]. cbn [fst snd] in *.
    apply in_map_iff in Hin as (v' & [= <- <-] & _).
    apply filter_ext_length. intros c. now apply cell_eqb_congr.
  - destruct (List.filter (cell_eqb (CStr name)) l) as [|c rest] eqn:Hcount; [reflexivity|].
    exfalso.
    assert (Hc : List.In c (List.filter (cell_eqb (CStr name)) l))
      by (rewrite Hcount; now left).
    apply filter_In in Hc as [Hc Ec].
    assert (Hpresent : c ∈ present).
    { apply list_elem_of_In, filter_In. split; [exact Hc|].
      destruct c as [s|[x|]|y m d]; try reflexivity. discriminate Ec. }
    destruct (unique_from_complete present [] c Hpresent) as [(k & Hk & Ek)|(s & Hs & _)];
      [|inversion Hs].
    apply list_elem_of_In in Hk.
    apply (in_map (fun v => (v, length (List.filter (cell_eqb v) l)))) in Hk.
    apply (find_none _ _ Hfind) in Hk. cbn [fst] in Hk.
    rewrite cell_eqb_sym in Ek. rewrite cell_eqb_sym in Ec.
    now rewrite (cell_eqb_trans k c (CStr name) Ek Ec) in Hk.
Qed.

(** The level of every classified row is one of the three names. *)
Lemma classified_nivel (row row' : Row) :
  classified row row' ->
  exists level, nivel_risco row' = CStr (risk_name level).
Proof.
  intros (nivel & razao & deficit & Hn & _ & _ & ->).
  unfold nivel_risco_of in Hn.
  destruct (classify_risk _ _) as [level|]; [|discriminate].
  cbn in Hn. injection Hn as <-. exists level.
  unfold nivel_risco, cell_of, row_get. rewrite !lookup_insert_ne by done.
  now rewrite lookup_insert_eq.
Qed.

Lemma count_levels (l : list cell) :
  Forall (fun c => exists level, c = CStr (risk_name level)) l ->
  (count_text "Alto" l + count_text "Médio" l + count_text "Baixo" l = length l)%nat.
Proof.
  unfold count_text. induction 1 as [|c l [level ->] _ IH]; [reflexivity|].
  cbn [List.filter length]. destruct level; cbn; lia.
Qed.

Lemma classify_batch_levels (r r' : ref) (σ σ' : Store) (df' : DataFrame) :
  classify_batch r σ = (Ok r', σ') -> σ' !! r' = Some df' ->
  "nivel_risco" ∈ columns df' /\ "deficit" ∈ columns df' /\
  Forall (fun row' => exists row, classified row row') (rows df').
Proof.
  intros Hrun Hdf'.
  destruct (classify_batch_inv _ _ _ _ Hrun) as (df & d & Hr & -> & -> & Hrows & Hcols).
  rewrite lookup_insert_eq in Hdf'. injection Hdf' as <-.
  rewrite Hcols. split; [|split].
  - apply foldl_add_column. right. unfold risk_columns. set_solver.
  - apply foldl_add_column. right. unfold risk_columns. set_solver.
  - apply Forall2_Forall_r with (1 := Hrows). apply Forall_true. eauto.
Qed.

(** X14. On a frame returned by [classify_batch], the three counts of
    [get_risk_statistics] add up to the number of rows, and the count of
    'Alto' is the number of rows that [get_high_risk_medications]
    returns. *)
Theorem risk_statistics_total (r r' : ref) (σ σ' : Store) (df' : DataFrame) :
  classify_batch r σ = (Ok r', σ') -> σ' !! r' = Some df' ->
  exists alto medio baixo,
    get_risk_statistics df' !! "Alto" = Some alto /\
    get_risk_statistics df' !! "Médio" = Some medio /\
    get_risk_statistics df' !! "Baixo" = Some baixo /\
    (alto + medio + baixo = length (rows df'))%nat /\
    forall high_risk,
      get_high_risk_medications df' = Ok high_risk -> length (rows high_risk) = alto.
Proof.
  intros Hrun Hdf'.
  destruct (classify_batch_levels _ _ _ _ _ Hrun Hdf') as (Hcol & Hdef & Hrows).
  unfold get_risk_statistics, get_high_risk_medications.
  rewrite (bool_decide_eq_true_2 _ Hcol). cbn [negb]. rewrite orb_false_r.
  destruct (is_empty df') eqn:Hempty.
  - assert (Hnil : rows df' = []).
    { apply empty_frame_rows; [exact Hempty|]. intros E. rewrite E in Hcol. inversion Hcol. }
    exists 0%nat, 0%nat, 0%nat. rewrite Hnil.
    repeat split; try reflexivity. now intros high_risk [= <-].
  - rewrite !get_value_counts.
    set (cells := map nivel_risco (rows df')).
    exists (count_text "Alto" cells), (count_text "Médio" cells), (count_text "Baixo" cells).
    destruct (stats_lookup (count_text "Alto" cells) (count_text "Médio" cells)
                (count_text "Baixo" cells)) as (E1 & E2 & E3).
    split; [exact E1|]. split; [exact E2|]. split; [exact E3|]. split.
    + rewrite count_levels; [unfold cells; now rewrite length_map|].
      unfold cells. apply Forall_map.
      eapply Forall_impl; [exact Hrows|]. intros row' [row Hc].
      now apply (classified_nivel row).
    + assert (Hcount : length (List.filter (fun row => cell_eq (nivel_risco row) (CStr "Alto"))
                                 (rows df')) = count_text "Alto" cells).
      { unfold count_text, cells. clear. induction (rows df') as [|row l IH]; [reflexivity|].
        cbn. destruct (cell_eq (nivel_risco row) (CStr "Alto")); cbn; now rewrite IH. }
      intros high_risk. cbn [columns with_rows].
      destruct (negb _ && _).
      * intros Hs. apply sort_values_spec in Hs as (_ & _ & Hp & _).
        rewrite Hp. exact Hcount.
      * intros [= <-]. exact Hcount.
Qed.

End RiskReportFacts.

(** ** The lists of the risk report *)

Section RiskListFacts.

Import Text DataHelpers DataCleaner Series RiskClassifier RiskFacts RiskReports.

Local Open Scope Q_scope.

Lemma locally_sorted_lookup leb (l : list Row) (i : nat) (r1 r2 : Row) :
  locally_sorted leb l -> l !! i = Some r1 -> l !! S i = Some r2 -> leb r1 r2 = true.
Proof.
  revert i. induction l as [|x l IH]; intros i Hs H1 H2; [discriminate|].
  destruct l as [|y l]; [destruct i; discriminate|].
  destruct Hs as [Hxy Hs]. destruct i as [|i].
  - cbn in H1, H2. now injection H1 as <-; injection H2 as <-.
  - apply (IH i Hs); assumption.
Qed.

Lemma cell_eq_text_inv (c : cell) (name : string) :
  cell_eq c (CStr name) = true -> c = CStr name.
Proof.
  destruct c as [s|[x|]|y m d]; try discriminate.
  unfold cell_eq. cbn. now intros ->%String.eqb_eq.
Qed.

(** Numbers in descending order under [key_leb]. *)
Lemma key_leb_descending (d1 d2 : Q) :
  key_leb false (CNum (Fin d1)) (CNum (Fin d2)) = true -> d2 <= d1.
Proof. cbn. apply Qle_bool_iff. Qed.

(** X15. For a table with rows and a column [nivel_risco],
    [get_high_risk_medications] returns, under the same columns, the rows
    whose level is 'Alto', each once, and, when the table has a column
    [deficit], in an order in which a numeric deficit is never followed
    by a greater one. *)
Theorem high_risk_medications_sorted (df out : DataFrame) :
  is_empty df = false -> "nivel_risco" ∈ columns df ->
  get_high_risk_medications df = Ok out ->
  columns out = columns df /\
  rows out ≡ₚ List.filter (fun row => cell_eq (nivel_risco row) (CStr "Alto")) (rows df) /\
  Forall (fun row => nivel_risco row = CStr "Alto") (rows out) /\
  ("deficit" ∈ columns df ->
   forall (i : nat) (r1 r2 : Row) (d1 d2 : Q),
     rows out !! i = Some r1 -> rows out !! S i = Some r2 ->
     r1 !! "deficit" = Some (CNum (Fin d1)) -> r2 !! "deficit" = Some (CNum (Fin d2)) ->
     d2 <= d1).
Proof.
  intros Hempty Hcol. unfold get_high_risk_medications.
  rewrite Hempty, (bool_decide_eq_true_2 _ Hcol). cbn [negb orb].
  set (high := List.filter (fun row => cell_eq (nivel_risco row) (CStr "Alto")) (rows df)).
  assert (Hhigh : Forall (fun row => nivel_risco row = CStr "Alto") high).
  { apply Forall_forall. intros row Hin. apply list_elem_of_In, filter_In in Hin as [_ H].
    now apply cell_eq_text_inv. }
  cbn [columns with_rows].
  destruct (negb (is_empty (with_rows df high)) && bool_decide ("deficit" ∈ columns df))
    eqn:Hsort.
  - intros Hs. apply sort_values_spec in Hs as (_ & Hc & Hp & Hsorted).
    cbn [columns rows with_rows] in Hc, Hp.
    split; [exact Hc|]. split; [exact Hp|]. split; [now rewrite Hp|].
    intros _ i r1 r2 d1 d2 H1 H2 E1 E2.
    pose proof (locally_sorted_lookup _ _ i r1 r2 Hsorted H1 H2) as Hle.
    unfold ordered_by, cell_of, row_get in Hle. rewrite E1, E2 in Hle.
    now apply key_leb_descending.
  - intros [= <-]. cbn [columns rows with_rows].
    split; [reflexivity|]. split; [reflexivity|]. split; [exact Hhigh|].
    intros Hdef. rewrite (bool_decide_eq_true_2 _ Hdef), andb_true_r in Hsort.
    apply negb_false_iff in Hsort.
    assert (Hnil : high = []).
    { apply (empty_frame_rows (with_rows df high) Hsort). cbn.
      intros E. rewrite E in Hcol. inversion Hcol. }
    rewrite Hnil. intros i r1 r2 d1 d2 H. discriminate H.
Qed.

(** The rows [get_priority_list] selects. *)
Definition at_risk (row : Row) : bool := isin [CStr "Alto"; CStr "Médio"] (nivel_risco row).

Lemma at_risk_inv (row : Row) :
  at_risk row = true -> nivel_risco row = CStr "Alto" \/ nivel_risco row = CStr "Médio".
Proof.
  unfold at_risk, isin. cbn [existsb]. rewrite orb_false_r.
  intros [H|H]%orb_true_iff; [left|right];
    destruct (nivel_risco row) as [s|[x|]|y m d]; try discriminate;
    cbn in H; apply String.eqb_eq in H; now subst.
Qed.

Lemma nivel_risco_delete (row : Row) (c : cell) :
  nivel_risco (delete "risk_order" (<["risk_order" := c]> row)) = nivel_risco row.
Proof.
  unfold nivel_risco, cell_of, row_get.
  now rewrite lookup_delete_ne, lookup_insert_ne by done.
Qed.

Lemma locally_sorted_take leb (n : nat) (l : list Row) :
  locally_sorted leb l -> locally_sorted leb (take n l).
Proof.
  revert n. induction l as [|x l IH]; intros n Hs; [now destruct n|].
  destruct n as [|n]; [exact I|]. cbn [take].
  destruct l as [|y l]; [now destruct n|].
  destruct Hs as [Hxy Hs]. specialize (IH n Hs).
  destruct n as [|n]; [exact I|]. cbn [take] in *. split; assumption.
Qed.

Lemma head_rows (n : Z) (df : DataFrame) :
  exists k, rows (head n df) = take k (rows df) /\
            ((0 <= n)%Z -> k = Z.to_nat n).
Proof.
  unfold head. cbn [rows with_rows]. destruct (0 <=? n)%Z eqn:E.
  - eexists. split; [reflexivity|]. reflexivity.
  - eexists. split; [reflexivity|]. intros H. apply Z.leb_gt in E. lia.
Qed.

(** X16. For a table with rows and a column [nivel_risco], when
    [get_priority_list] returns: it returns at most [top_n] rows; each is
    a row of the table whose level is 'Alto' or 'Médio' (without a column
    [risk_order]); all of them when they are at most [top_n]; no 'Médio'
    row is followed by an 'Alto' row; and between two rows of one level a
    numeric deficit is never followed by a greater one. *)
Theorem priority_list_order (df out : DataFrame) (top_n : Z) :
  is_empty df = false -> "nivel_risco" ∈ columns df ->
  get_priority_list df top_n = Ok out ->
  ((0 <= top_n)%Z -> (length (rows out) <= Z.to_nat top_n)%nat) /\
  Forall (fun row => (nivel_risco row = CStr "Alto" \/ nivel_risco row = CStr "Médio") /\
                     exists row0, row0 ∈ rows df /\ row = delete "risk_order" row0)
         (rows out) /\
  ((Z.of_nat (length (List.filter at_risk (rows df))) <= top_n)%Z ->
   rows out ≡ₚ map (fun row : Row => delete "risk_order" row) (List.filter at_risk (rows df))) /\
  forall (i : nat) (r1 r2 : Row),
    rows out !! i = Some r1 -> rows out !! S i = Some r2 ->
    (nivel_risco r1 = CStr "Médio" -> nivel_risco r2 = CStr "Médio") /\
    (nivel_risco r1 = nivel_risco r2 ->
     forall d1 d2 : Q,
       r1 !! "deficit" = Some (CNum (Fin d1)) -> r2 !! "deficit" = Some (CNum (Fin d2)) ->
       d2 <= d1).
Proof.
  intros Hempty Hcol. unfold get_priority_list.
  rewrite Hempty, (bool_decide_eq_true_2 _ Hcol). cbn [negb orb].
  fold at_risk. cbn [columns rows with_rows].
  set (selected := List.filter at_risk (rows df)).
  set (ranked := map (fun row : Row => <["risk_order" := map_risk_order (nivel_risco row)]> row)
                     selected).
  destruct (sort_values2 _ _ _ _ _) as [sorted|] eqn:Hs; [|discriminate].
  cbn [base.mbind result_bind Frame.bind]. intros [= <-].
  apply sort_values2_spec in Hs as (_ & Hp & Hsorted). cbn [rows] in Hp.
  destruct (head_rows top_n (drop "risk_order" sorted)) as (k & -> & Hk).
  cbn [rows drop].
  assert (Hranked : Forall (fun s : Row =>
            exists row0, row0 ∈ rows df /\ at_risk row0 = true /\
              s = <["risk_order" := map_risk_order (nivel_risco row0)]> row0) (rows sorted)).
  { rewrite Hp. unfold ranked. apply Forall_map, Forall_forall. intros row0 Hin.
    apply list_elem_of_In, filter_In in Hin as [Hin Hrisk].
    exists row0. split; [now apply list_elem_of_In|]. auto. }
  split; [|split; [|split]].
  - intros Hn. rewrite length_take. specialize (Hk Hn). lia.
  - apply Forall_take, Forall_map. eapply Forall_impl; [exact Hranked|].
    intros s (row0 & Hin & Hrisk & ->). split.
    + rewrite nivel_risco_delete. now apply at_risk_inv.
    + exists row0. split; [exact Hin|]. apply delete_insert_eq.
  - intros Hall.
    assert (Hlen : length (rows sorted) = length selected)
      by (rewrite Hp; unfold ranked; apply length_map).
    rewrite take_ge.
    2:{ rewrite length_map, Hlen. specialize (Hk ltac:(lia)). lia. }
    change (map (fun row : Row => delete "risk_order" row) (rows sorted))
      with ((fun row : Row => delete "risk_order" row) <$> rows sorted).
    rewrite Hp. unfold ranked.
    change (map ?f ?l) with (f <$> l). rewrite <- list_fmap_compose.
    erewrite list_fmap_ext; [reflexivity|].
    intros j row _. cbn. apply delete_insert_eq.
  - intros i r1 r2 H1 H2.
    apply lookup_take_Some in H1 as [H1 _]. apply lookup_take_Some in H2 as [H2 _].
    change (map ?f ?l) with (f <$> l) in H1, H2.
    rewrite list_lookup_fmap in H1, H2.
    destruct (rows sorted !! i) as [s1|] eqn:E1; [|discriminate].
    destruct (rows sorted !! S i) as [s2|] eqn:E2; [|discriminate].
    cbn in H1, H2. injection H1 as <-. injection H2 as <-.
    pose proof (locally_sorted_lookup _ _ i s1 s2 Hsorted E1 E2) as Hle.
    rewrite Forall_forall in Hranked.
    destruct (Hranked s1) as (a & _ & Ha & ->); [apply list_elem_of_lookup; eauto|].
    destruct (Hranked s2) as (b & _ & Hb & ->); [apply list_elem_of_lookup; eauto|].
    rewrite !nivel_risco_delete.
    unfold ordered_by2, cell_of, row_get in Hle.
    rewrite !lookup_insert_eq in Hle. rewrite !lookup_insert_ne in Hle by done.
    cbn [default from_option id] in Hle.
    rewrite !lookup_delete_ne, !lookup_insert_ne by done.
    apply at_risk_inv in Ha, Hb.
    destruct Ha as [Ha|Ha], Hb as [Hb|Hb]; rewrite Ha, Hb in Hle |- *;
      (split; [try congruence|]).
    + intros _ d1 d2 F1 F2. rewrite F1, F2 in Hle. cbn in Hle. now apply Qle_bool_iff.
    + discriminate.
    + discriminate Hle.
    + congruence.
    + intros _ d1 d2 F1 F2. rewrite F1, F2 in Hle. cbn in Hle. now apply Qle_bool_iff.
Qed.

(** X17. [create_risk_report] guards the total of the deficit against a
    table without a column [deficit], but not the priority list: on a
    table with rows and a column [nivel_risco] and without [deficit] it
    raises [KeyError]. *)
Theorem risk_report_needs_deficit (df : DataFrame) :
  is_empty df = false -> "nivel_risco" ∈ columns df -> "deficit" ∉ columns df ->
  create_risk_report df = Raise (KeyError "deficit").
Proof.
  intros Hempty Hcol Hdef. unfold create_risk_report.
  unfold get_high_risk_medications.
  rewrite Hempty, (bool_decide_eq_true_2 _ Hcol). cbn [negb orb columns with_rows].
  rewrite (bool_decide_eq_false_2 _ Hdef), andb_false_r.
  cbn [base.mbind result_bind Frame.bind].
  unfold get_priority_list.
  rewrite Hempty, (bool_decide_eq_true_2 _ Hcol). cbn [negb orb columns with_rows].
  assert (H1 : "risk_order" ∈ add_column (columns df) "risk_order")
    by (apply add_column_spec; now right).
  assert (H2 : "deficit" ∉ add_column (columns df) "risk_order")
    by (intros [H|H]%add_column_spec; [contradiction|discriminate]).
  unfold sort_values2, require_column. cbn [columns].
  rewrite (bool_decide_eq_true_2 _ H1).
  cbn [base.mbind result_bind Frame.bind].
  rewrite (bool_decide_eq_false_2 _ H2). reflexivity.
Qed.

End RiskListFacts.

(** ** Levels and deficits; the indicators of the dashboard *)

Section RiskConsistency.

Import Text DataHelpers DataCleaner Series RiskClassifier RiskFacts RiskReports App.

Local Open Scope Q_scope.

Lemma ratio_below_one (s f : Q) : 0 < f -> (s / f < 1 <-> s < f).
Proof.
  intros Hf. split.
  - intros H. destruct (Qlt_le_dec s f) as [Hlt|Hle]; [exact Hlt|].
    exfalso. apply (Qlt_not_le _ _ H). apply Qle_shift_div_l; [exact Hf|lra].
  - intros H. apply Qlt_shift_div_r; [exact Hf|lra].
Qed.

Lemma shortfall_positive (s f : Q) : 0 < Qmax 0 (f - s) <-> s < f.
Proof.
  rewrite Q.max_lt_iff. split.
  - intros [H|H]; [exfalso; exact (Qlt_irrefl 0 H)|lra].
  - intros H. right. lra.
Qed.


(** Name the run that [returned_cell] has shown to return a frame. *)
Ltac open_returned H Hrun Hdf' :=
  unfold returned_cell, returned_row in H;
  destruct (classify_batch 0%nat sample_risk_store) as [[r'|] σ'] eqn:Hrun;
    [|cbn in H; discriminate];
  destruct (σ' !! r') as [df'|] eqn:Hdf'; [|cbn in H; discriminate];
  cbn [base.mbind option_bind] in H.


Lemma risk_statistics_total_witness :
  exists (df' : DataFrame) alto medio baixo,
    get_risk_statistics df' !! "Alto" = Some alto /\
    get_risk_statistics df' !! "Médio" = Some medio /\
    get_risk_statistics df' !! "Baixo" = Some baixo /\
    (alto + medio + baixo = length (rows df'))%nat /\
    forall high_risk,
      get_high_risk_medications df' = Ok high_risk -> length (rows high_risk) = alto.
Proof.
  destruct sample_risk_run as (_ & _ & _ & _ & H).
  open_returned H Hrun Hdf'.
  exists df'. exact (risk_statistics_total _ _ _ _ _ Hrun Hdf').
Defined.

(** What the report sample holds after classification: two medications
    at high risk, one at medium and one at low risk. *)
Definition sample_classified : DataFrame :=
  mkFrame ["medicamento"; "nivel_risco"; "deficit"]
    [ list_to_map [("medicamento", CStr "ATENOLOL"); ("nivel_risco", CStr "Médio");
                   ("deficit", CNum (Fin 0))];
      list_to_map [("medicamento", CStr "CAPTOPRIL"); ("nivel_risco", CStr "Alto");
                   ("deficit", CNum (Fin 5))];
      list_to_map [("medicamento", CStr "DIPIRONA"); ("nivel_risco", CStr "Baixo");
                   ("deficit", CNum (Fin 0))];
      list_to_map [("medicamento", CStr "LOSARTANA"); ("nivel_risco", CStr "Alto");
                   ("deficit", CNum (Fin 9))] ].

Definition medications (run : result DataFrame) : result (list cell) :=
  df ← run; Ok (map (fun row => cell_of row "medicamento") (rows df)).

Lemma sample_classified_lists :
  medications (get_high_risk_medications sample_classified)
    = Ok [CStr "LOSARTANA"; CStr "CAPTOPRIL"] /\
  medications (get_priority_list sample_classified 10)
    = Ok [CStr "LOSARTANA"; CStr "CAPTOPRIL"; CStr "ATENOLOL"] /\
  medications (get_priority_list sample_classified 2)
    = Ok [CStr "LOSARTANA"; CStr "CAPTOPRIL"].
Proof. vm_compute. repeat split. Qed.

Lemma high_risk_medications_sorted_witness :
  exists out,
    get_high_risk_medications sample_classified = Ok out /\
    columns out = columns sample_classified /\
    Forall (fun row => nivel_risco row = CStr "Alto") (rows out).
Proof.
  pose (run := get_high_risk_medications sample_classified).
  assert (Hok : match run with Ok _ => true | Raise _ => false end = true)
    by (vm_compute; reflexivity).
  destruct run as [out|] eqn:Hrun; [|discriminate].
  exists out. split; [exact Hrun|].
  destruct (high_risk_medications_sorted sample_classified out eq_refl
              ltac:(cbn; repeat constructor) Hrun) as (H1 & _ & H3 & _).
  split; assumption.
Defined.

Lemma priority_list_order_witness :
  exists out,
    get_priority_list sample_classified 2 = Ok out /\
    ((0 <= 2)%Z -> (length (rows out) <= Z.to_nat 2)%nat) /\
    Forall (fun row => (nivel_risco row = CStr "Alto" \/ nivel_risco row = CStr "Médio") /\
                       exists row0, row0 ∈ rows sample_classified /\
                                    row = delete "risk_order" row0)
           (rows out).
Proof.
  pose (run := get_priority_list sample_classified 2).
  assert (Hok : match run with Ok _ => true | Raise _ => false end = true)
    by (vm_compute; reflexivity).
  destruct run as [out|] eqn:Hrun; [|discriminate].
  exists out. split; [exact Hrun|].
  destruct (priority_list_order sample_classified out 2 eq_refl
              ltac:(cbn; repeat constructor) Hrun) as (H1 & H2 & _).
  split; assumption.
Defined.

(** A classified table that lost its [deficit] column. *)
Definition sample_without_deficit : DataFrame :=
  mkFrame ["medicamento"; "nivel_risco"]
    [ list_to_map [("medicamento", CStr "CAPTOPRIL"); ("nivel_risco", CStr "Alto")] ].

Lemma risk_report_needs_deficit_witness :
  create_risk_report sample_without_deficit = Raise (KeyError "deficit").
Proof.
  apply (risk_report_needs_deficit sample_without_deficit).
  - reflexivity.
  - cbn. repeat constructor.
  - cbn. intros H. repeat (apply elem_of_cons in H as [H|H]; [discriminate H|]).
    inversion H.
Defined.

(** *** The dashboard *)

Lemma round_half_even_zero (x : Q) : x == 0 -> round_half_even x = 0%Z.
Proof.
  intros E.
  assert (H1 : x <= inject_Z 0) by (rewrite E; apply Qle_refl).
  assert (H2 : inject_Z 0 <= x) by (rewrite E; apply Qle_refl).
  apply round_half_even_mono in H1, H2. rewrite round_half_even_Z in H1, H2. lia.
Qed.

Lemma percentual_zero (total : nat) : exists p, percentual 0 total = Fin p /\ p == 0.
Proof.
  unfold percentual. destruct (0 <? total)%nat eqn:E.
  - cbn [round1]. eexists. split; [reflexivity|].
    rewrite round_half_even_zero; [reflexivity|].
    apply Nat.ltb_lt in E.
    assert (Ht : ~ inject_Z (Z.of_nat total) == 0).
    { change 0 with (inject_Z 0). rewrite inject_Z_injective. lia. }
    change (inject_Z (Z.of_nat 0)) with 0. field. exact Ht.
  - exists 0. split; reflexivity.
Qed.

(** X19. In [main], the statistics and the report are computed from
    [risk_data], which [classify_batch] has left without a column
    [nivel_risco] (it classified a copy): whatever the stocks and the
    forecasts, the indicators of the dashboard count no medication at
    high or at medium risk and show 0 for both percentages. *)
Theorem dashboard_counts_nothing (risk_data : ref) (σ σ' : Store) (df : DataFrame)
    (k : kpi_metrics) :
  σ !! risk_data = Some df ->
  "nivel_risco" ∉ columns df ->
  risk_indicators risk_data σ = (Ok k, σ') ->
  kpi_total_medicamentos k = length (rows df) /\
  kpi_risco_alto k = 0%nat /\
  kpi_risco_medio k = 0%nat /\
  (exists p, kpi_percentual_alto k = Fin p /\ p == 0) /\
  (exists p, kpi_percentual_medio k = Fin p /\ p == 0).
Proof.
  intros Hdf Hcol. unfold risk_indicators.
  unfold base.mbind, heap_bind, Heap.mbind.
  pose proof (classify_batch_writes_copy risk_data σ risk_data) as Hkeep.
  destruct (classify_batch risk_data σ) as [[risk_df|] σ1]; [|discriminate].
  cbn [snd] in Hkeep. rewrite Hdf in Hkeep.
  unfold deref. rewrite Hkeep.
  2:{ intros E. pose proof (is_fresh (dom σ)) as Hf. rewrite <- E in Hf.
      apply Hf. apply elem_of_dom. eauto. }
  unfold lift, Heap.ret.
  assert (Hstats : get_risk_statistics df =
                   list_to_map [("Alto", 0%nat); ("Médio", 0%nat); ("Baixo", 0%nat)]).
  { unfold get_risk_statistics. rewrite (bool_decide_eq_false_2 _ Hcol).
    cbn [negb]. now rewrite orb_true_r. }
  unfold create_risk_report, get_high_risk_medications, get_priority_list.
  rewrite Hstats, (bool_decide_eq_false_2 _ Hcol). cbn [negb]. rewrite orb_true_r.
  cbn [base.mbind result_bind Frame.bind].
  destruct (if bool_decide ("deficit" ∈ columns df) then _ else _) as [total|];
    [|discriminate].
  cbn [base.mbind result_bind Frame.bind].
  intros [= <- <-]. cbn [kpi_total_medicamentos kpi_risco_alto kpi_risco_medio
                           kpi_percentual_alto kpi_percentual_medio
                           percentual_alto percentual_medio].
  split; [reflexivity|]. split; [reflexivity|]. split; [reflexivity|].
  split; apply percentual_zero.
Qed.

Lemma dashboard_counts_nothing_witness :
  exists k,
    kpi_total_medicamentos k = 3%nat /\
    kpi_risco_alto k = 0%nat /\
    kpi_risco_medio k = 0%nat /\
    (exists p, kpi_percentual_alto k = Fin p /\ p == 0) /\
    (exists p, kpi_percentual_medio k = Fin p /\ p == 0).
Proof.
  pose (run := risk_indicators 0%nat sample_risk_store).
  assert (Hok : match fst run with Ok _ => true | Raise _ => false end = true)
    by (vm_compute; reflexivity).
  destruct run as [[k|] σ'] eqn:Hrun; [|discriminate].
  exists k.
  apply (dashboard_counts_nothing 0%nat sample_risk_store σ' sample_risk_frame k).
  - apply lookup_singleton_eq.
  - cbn. intros H. repeat (apply elem_of_cons in H as [H|H]; [discriminate H|]).
    inversion H.
  - exact Hrun.
Defined.

End RiskConsistency.

(** ** The records of a forecast *)

Section ForecastRecords.

Import Text DataHelpers DataCleaner ConsumptionPredictor.

Variable model_predict : DataFrame -> result (list num).
Variable create_features : DataFrame -> result DataFrame.
Variable month_sin month_cos : Z -> num.

(** A forecast value as it is recorded: [round(max(0, x), 0)] is a whole
    number that is not negative, also when the model answers [nan]. *)
Lemma recorded_value (x : num) :
  exists z, (0 <= z)%Z /\ round0 (max0 x) = Fin (inject_Z z).
Proof.
  destruct x as [q|]; cbn [max0 round0].
  - exists (round_half_even (Qmax 0 q)). split; [|reflexivity].
    rewrite <- (round_half_even_Z 0). apply round_half_even_mono, Q.le_max_l.
  - exists (round_half_even 0). split; [|reflexivity].
    now rewrite <- (round_half_even_Z 0) at 1.
Qed.

(** What every record of a forecast for [medicamento] holds. *)
Definition forecast_record (medicamento : cell) (record : Row) : Prop :=
  record !! "medicamento" = Some medicamento /\
  record !! "tipo" = Some (CStr "predição") /\
  (exists d, record !! "data" = Some (CStr d) /\ matches_year_month d = true) /\
  exists z, (0 <= z)%Z /\ record !! "consumo_previsto" = Some (CNum (Fin (inject_Z z))).

Lemma emitted_forecast_record medicamento last_date (i : nat) (record : Row) :
  emitted medicamento last_date i record -> forecast_record (CStr medicamento) record.
Proof.
  intros (Hm & Hd & Ht & x & Hx). split; [exact Hm|]. split; [exact Ht|]. split.
  - eexists. split; [exact Hd|apply strftime_ym_shape].
  - destruct (recorded_value x) as (z & Hz & E). exists z. split; [exact Hz|].
    now rewrite Hx, E.
Qed.

(** X20. Whatever the model and the feature engineer answer, a forecast
    that returns is the empty frame or holds exactly [n_months] records;
    each record names the medication asked for, a month of the shape
    [YYYY-MM], the kind 'predição' and a forecast value that is a whole
    number and not negative (never [nan]). *)
Theorem predict_future_records (df : DataFrame) (medicamento : string) (n_months : nat)
    (out : DataFrame) :
  predict_future model_predict create_features month_sin month_cos df medicamento n_months
    = Ok out ->
  (out = empty_frame \/ length (rows out) = n_months) /\
  Forall (forecast_record (CStr medicamento)) (rows out).
Proof.
  intros Hrun. apply predict_future_emits in Hrun as [->|[last_date Hall]].
  - split; [now left|constructor].
  - split.
    + right. apply Forall2_length in Hall. now rewrite length_seq in Hall.
    + apply Forall2_Forall_r with (1 := Hall). apply Forall_true.
      intros i record. apply emitted_forecast_record.
Qed.

End ForecastRecords.

Lemma predict_future_records_witness :
  exists out,
    (out = empty_frame \/ length (rows out) = 2%nat) /\
    Forall (forecast_record (CStr "DIPIRONA")) (rows out).
Proof.
  pose (run := ConsumptionPredictor.predict_future (fun _ => Ok [Fin 1000]) Ok
                 (fun _ => NaN) (fun _ => NaN) sample_history "DIPIRONA" 2).
  assert (Hok : match run with Ok _ => true | Raise _ => false end = true)
    by (vm_compute; reflexivity).
  destruct run as [out|] eqn:Hrun; [|discriminate].
  exists out. exact (predict_future_records _ _ _ _ _ _ _ _ Hrun).
Defined.

(** ** The forecasts of every medication *)

Section ForecastAllFacts.

Import Text DataHelpers DataCleaner Series ConsumptionPredictor ForecastAll.

Variable model_predict : DataFrame -> result (list num).
Variable create_features : DataFrame -> result DataFrame.
Variable month_sin month_cos : Z -> num.

Abbreviation step_for :=
  (forecast_step_for model_predict create_features month_sin month_cos).
Abbreviation loop_for :=
  (forecast_loop_for model_predict create_features month_sin month_cos).
Abbreviation forecast_for :=
  (predict_future_for model_predict create_features month_sin month_cos).

Lemma forecast_step_for_record medicamento last_date med_data predictions i state' :
  step_for medicamento last_date (med_data, predictions) i = Ok state' ->
  exists record, snd state' = (predictions ++ [record])%list /\
                 forecast_record medicamento record.
Proof.
  unfold forecast_step_for.
  destruct (_create_future_features _ _ _ _) as [ff|]; [|discriminate]. cbn.
  destruct (model_predict ff) as [[|x pred]|]; try discriminate. cbn.
  destruct (create_features _) as [md|]; [|discriminate]. cbn.
  intros [= <-]. eexists. split; [reflexivity|].
  split; [reflexivity|]. split; [reflexivity|]. split.
  - eexists. split; [reflexivity|apply strftime_ym_shape].
  - destruct (recorded_value x) as (z & Hz & E). exists z. split; [exact Hz|].
    cbn. now rewrite E.
Qed.

Lemma forecast_loop_for_records medicamento last_date steps :
  forall state state',
    loop_for medicamento last_date state steps = Ok state' ->
    exists records,
      snd state' = (snd state ++ records)%list /\
      length records = length steps /\
      Forall (forecast_record medicamento) records.
Proof.
  induction steps as [|i steps IH]; intros state state'; cbn.
  - intros [= <-]. exists []. split; [now rewrite app_nil_r|]. split; [reflexivity|constructor].
  - destruct state as [med_data predictions].
    destruct (step_for medicamento last_date (med_data, predictions) i) as [st|] eqn:E;
      [|discriminate]. cbn.
    intros Hloop.
    destruct (forecast_step_for_record _ _ _ _ _ _ E) as (record & Hst & Hrec).
    destruct (IH _ _ Hloop) as (records & Hs & Hlen & Hall).
    exists (record :: records). split; [|split].
    + rewrite Hs, Hst. cbn. now rewrite <- app_assoc.
    + cbn. now rewrite Hlen.
    + constructor; assumption.
Qed.

(** The four columns of a frame of forecast records. *)
Definition forecast_columns : list string :=
  ["medicamento"; "data"; "consumo_previsto"; "tipo"].

Lemma predict_future_for_records (df : DataFrame) (medicamento : cell) (n_months : nat)
    (out : DataFrame) :
  forecast_for df medicamento n_months = Ok out -> is_empty out = false ->
  columns out = forecast_columns /\
  length (rows out) = n_months /\
  Forall (forecast_record medicamento) (rows out).
Proof.
  unfold predict_future_for.
  destruct (column df "medicamento") as [cells|]; [|discriminate].
  cbn [base.mbind result_bind Frame.bind].
  destruct (is_empty _); [intros [= <-]; discriminate|].
  destruct (sort_by_data _) as [med_data|]; [|discriminate].
  cbn [base.mbind result_bind Frame.bind].
  destruct (match last (rows med_data) with Some _ => _ | None => _ end) as [token|];
    [|discriminate].
  cbn [base.mbind result_bind Frame.bind].
  destruct (to_datetime _) as [last_date|]; [|discriminate].
  cbn [base.mbind result_bind Frame.bind].
  destruct (forecast_loop_for _ _ _ _ _ _ _ _) as [[md predictions]|] eqn:Hloop;
    [|discriminate].
  cbn [base.mbind result_bind Frame.bind]. intros [= <-].
  destruct (forecast_loop_for_records _ _ _ _ _ Hloop) as (records & Hs & Hlen & Hall).
  cbn in Hs. subst predictions. rewrite length_seq in Hlen.
  destruct records as [|record records]; [discriminate|]. intros _.
  split; [reflexivity|]. split; [exact Hlen|exact Hall].
Qed.

(** For a name that is text, the forecast is that of [predict_future]. *)
Lemma forecast_loop_for_text medicamento last_date steps state :
  loop_for (CStr medicamento) last_date state steps =
  forecast_loop model_predict create_features month_sin month_cos
    medicamento last_date state steps.
Proof.
  revert state. induction steps as [|i steps IH]; intros state; [reflexivity|].
  cbn [forecast_loop_for forecast_loop].
  replace (step_for (CStr medicamento) last_date state i)
    with (forecast_step model_predict create_features month_sin month_cos
            medicamento last_date state i) by reflexivity.
  destruct (forecast_step _ _ _ _ _ _ _ _) as [st|]; [|reflexivity].
  cbn [base.mbind result_bind Frame.bind]. apply IH.
Qed.

Lemma predict_future_for_text (df : DataFrame) (medicamento : string) (n_months : nat) :
  forecast_for df (CStr medicamento) n_months =
  predict_future model_predict create_features month_sin month_cos df medicamento n_months.
Proof.
  unfold predict_future_for, predict_future.
  assert (Hfilter : List.filter (fun row => cell_eq (cell_of row "medicamento") (CStr medicamento))
                      (rows df) =
                    List.filter (fun row => match cell_of row "medicamento" with
                                            | CStr s => String.eqb s medicamento
                                            | _ => false
                                            end) (rows df)).
  { apply List.filter_ext. intros row.
    destruct (cell_of row "medicamento") as [s|[x|]|y m d]; reflexivity. }
  rewrite Hfilter.
  destruct (column df "medicamento") as [cells|]; [|reflexivity].
  cbn [base.mbind result_bind Frame.bind].
  destruct (is_empty _); [reflexivity|].
  destruct (sort_by_data _) as [med_data|]; [|reflexivity].
  cbn [base.mbind result_bind Frame.bind].
  destruct (match last (rows med_data) with Some _ => _ | None => _ end) as [token|];
    [|reflexivity].
  cbn [base.mbind result_bind Frame.bind].
  destruct (to_datetime _) as [last_date|]; [|reflexivity].
  cbn [base.mbind result_bind Frame.bind].
  now rewrite forecast_loop_for_text.
Qed.

Lemma unique_from_sound (l seen : list cell) (c : cell) :
  c ∈ unique_from seen l -> c ∈ l.
Proof.
  revert seen. induction l as [|x l IH]; intros seen; cbn [unique_from]; [inversion 1|].
  destruct (existsb (cell_eqb x) seen).
  - intros H. right. exact (IH _ H).
  - intros [->|H]%elem_of_cons; [left|right; exact (IH _ H)].
Qed.

Abbreviation forecasts := (collected model_predict create_features month_sin month_cos).

(** Every collected frame is the forecast of one of the names. *)
Lemma collected_frames (df : DataFrame) (n_months : nat) (medicamentos : list cell) :
  Forall (fun pred_df =>
            exists med, med ∈ medicamentos /\
                        forecast_for df med n_months = Ok pred_df /\
                        is_empty pred_df = false)
         (forecasts df n_months medicamentos).
Proof.
  unfold collected. apply Forall_forall. intros pred_df Hin.
  apply list_elem_of_omap in Hin as (med & Hmed & Hsome).
  exists med. split; [exact Hmed|].
  destruct (forecast_for df med n_months) as [p|]; [|discriminate].
  destruct (is_empty p) eqn:He; [discriminate|].
  injection Hsome as <-. split; [reflexivity|exact He].
Qed.

Lemma omap_length_le {A B} (f : A -> option B) (l : list A) :
  (length (omap f l) <= length l)%nat.
Proof.
  induction l as [|x l IH]; [reflexivity|].
  cbn. destruct (f x); cbn; lia.
Qed.

Lemma collected_length (df : DataFrame) (n_months : nat) (medicamentos : list cell) :
  (length (forecasts df n_months medicamentos) <= length medicamentos)%nat.
Proof. apply omap_length_le. Qed.

Lemma fold_left_add_column_fixed (cols new : list string) :
  Forall (fun c => c ∈ cols) new -> fold_left add_column new cols = cols.
Proof.
  induction 1 as [|c new Hc _ IH]; [reflexivity|]. cbn [fold_left].
  unfold add_column at 2. now rewrite (bool_decide_eq_true_2 _ Hc).
Qed.

Lemma concat_all_frames (frames : list DataFrame) (first : DataFrame) :
  columns first = forecast_columns ->
  Forall (fun f => columns f = forecast_columns) frames ->
  columns (concat_all first frames) = forecast_columns /\
  rows (concat_all first frames) = (rows first ++ List.concat (map rows frames))%list.
Proof.
  unfold concat_all. revert first.
  induction frames as [|f frames IH]; intros first Hfirst Hall; cbn [fold_left map List.concat].
  - split; [exact Hfirst|now rewrite app_nil_r].
  - inversion Hall as [|? ? Hf Hrest]; subst.
    destruct (IH (concat first f)) as [Hc Hr]; [|exact Hrest|].
    + unfold concat. cbn [columns]. rewrite Hfirst, Hf.
      apply fold_left_add_column_fixed. apply Forall_forall. auto.
    + split; [exact Hc|]. rewrite Hr. cbn [rows concat]. now rewrite <- app_assoc.
Qed.

Lemma concat_length_uniform {A} (n : nat) (blocks : list (list A)) :
  Forall (fun b => length b = n) blocks ->
  length (List.concat blocks) = (length blocks * n)%nat.
Proof.
  induction 1 as [|b blocks Hb _ IH]; [reflexivity|].
  cbn [List.concat length]. rewrite length_app, Hb, IH. lia.
Qed.

(** X21. [predict_all_medications] raises [KeyError] for a table without
    a column [medicamento] and nothing else: a forecast that fails is
    left out without a word in the result.  Its result is the empty frame
    or has the four columns of the forecast records; it holds [n_months]
    records for each of [k] medications, [k] at most the number of
    distinct names; and every record is a well-formed forecast record
    for a name of the table. *)
Theorem predict_all_medications_records (df : DataFrame) (n_months : nat) :
  match predict_all_medications model_predict create_features month_sin month_cos
          df n_months with
  | Raise e => e = KeyError "medicamento" /\ "medicamento" ∉ columns df
  | Ok out =>
      "medicamento" ∈ columns df /\
      (out = empty_frame \/ columns out = forecast_columns) /\
      (exists k, (k <= length (unique (map (fun row => cell_of row "medicamento") (rows df))))%nat /\
                 length (rows out) = (k * n_months)%nat) /\
      Forall (fun record =>
                exists med, med ∈ map (fun row => cell_of row "medicamento") (rows df) /\
                            forecast_record med record)
             (rows out)
  end.
Proof.
  unfold predict_all_medications, column.
  destruct (bool_decide ("medicamento" ∈ columns df)) eqn:Hcol.
  2:{ apply bool_decide_eq_false in Hcol. split; [reflexivity|exact Hcol]. }
  apply bool_decide_eq_true in Hcol.
  cbn [base.mbind result_bind Frame.bind].
  set (cells := map (fun row => cell_of row "medicamento") (rows df)).
  pose proof (collected_frames df n_months (unique cells)) as Hframes.
  pose proof (collected_length df n_months (unique cells)) as Hlen.
  assert (Hshape : Forall (fun pred_df =>
            columns pred_df = forecast_columns /\
            length (rows pred_df) = n_months /\
            Forall (fun record => exists med, med ∈ cells /\ forecast_record med record)
                   (rows pred_df))
          (forecasts df n_months (unique cells))).
  { eapply Forall_impl; [exact Hframes|]. intros p (med & Hmed & Hrun & He).
    destruct (predict_future_for_records _ _ _ _ Hrun He) as (Hc & Hn & Hall).
    split; [exact Hc|]. split; [exact Hn|].
    eapply Forall_impl; [exact Hall|]. intros record Hrec. exists med. split; [|exact Hrec].
    unfold unique in Hmed. now apply unique_from_sound in Hmed. }
  destruct (forecasts df n_months (unique cells)) as [|first others].
  - split; [exact Hcol|]. split; [now left|]. split; [|constructor].
    exists 0%nat. split; [lia|reflexivity].
  - inversion Hshape as [|? ? (Hc & Hn & Hall) Hrest]; subst.
    destruct (concat_all_frames others first Hc) as [Hcols Hrows].
    { eapply Forall_impl; [exact Hrest|]. now intros p (H & _). }
    split; [exact Hcol|]. split; [now right|]. split.
    + exists (S (length others)). split; [exact Hlen|].
      rewrite Hrows, length_app, (concat_length_uniform (length (rows first))).
      * rewrite length_map. lia.
      * apply Forall_map. eapply Forall_impl; [exact Hrest|]. now intros p (_ & H & _).
    + rewrite Hrows. apply Forall_app. split; [exact Hall|].
      apply Forall_concat, Forall_map.
      eapply Forall_impl; [exact Hrest|]. now intros p (_ & _ & H).
Qed.

End ForecastAllFacts.

(** ** The predictor and its training data *)

Section TrainingFacts.

Import DataCleaner MedicationPredictor Training.

Variable Estimator : Type.
Variable estimator_predict : Estimator -> list (list Q) -> list num.

Local Open Scope Q_scope.

(** Two traversals that apply equal functions to paired elements. *)
Lemma traverse_paired {A A' B} (f : A -> result B) (g : A' -> result B)
    (l : list A) (l' : list A') :
  Forall2 (fun x x' => f x = g x') l l' -> traverse f l = traverse g l'.
Proof.
  induction 1 as [|x x' l l' Hx _ IH]; [reflexivity|].
  cbn [traverse]. now rewrite Hx, IH.
Qed.

Lemma traverse_pointwise {A B} (f g : A -> result B) (l : list A) :
  Forall (fun x => f x = g x) l -> traverse f l = traverse g l.
Proof.
  intros H. apply traverse_paired. now apply Forall_Forall2_diag.
Qed.

(** The regressor sees a missing value as 0. *)
Lemma feature_value_fillna0 (c : cell) : feature_value (fillna0 c) = feature_value c.
Proof. destruct c as [s|[q|]|y m d]; reflexivity. Qed.

Lemma select_agree (names : list string) (X X' : DataFrame) :
  names <> [] ->
  Forall (fun col => col ∈ columns X <-> col ∈ columns X') names ->
  Forall2 (fun r r' : Row =>
             Forall (fun col => fillna0 (cell_of r col) = fillna0 (cell_of r' col)) names)
          (rows X) (rows X') ->
  select names X = select names X'.
Proof.
  intros Hne Hcols Hrows. unfold select.
  assert (Hsel : forall cols : list string,
            match names with [] => cols | _ :: _ => names end = names)
    by (destruct names; [congruence|reflexivity]).
  cbv zeta. rewrite !Hsel.
  replace (traverse (fun col => if bool_decide (col ∈ columns X) then Ok col
                                else Raise (KeyError col)) names)
    with (traverse (fun col => if bool_decide (col ∈ columns X') then Ok col
                               else Raise (KeyError col)) names).
  2:{ apply traverse_pointwise. eapply Forall_impl; [exact Hcols|].
      intros col Hiff. cbn beta. now rewrite (bool_decide_ext _ _ Hiff). }
  destruct (traverse _ names) as [checked|]; [|reflexivity].
  cbn [base.mbind result_bind Frame.bind].
  apply traverse_paired. eapply Forall2_impl; [exact Hrows|].
  intros r r' Hall. cbn beta in *. apply traverse_pointwise.
  eapply Forall_impl; [exact Hall|]. intros col E. cbn beta in *.
  now rewrite <- (feature_value_fillna0 (cell_of r col)), E, feature_value_fillna0.
Qed.

(** A prediction is [nan] or a number that is not negative. *)
Definition not_negative (y : num) : Prop :=
  match y with
  | Fin q => 0 <= q
  | NaN => True
  end.

(** X22. With names of features set, [predict] reads the columns of
    those names and nothing else: on two tables that have the same ones
    of these columns and, row by row, the same values in them (a missing
    value counts as 0), it returns the same, whatever else the tables
    hold; and no prediction it returns is negative. *)
Theorem predict_reads_named_features (self : predictor Estimator) (X X' : DataFrame) :
  feature_names self <> [] ->
  Forall (fun col => col ∈ columns X <-> col ∈ columns X') (feature_names self) ->
  Forall2 (fun r r' : Row =>
             Forall (fun col => fillna0 (cell_of r col) = fillna0 (cell_of r' col))
                    (feature_names self))
          (rows X) (rows X') ->
  predict estimator_predict self X = predict estimator_predict self X' /\
  forall ys, predict estimator_predict self X = Ok ys -> Forall not_negative ys.
Proof.
  intros Hne Hcols Hrows. unfold predict.
  rewrite (select_agree _ X X' Hne Hcols Hrows). split; [reflexivity|].
  intros ys. destruct (select _ X') as [m|]; [|discriminate].
  cbn [base.mbind result_bind Frame.bind]. intros [= <-].
  apply Forall_map, Forall_true. intros [q|]; cbn; [apply Q.le_max_r|exact I].
Qed.

(** *** [prepare_data] *)

Lemma lookup_selected (f : string -> cell) (cols : list string) (col : string) :
  col ∈ cols ->
  (list_to_map (map (fun col => (col, f col)) cols) : Row) !! col = Some (f col).
Proof.
  induction cols as [|c cols IH]; [inversion 1|]. cbn [map list_to_map foldr].
  destruct (decide (c = col)) as [->|Hne].
  - intros _. apply lookup_insert_eq.
  - intros [E|Hin]%elem_of_cons; [congruence|].
    rewrite lookup_insert_ne by exact Hne. now apply IH.
Qed.

(** The row that [fill_missing] makes of a row. *)
Definition filled (cols : list string) (row : Row) : Row :=
  fold_left (fun (r : Row) col => <[col := fillna0 (cell_of r col)]> r) cols row.

Lemma fill_missing_fold (cols : list string) (X : DataFrame) :
  Forall (fun col => col ∈ columns X) cols ->
  fold_left (fun X col => map_column col fillna0 X) cols X =
  mkFrame (columns X) (map (filled cols) (rows X)).
Proof.
  revert X. induction cols as [|c cols IH]; intros X Hall; cbn [fold_left].
  - destruct X as [cs rs]. cbn. now rewrite map_id.
  - inversion Hall as [|? ? Hc Hrest]; subst.
    assert (Hcols : columns (map_column c fillna0 X) = columns X).
    { unfold map_column, add_column. cbn. now rewrite (bool_decide_eq_true_2 _ Hc). }
    rewrite IH by (now rewrite Hcols). rewrite Hcols. f_equal.
    unfold map_column. cbn [rows]. now rewrite map_map.
Qed.

Lemma fillna0_twice (c : cell) : fillna0 (fillna0 c) = fillna0 c.
Proof. destruct c as [s|[q|]|y m d]; reflexivity. Qed.

Lemma fillna0_present (c : cell) : isna (fillna0 c) = false.
Proof. destruct c as [s|[q|]|y m d]; reflexivity. Qed.

Lemma filled_lookup (cols : list string) (row : Row) (col : string) :
  (col ∈ cols -> filled cols row !! col = Some (fillna0 (cell_of row col))) /\
  (col ∉ cols -> filled cols row !! col = row !! col).
Proof.
  unfold filled. revert row. induction cols as [|c cols IH]; intros row; cbn [fold_left].
  - split; [inversion 1|reflexivity].
  - destruct (IH (<[c := fillna0 (cell_of row c)]> row)) as [IH1 IH2].
    destruct (decide (c = col)) as [->|Hne].
    + split; [intros _|intros H; exfalso; apply H; left].
      destruct (decide (col ∈ cols)) as [Hin|Hout].
      * rewrite (IH1 Hin). unfold cell_of at 1, row_get. rewrite lookup_insert_eq.
        cbn. now rewrite fillna0_twice.
      * rewrite (IH2 Hout). apply lookup_insert_eq.
    + split.
      * intros [E|Hin]%elem_of_cons; [congruence|]. rewrite (IH1 Hin).
        unfold cell_of, row_get. now rewrite lookup_insert_ne by exact Hne.
      * intros Hout. rewrite IH2 by (intros H; apply Hout; now right).
        now rewrite lookup_insert_ne by exact Hne.
Qed.

Lemma filter_sublist {A} (f : A -> bool) (l : list A) : List.filter f l `sublist_of` l.
Proof.
  induction l as [|x l IH]; cbn; [constructor|].
  destruct (f x); [apply sublist_skip|apply sublist_cons]; exact IH.
Qed.

(** X23. [prepare_data] raises [KeyError] exactly when the table has no
    column [consumo].  Otherwise it keeps the model and the metrics,
    names as features the columns of the table in their order without
    the five identifying ones, and returns a table [X] of these columns
    with a row for each row of the table and no missing value; and with
    these names, [predict] on the whole table is [predict] on [X]. *)
Theorem prepare_data_features (self : predictor Estimator) (df : DataFrame) :
  match prepare_data self df with
  | Raise e => e = KeyError "consumo" /\ "consumo" ∉ columns df
  | Ok (self', X, y) =>
      "consumo" ∈ columns df /\
      model self' = model self /\ metrics self' = metrics self /\
      feature_names self' `sublist_of` columns df /\
      (forall col, col ∈ feature_names self' <-> col ∈ columns df /\ col ∉ exclude_cols) /\
      columns X = feature_names self' /\
      length (rows X) = length (rows df) /\
      y = map (fun row => cell_of row "consumo") (rows df) /\
      Forall (fun row : Row =>
                Forall (fun col => exists c, row !! col = Some c /\ isna c = false)
                       (columns X))
             (rows X) /\
      (feature_names self' <> [] ->
       predict estimator_predict self' df = predict estimator_predict self' X)
  end.
Proof.
  unfold prepare_data, ConsumptionPredictor.column.
  destruct (bool_decide ("consumo" ∈ columns df)) eqn:Hcol.
  2:{ apply bool_decide_eq_false in Hcol. split; [reflexivity|exact Hcol]. }
  apply bool_decide_eq_true in Hcol. cbn [base.mbind result_bind Frame.bind].
  set (feature_cols := List.filter (fun col => negb (bool_decide (col ∈ exclude_cols)))
                                   (columns df)).
  assert (Hfeat : forall col, col ∈ feature_cols <-> col ∈ columns df /\ col ∉ exclude_cols).
  { intros col. unfold feature_cols. rewrite list_elem_of_In, filter_In, <- list_elem_of_In.
    rewrite negb_true_iff, bool_decide_eq_false. reflexivity. }
  unfold fill_missing. rewrite fill_missing_fold by (apply Forall_forall; auto).
  cbn [columns rows select_columns feature_names model metrics].
  split; [exact Hcol|]. split; [reflexivity|]. split; [reflexivity|].
  split; [apply filter_sublist|]. split; [exact Hfeat|]. split; [reflexivity|].
  split; [now rewrite !length_map|]. split; [reflexivity|]. split.
  - apply Forall_map, Forall_map, Forall_true. intros row.
    apply Forall_forall. intros col Hin.
    exists (fillna0 (cell_of (list_to_map (map (fun col => (col, cell_of row col))
                                              feature_cols) : Row) col)).
    split; [now apply filled_lookup|apply fillna0_present].
  - intros Hne. unfold predict. cbn [feature_names model].
    rewrite (select_agree feature_cols df
               (mkFrame feature_cols
                  (map (filled feature_cols)
                     (map (fun row : Row =>
                             list_to_map (map (fun col => (col, cell_of row col))
                                              feature_cols) : Row) (rows df)))));
      [reflexivity|exact Hne| |].
    + apply Forall_forall. intros col Hin. cbn [columns].
      split; [intros _; exact Hin|intros _; now apply Hfeat].
    + cbn [rows]. rewrite map_map. apply Forall2_fmap_r, Forall_Forall2_diag, Forall_true.
      intros row. apply Forall_forall. intros col Hin.
      unfold cell_of at 2, row_get.
      destruct (filled_lookup feature_cols
                  (list_to_map (map (fun col => (col, cell_of row col)) feature_cols)) col)
        as [Hl _].
      rewrite (Hl Hin). cbn [default from_option id].
      unfold cell_of at 2, row_get. rewrite lookup_selected by exact Hin.
      cbn [default from_option id]. now rewrite fillna0_twice.
Qed.

End TrainingFacts.

(** A row of features with its medication, and the same features alone;
    the year is missing in the first and 0 in the second. *)
Definition sample_features : DataFrame :=
  mkFrame ["medicamento"; "mes"; "ano"]
    [ list_to_map [("medicamento", CStr "DIPIRONA"); ("mes", CNum (Fin 2));
                   ("ano", CNum NaN)] ].

Definition sample_features_only : DataFrame :=
  mkFrame ["mes"; "ano"]
    [ list_to_map [("mes", CNum (Fin 2)); ("ano", CNum (Fin 0))] ].

(** A regressor that answers its constant plus the first feature. *)
Definition sample_regressor (c : Q) (X : list (list Q)) : list num :=
  map (fun row => Fin (c + hd 0%Q row)) X.

Lemma predict_reads_named_features_witness :
  MedicationPredictor.predict sample_regressor sample_predictor sample_features =
  MedicationPredictor.predict sample_regressor sample_predictor sample_features_only /\
  forall ys,
    MedicationPredictor.predict sample_regressor sample_predictor sample_features = Ok ys ->
    Forall not_negative ys.
Proof.
  apply (predict_reads_named_features Q sample_regressor sample_predictor
           sample_features sample_features_only).
  - discriminate.
  - cbn. repeat constructor.
  - cbn. repeat constructor.
Defined.
